(** * slack-event-bot: the event store, the /event command and the reminder tick

    A shallow embedding of the three drafts of the bot that the repository
    holds, and the properties of its specification checked against them.

    - [P001]  : src/unnamed/part_001 (the draft with [postReminder]);
    - [P000a] : src/unnamed/part_000, first document (the draft whose
                [nextId] is a [reduce]): its [nextId], its command and its
                tick;
    - [P000b] : src/unnamed/part_000, second document (the draft with
                [parseAddArgs] and the [del] subcommand);
    - [Index] : src/index.js, the job that reads a spreadsheet, from the
                point where the rows have been fetched.

    Conventions.
    - A JavaScript string is a [string] holding its UTF-8 bytes.
    - A JavaScript number is a [num]: NaN, the two infinities, or the
      rational value of a 64-bit float.  What an addition or the reading of a
      literal yields is rounded to the nearest float by [toDouble].  The sign
      of zero is not kept.
    - A handler or a tick runs from start to end without interleaving; the
      file system and the messaging client are an explicit [world]. *)

From Stdlib Require Import ZArith QArith Qreduction List String Ascii Bool Lia Lqa.
From Stdlib Require Import Sorting.Sorted Sorting.Permutation.
Import ListNotations.

Local Open Scope string_scope.
Local Open Scope Z_scope.

(* ================================================================== *)
(** * The language and its library, as far as the bot uses them *)
(* ================================================================== *)

Module Js.

(** ** Characters and digits *)

Definition nl : string := String (ascii_of_nat 10) "".

Definition isDigit (c : ascii) : bool :=
  let n := nat_of_ascii c in (48 <=? n)%nat && (n <=? 57)%nat.

Definition digitVal (c : ascii) : Z := Z.of_nat (nat_of_ascii c) - 48.

Definition digitChar (d : Z) : ascii := ascii_of_nat (Z.to_nat (d + 48)).

(** ** White space

    [String.prototype.trim] and the class [\s] of a regular expression strip
    the same code points: TAB, LF, VT, FF, CR, SPACE, U+00A0, U+1680,
    U+2000..U+200A, U+2028, U+2029, U+202F, U+205F, U+3000 and U+FEFF.
    [wsLen s] is the number of bytes of the white-space code point [s] starts
    with, or 0 when it starts with none. *)

Definition byte (c : ascii) : nat := nat_of_ascii c.

Definition wsLen (s : string) : nat :=
  match s with
  | EmptyString => 0
  | String a r =>
    let x := byte a in
    if ((9 <=? x) && (x <=? 13) || (x =? 32))%nat then 1
    else match r with
    | EmptyString => 0
    | String b r' =>
      let y := byte b in
      if ((x =? 194) && (y =? 160))%nat then 2
      else match r' with
      | EmptyString => 0
      | String c _ =>
        let z := byte c in
        if ((x =? 225) && (y =? 154) && (z =? 128)
            || (x =? 226) && (y =? 128)
               && ((128 <=? z) && (z <=? 138) || (z =? 168) || (z =? 169) || (z =? 175))
            || (x =? 226) && (y =? 129) && (z =? 159)
            || (x =? 227) && (y =? 128) && (z =? 128)
            || (x =? 239) && (y =? 187) && (z =? 191))%nat then 3
        else 0
      end
    end
  end%nat.

(** [s.trimStart()]: [skip] counts the bytes of a white-space code point that
    are still to be dropped. *)
Fixpoint trimStart_from (skip : nat) (s : string) : string :=
  match s with
  | EmptyString => EmptyString
  | String c r =>
    match skip with
    | S k => trimStart_from k r
    | O => match wsLen s with
           | O => s
           | S k => trimStart_from k r
           end
    end
  end.

Definition trimStart (s : string) : string := trimStart_from 0 s.

(** [s.trimEnd()]: [pending] holds the white space read since the last
    character that is kept; it is emitted only when another character
    follows. *)
Fixpoint trimEnd_from (skip : nat) (pending : string) (s : string) : string :=
  match s with
  | EmptyString => EmptyString
  | String c r =>
    match skip with
    | S k => trimEnd_from k (pending ++ String c "") r
    | O => match wsLen s with
           | O => pending ++ String c (trimEnd_from 0 "" r)
           | S k => trimEnd_from k (pending ++ String c "") r
           end
    end
  end.

Definition trimEnd (s : string) : string := trimEnd_from 0 "" s.

Definition trim (s : string) : string := trimEnd (trimStart s).

(** [s.split(/\s+/)]: the pieces between maximal runs of white space.  As in
    JavaScript the empty string splits into one empty piece, and white space
    at either end leaves an empty piece there. *)
Fixpoint split_from (skip : nat) (inws : bool) (cur : string) (s : string)
  : list string :=
  match s with
  | EmptyString => [cur]
  | String c r =>
    match skip with
    | S k => split_from k inws cur r
    | O => match wsLen s with
           | O => split_from 0 false (cur ++ String c "") r
           | S k => if inws then split_from k true cur r
                    else cur :: split_from k true "" r
           end
    end
  end.

Definition split_ws (s : string) : list string := split_from 0 false "" s.

(** [a.join(sep)] *)
Fixpoint join (sep : string) (l : list string) : string :=
  match l with
  | [] => ""
  | [x] => x
  | x :: r => x ++ sep ++ join sep r
  end.

(** [a.slice(n)] is [skipn n a]; [a[i]] of a string array is [nth_error]. *)

(** ** The two regular expressions of the add command *)

(** [/^\d{4}-\d{2}-\d{2}$/.test(s)] *)
Definition isDateText (s : string) : bool :=
  match s with
  | String y1 (String y2 (String y3 (String y4 (String h1
    (String m1 (String m2 (String h2 (String d1 (String d2 EmptyString))))))))) =>
      isDigit y1 && isDigit y2 && isDigit y3 && isDigit y4 && Ascii.eqb h1 "-"
      && isDigit m1 && isDigit m2 && Ascii.eqb h2 "-" && isDigit d1 && isDigit d2
  | _ => false
  end.

(** [/^\d{2}:\d{2}$/.test(s)] *)
Definition isTimeText (s : string) : bool :=
  match s with
  | String a (String b (String c (String d (String e EmptyString)))) =>
      isDigit a && isDigit b && Ascii.eqb c ":" && isDigit d && isDigit e
  | _ => false
  end.

(** ** Numbers *)

Inductive num : Type :=
| NaN
| PosInf
| NegInf
| Fin (q : Q).

Definition ofZ (z : Z) : num := Fin (inject_Z z).

(** [Number.isNaN(n)] *)
Definition isNaN (n : num) : bool :=
  match n with NaN => true | _ => false end.

(** [Number.isInteger(n)] *)
Definition isInteger (n : num) : bool :=
  match n with
  | Fin q => Pos.eqb (Qden (Qred q)) 1
  | _ => false
  end.

(** [a <= b] on numbers; false as soon as one side is NaN. *)
Definition num_leb (a b : num) : bool :=
  match a, b with
  | NaN, _ | _, NaN => false
  | NegInf, _ => true
  | _, PosInf => true
  | Fin p, Fin q => Qle_bool p q
  | _, _ => false
  end.

(** [a === b] on numbers: NaN equals nothing. *)
Definition num_eqb (a b : num) : bool :=
  match a, b with
  | PosInf, PosInf | NegInf, NegInf => true
  | Fin p, Fin q => Qeq_bool p q
  | _, _ => false
  end.

Definition num_ltb (a b : num) : bool := num_leb a b && negb (num_eqb a b).

(** [Math.max(a, b)] *)
Definition Math_max (a b : num) : num :=
  match a, b with
  | NaN, _ | _, NaN => NaN
  | _, _ => if num_leb a b then b else a
  end.

(** ** Rounding to a 64-bit float

    [toDouble q] is the float nearest to the rational [q], the one with the
    even significand when two are equally near, and an infinity from
    2^1024 - 2^970 on.  A float has a significand of 53 binary digits, and
    its last digit counts no less than 2^-1074. *)

(** [n / d] rounded to the nearest integer, to the even one from half way
    between two; [0 <= n] and [0 < d]. *)
Definition nearestEven (n d : Z) : Z :=
  let q := n / d in
  let r := n mod d in
  if 2 * r <? d then q
  else if d <? 2 * r then q + 1
  else if Z.even q then q else q + 1.

(** The [e] with [2^e <= a/d < 2^(e+1)], for [0 < a] and [0 < d]. *)
Definition binade (a d : Z) : Z :=
  let e := Z.log2 a - Z.log2 d in
  if (if 0 <=? e then a <? d * 2 ^ e else a * 2 ^ (- e) <? d) then e - 1 else e.

(** The float nearest to [a/d], for [0 < a] and [0 < d]; [2^u] is what the
    last digit of the significand counts. *)
Definition roundPositive (a d : Z) : num :=
  let u := Z.max (binade a d - 52) (-1074) in
  if 0 <=? u then
    let m := nearestEven a (d * 2 ^ u) in
    if 1024 <=? Z.log2 m + u then PosInf else Fin (inject_Z (m * 2 ^ u))
  else
    Fin (Qred (nearestEven (a * 2 ^ (- u)) d # Z.to_pos (2 ^ (- u)))).

(** [- n] *)
Definition negate (n : num) : num :=
  match n with
  | NaN => NaN
  | PosInf => NegInf
  | NegInf => PosInf
  | Fin q => Fin (Qred (- q))
  end.

Definition toDouble (q : Q) : num :=
  match Qnum (Qred q) with
  | Z0 => Fin 0
  | Zpos a => roundPositive (Zpos a) (Zpos (Qden (Qred q)))
  | Zneg a => negate (roundPositive (Zpos a) (Zpos (Qden (Qred q))))
  end.

(** [n + 1] *)
Definition succ (n : num) : num :=
  match n with
  | Fin q => toDouble (q + 1)
  | _ => n
  end.

(** ** Decimal digits *)

Fixpoint decimal_from (fuel : nat) (n : Z) (acc : string) : string :=
  match fuel with
  | O => acc
  | S f =>
    let acc' := String (digitChar (n mod 10)) acc in
    if n / 10 =? 0 then acc' else decimal_from f (n / 10) acc'
  end.

(** The decimal digits of [n >= 0], without leading zeros. *)
Definition decimal (n : Z) : string :=
  decimal_from (S (Z.to_nat (Z.log2 n))) n "".

(** A field that [Intl.DateTimeFormat] renders as ["2-digit"], and
    [String(n).padStart(2, "0")] for [0 <= n <= 99]. *)
Definition twoDigits (n : Z) : string :=
  String (digitChar (n / 10)) (String (digitChar (n mod 10)) "").

(** [s.padStart(2, "0")] *)
Definition padStart2 (s : string) : string :=
  match s with
  | EmptyString => "00"
  | String c EmptyString => String "0" s
  | _ => s
  end.

Definition pow10 (e : Z) : Q := Qpower (inject_Z 10) e.

(** ** Printing a number: [String(n)]

    [Number::toString] prints the digits [s] of the shortest decimal
    [s * 10^(n-k)], of [k] digits, that reads back as the same float, and of
    several of that length the one nearest to the float; it writes them out
    in full while [-6 < n <= 21] and with an exponent otherwise. *)

(** The number of zeros between the decimal point and the first digit that
    is not zero, for [0 < a/d < 1]. *)
Fixpoint leadingZeros (fuel : nat) (a d : Z) : Z :=
  match fuel with
  | O => 0
  | S f => if d <=? 10 * a then 0 else 1 + leadingZeros f (10 * a) d
  end.

(** The [n] with [10^(n-1) <= a/d < 10^n]; a float that is not zero is no
    smaller than 10^-324. *)
Definition decade (a d : Z) : Z :=
  if d <=? a then Z.of_nat (String.length (decimal (a / d)))
  else - leadingZeros 400 a d.

(** The decimal [s * 10^e] reads back as the float [a/d]. *)
Definition readsBack (a d s e : Z) : bool :=
  num_eqb (toDouble (inject_Z s * pow10 e)) (Fin (a # Z.to_pos d)).

(** The digits [s] and the [n] of the shortest decimal that reads back as
    [a/d], having tried all lengths below [k]: with [k] digits the candidates
    are the two decimals next to [a/d].  One that rounds up to [10^k] is the
    single digit 1 of the next decade.  A float needs no more than 17
    digits. *)
Fixpoint shortest (fuel : nat) (a d n k : Z) : Z * Z :=
  let e := n - k in
  let num := if 0 <=? e then a else a * 10 ^ (- e) in
  let den := if 0 <=? e then d * 10 ^ e else d in
  let lo := num / den in
  let hi := lo + 1 in
  let nearest := nearestEven num den in
  let carried s := if s =? 10 ^ k then (1, n + 1) else (s, n) in
  match fuel with
  | O => carried nearest
  | S f =>
    if num mod den =? 0 then (lo, n)
    else if readsBack a d lo e && readsBack a d hi e then carried nearest
    else if readsBack a d lo e then (lo, n)
    else if readsBack a d hi e then carried hi
    else shortest f a d n (k + 1)
  end.

Fixpoint zeros (n : nat) : string :=
  match n with
  | O => ""
  | S k => String "0" (zeros k)
  end.

Definition positiveToString (a d : Z) : string :=
  let '(s, n) := shortest 16 a d (decade a d) 1 in
  let ds := decimal s in
  let k := Z.of_nat (String.length ds) in
  if (k <=? n) && (n <=? 21) then ds ++ zeros (Z.to_nat (n - k))
  else if (0 <? n) && (n <=? 21) then
    substring 0 (Z.to_nat n) ds ++ "." ++ substring (Z.to_nat n) (Z.to_nat (k - n)) ds
  else if (-6 <? n) && (n <=? 0) then "0." ++ zeros (Z.to_nat (- n)) ++ ds
  else
    (if k =? 1 then ds
     else substring 0 1 ds ++ "." ++ substring 1 (Z.to_nat (k - 1)) ds)
    ++ "e" ++ (if n - 1 <? 0 then "-" else "+") ++ decimal (Z.abs (n - 1)).

(** [String(n)], as a template literal renders a number. *)
Definition Number_toString (n : num) : string :=
  match n with
  | NaN => "NaN"
  | PosInf => "Infinity"
  | NegInf => "-Infinity"
  | Fin q =>
    match Qnum (Qred q) with
    | Z0 => "0"
    | Zpos a => positiveToString (Zpos a) (Zpos (Qden (Qred q)))
    | Zneg a => "-" ++ positiveToString (Zpos a) (Zpos (Qden (Qred q)))
    end
  end.

(** ** Reading a number from a string: [Number(s)] *)

Fixpoint takeDigits (s : string) : string * string :=
  match s with
  | String c r =>
    if isDigit c then let '(d, r') := takeDigits r in (String c d, r')
    else ("", s)
  | EmptyString => ("", "")
  end.

Fixpoint digitsValue (acc : Z) (s : string) : Z :=
  match s with
  | EmptyString => acc
  | String c r => digitsValue (10 * acc + digitVal c) r
  end.

(** The value of a digit of base 16, 8 or 2, if [c] is one. *)
Definition radixDigit (radix : Z) (c : ascii) : option Z :=
  let x := Z.of_nat (nat_of_ascii c) in
  let v := if (48 <=? x) && (x <=? 57) then x - 48
           else if (97 <=? x) && (x <=? 102) then x - 87
           else if (65 <=? x) && (x <=? 70) then x - 55
           else 99 in
  if v <? radix then Some v else None.

Fixpoint radixValue (radix : Z) (acc : Z) (s : string) : option Z :=
  match s with
  | EmptyString => Some acc
  | String c r =>
    match radixDigit radix c with
    | Some v => radixValue radix (radix * acc + v) r
    | None => None
    end
  end.

(** An optional exponent part [e±ddd] that must reach the end of the string. *)
Definition exponentPart (s : string) : option Z :=
  match s with
  | EmptyString => Some 0
  | String c r =>
    if Ascii.eqb c "e" || Ascii.eqb c "E" then
      let '(neg, r1) :=
        match r with
        | String "-" r' => (true, r')
        | String "+" r' => (false, r')
        | _ => (false, r)
        end in
      let '(ds, r2) := takeDigits r1 in
      if String.eqb ds "" || negb (String.eqb r2 "") then None
      else Some (if neg then - digitsValue 0 ds else digitsValue 0 ds)
    else None
  end.

(** The value of an unsigned decimal literal: [ddd], [ddd.], [ddd.ddd],
    [.ddd], each with an optional exponent. *)
Definition unsignedDecimal (s : string) : option Q :=
  let '(ip, r1) := takeDigits s in
  let '(fp, r2) :=
    match r1 with
    | String "." r => takeDigits r
    | _ => ("", r1)
    end in
  let dotted := match r1 with String "." _ => true | _ => false end in
  if String.eqb ip "" && String.eqb fp "" then None
  else if String.eqb ip "" && negb dotted then None
  else match exponentPart r2 with
       | None => None
       | Some e =>
         Some (Qred (inject_Z (digitsValue 0 (ip ++ fp))
                     * pow10 (e - Z.of_nat (String.length fp))))
       end.

Definition signedDecimal (s : string) : num :=
  let '(neg, r) :=
    match s with
    | String "-" r' => (true, r')
    | String "+" r' => (false, r')
    | _ => (false, s)
    end in
  if String.eqb r "Infinity" then (if neg then NegInf else PosInf)
  else match unsignedDecimal r with
       | Some q => toDouble (if neg then - q else q)
       | None => NaN
       end.

Definition nonDecimal (radix : Z) (digits : string) : num :=
  if String.eqb digits "" then NaN
  else match radixValue radix 0 digits with
       | Some v => toDouble (inject_Z v)
       | None => NaN
       end.

(** [Number(s)] for a string [s]: the float nearest to the value of the
    literal. *)
Definition Number_of_string (s : string) : num :=
  let t := trim s in
  match t with
  | EmptyString => ofZ 0
  | String "0" (String p r) =>
    if Ascii.eqb p "x" || Ascii.eqb p "X" then nonDecimal 16 r
    else if Ascii.eqb p "o" || Ascii.eqb p "O" then nonDecimal 8 r
    else if Ascii.eqb p "b" || Ascii.eqb p "B" then nonDecimal 2 r
    else signedDecimal t
  | _ => signedDecimal t
  end.

(** ** Values: what a property read from the JSON store can hold *)

Inductive value : Type :=
| VUndefined
| VNull
| VBool (b : bool)
| VNumber (n : num)
| VString (s : string).

(** [Number(v)] *)
Definition Number (v : value) : num :=
  match v with
  | VUndefined => NaN
  | VNull => ofZ 0
  | VBool b => ofZ (if b then 1 else 0)
  | VNumber n => n
  | VString s => Number_of_string s
  end.

(** [String(v)], what [`${v}`] renders. *)
Definition toString (v : value) : string :=
  match v with
  | VUndefined => "undefined"
  | VNull => "null"
  | VBool b => if b then "true" else "false"
  | VNumber n => Number_toString n
  | VString s => s
  end.

(** [v === n] for a number [n]: no coercion. *)
Definition strictEqNumber (v : value) (n : num) : bool :=
  match v with
  | VNumber m => num_eqb m n
  | _ => false
  end.

(** [n || 0] on a number: 0 and NaN are falsy. *)
Definition orZero (n : num) : num :=
  match n with
  | NaN => ofZ 0
  | Fin q => if Qeq_bool q 0 then ofZ 0 else n
  | _ => n
  end.

(** What [JSON.parse(JSON.stringify(v))] makes of a property value: a number
    that is not finite is written as [null]; an undefined property is left
    out and reads back as undefined. *)
Definition jsonValue (v : value) : value :=
  match v with
  | VNumber NaN | VNumber PosInf | VNumber NegInf => VNull
  | _ => v
  end.

(** ** Dates

    A [Date] holds a time value: milliseconds since 1970-01-01T00:00Z, or
    NaN for an invalid date ([None] here). *)

Definition msPerMinute : Z := 60000.
Definition msPerHour : Z := 3600000.
Definition msPerDay : Z := 86400000.

(** Day number of a date of the proleptic Gregorian calendar, counted from
    1970-01-01, and its inverse. *)
Definition days_from_civil (y m d : Z) : Z :=
  let y' := if m <=? 2 then y - 1 else y in
  let era := y' / 400 in
  let yoe := y' - era * 400 in
  let mp := if m <=? 2 then m + 9 else m - 3 in
  let doy := (153 * mp + 2) / 5 + d - 1 in
  let doe := yoe * 365 + yoe / 4 - yoe / 100 + doy in
  era * 146097 + doe - 719468.

Definition civil_from_days (z0 : Z) : Z * Z * Z :=
  let z := z0 + 719468 in
  let era := z / 146097 in
  let doe := z - era * 146097 in
  let yoe := (doe - doe / 1460 + doe / 36524 - doe / 146096) / 365 in
  let y := yoe + era * 400 in
  let doy := doe - (365 * yoe + yoe / 4 - yoe / 100) in
  let mp := (5 * doy + 2) / 153 in
  let d := doy - (153 * mp + 2) / 5 + 1 in
  let m := if mp <? 10 then mp + 3 else mp - 9 in
  (if m <=? 2 then y + 1 else y, m, d).

Definition isLeapYear (y : Z) : bool :=
  (y mod 4 =? 0) && negb (y mod 100 =? 0) || (y mod 400 =? 0).

Definition daysInMonth (y m : Z) : Z :=
  if m =? 2 then (if isLeapYear y then 29 else 28)
  else if (m =? 4) || (m =? 6) || (m =? 9) || (m =? 11) then 30
  else 31.

Definition digits2 (s : string) : option (Z * string) :=
  match s with
  | String a (String b r) =>
    if isDigit a && isDigit b then Some (10 * digitVal a + digitVal b, r)
    else None
  | _ => None
  end.

Definition digits4 (s : string) : option (Z * string) :=
  match digits2 s with
  | Some (hi, r) =>
    match digits2 r with
    | Some (lo, r') => Some (100 * hi + lo, r')
    | None => None
    end
  | None => None
  end.

Definition expect (c : ascii) (s : string) : option string :=
  match s with
  | String a r => if Ascii.eqb a c then Some r else None
  | EmptyString => None
  end.

Notation "' p <- e ;; k" :=
  (match e with Some p => k | None => None end)
  (at level 61, p pattern, e at next level, right associativity).

(** [new Date(s).getTime()] for a string of the shape the bot stores,
    [YYYY-MM-DDTHH:mm:00+09:00].  The ranges are the ones Node's engine
    enforces on this format: month 01-12, day 01-31 (a day past the end of
    the month runs on into the next month), hour 00-24 with 24 only as
    24:00, minute 00-59.  The engine reads further shapes, which no command
    of the bot writes (an instant in UTC such as 2026-01-12T00:30:00Z, a
    date alone, the formats of its fallback parser); a string of another
    shape is not covered and counts as invalid here, so a property of the
    records with a valid date speaks of records of this shape. *)
Definition Date_parse (s : string) : option Z :=
  ' (y, s) <- digits4 s ;;
  ' s <- expect "-" s ;;
  ' (mo, s) <- digits2 s ;;
  ' s <- expect "-" s ;;
  ' (d, s) <- digits2 s ;;
  ' s <- expect "T" s ;;
  ' (h, s) <- digits2 s ;;
  ' s <- expect ":" s ;;
  ' (mi, s) <- digits2 s ;;
  if String.eqb s ":00+09:00"
     && (1 <=? mo) && (mo <=? 12) && (1 <=? d) && (d <=? 31)
     && (h <=? 24) && (mi <=? 59) && ((h <? 24) || (mi =? 0))
  then Some ((days_from_civil y mo 1 + (d - 1)) * msPerDay
             + h * msPerHour + mi * msPerMinute - 9 * msPerHour)
  else None.

(** ** The host: its time-zone database and the process environment

    [zoneOffset name t] is the offset from UTC, in milliseconds, that the
    zone database gives zone [name] at time value [t]; [localOffset] is the
    same for the zone the process runs in.  [TARGET_CHANNEL_ID] is the
    environment variable of that name, [None] when it is not set. *)
Record host : Type := mkHost {
  zoneOffset : string -> Z -> Z;
  localOffset : Z -> Z;
  TARGET_CHANNEL_ID : option string
}.

(** The year of a date as a ["numeric"] part: the year of the era, without
    padding. *)
Definition yearText (y : Z) : string :=
  decimal (if y <=? 0 then 1 - y else y).

(** [String(z)] for an integer. *)
Definition intText (z : Z) : string :=
  if z <? 0 then "-" ++ decimal (- z) else decimal z.

(** The parts that
    [new Intl.DateTimeFormat("ja-JP", {timeZone, year: "numeric", month: "2-digit",
     day: "2-digit", hour: "2-digit", minute: "2-digit", hour12: false})
     .formatToParts(d)]
    yields for a valid date, put together as
    [`${year}-${month}-${day} ${hour}:${minute}`]. *)
Definition minuteKey (offset t : Z) : string :=
  let lt := t + offset in
  let '(y, m, d) := civil_from_days (lt / msPerDay) in
  let ms := lt mod msPerDay in
  yearText y ++ "-" ++ twoDigits m ++ "-" ++ twoDigits d ++ " "
    ++ twoDigits (ms / msPerHour) ++ ":" ++ twoDigits ((ms / msPerMinute) mod 60).

(** The same string built from [getFullYear], [getMonth() + 1], [getDate],
    [getHours] and [getMinutes], the last four through
    [String(..).padStart(2, "0")]. *)
Definition gettersKey (offset t : Z) : string :=
  let lt := t + offset in
  let '(y, m, d) := civil_from_days (lt / msPerDay) in
  let ms := lt mod msPerDay in
  intText y ++ "-" ++ twoDigits m ++ "-" ++ twoDigits d ++ " "
    ++ twoDigits (ms / msPerHour) ++ ":" ++ twoDigits ((ms / msPerMinute) mod 60).

End Js.

(* ================================================================== *)
(** * The store, the outside world and the effects of a handler *)
(* ================================================================== *)

Module Store.
Import Js.

(** An event record as the add command writes it.  [id] is kept as a raw
    value: [nextId] and the remove command coerce it, and a file edited by hand
    can hold anything there. *)
Record event : Type := mkEvent {
  id : value;
  isoJst : string;
  title : string;
  notified : bool
}.

Definition setNotified (e : event) : event :=
  mkEvent (id e) (isoJst e) (title e) true.

(** What [JSON.parse] makes of the text of [events.json]: it throws; or it
    yields something that is not an array, which is a string of [n]
    characters ([Some n]) or an object, a number, a boolean or null
    ([None]); or it yields the array of events. *)
Inductive content : Type :=
| Unparsable (raw : string)
| NonArray (chars : option nat)
| Events (l : list event).

(** A call of [fs.writeFileSync] on the data file: by [ensureDataFile], which
    writes the empty array, or by [saveEvents], which writes what it is
    given: the events, or the string that was loaded in their place. *)
Inductive write : Type :=
| Created
| Saved (l : list event)
| SavedText (chars : nat).

(** The file ([None]: it does not exist), the writes made to it so far, and
    the calls of [chat.postMessage] made so far as (channel, text). *)
Record world : Type := mkWorld {
  file : option content;
  journal : list write;
  outbox : list (string * string)
}.

Inductive error : Type :=
| RangeError   (* Invalid time value *)
| TypeError.

Inductive outcome (A : Type) : Type :=
| Returned (a : A)
| Threw (e : error).
Arguments Returned {A} a.
Arguments Threw {A} e.

(** A computation on the world that returns or throws; what it did to the
    world before it threw stays done. *)
Definition M (A : Type) : Type := world -> outcome A * world.

Definition ret {A} (a : A) : M A := fun w => (Returned a, w).

Definition throw {A} (e : error) : M A := fun w => (Threw e, w).

Definition bind {A B} (m : M A) (k : A -> M B) : M B :=
  fun w =>
    match m w with
    | (Returned a, w') => k a w'
    | (Threw e, w') => (Threw e, w')
    end.

Definition lift {A} (o : outcome A) : M A := fun w => (o, w).

(** The events as [JSON.stringify] writes them and [JSON.parse] reads them
    back. *)
Definition jsonEvent (e : event) : event :=
  mkEvent (jsonValue (id e)) (isoJst e) (title e) (notified e).

Definition writeFile (c : content) (wr : write) : M unit :=
  fun w => (Returned tt, mkWorld (Some c) (journal w ++ [wr]) (outbox w)).

(** [app.client.chat.postMessage({channel, text})]: [net n] tells whether the
    [n]-th call made to the client (counting from 0) resolves. *)
Definition postMessage (net : nat -> bool) (channel text : string) : M bool :=
  fun w =>
    (Returned (net (List.length (outbox w))),
     mkWorld (file w) (journal w) (outbox w ++ [(channel, text)])).

End Store.

Declare Scope js_scope.
Delimit Scope js_scope with js.
Notation "x <- m ;; k" := (Store.bind m (fun x => k))
  (at level 61, m at next level, right associativity) : js_scope.
Notation "m ;;; k" := (Store.bind m (fun _ => k))
  (at level 61, right associativity) : js_scope.

(* ================================================================== *)
(** * src/unnamed/part_001 *)
(* ================================================================== *)

Module P001.
Import Js Store.
Local Open Scope js_scope.

Definition TZ : string := "Asia/Tokyo".

Definition ensureDataFile : M unit :=
  fun w =>
    match file w with
    | None => writeFile (Events []) Created w
    | Some _ => (Returned tt, w)
    end.

(** [JSON.parse] throwing is caught, and a parsed value that is not an array
    is replaced by the empty array. *)
Definition loadEvents : M (list event) :=
  ensureDataFile ;;;
  fun w =>
    match file w with
    | Some (Events l) => (Returned l, w)
    | _ => (Returned [], w)
    end.

Definition saveEvents (events : list event) : M unit :=
  writeFile (Events (map jsonEvent events)) (Saved (map jsonEvent events)).

(** [formatToParts] throws a RangeError on an invalid date. *)
Definition formatJst (h : host) (isoString : string) : outcome string :=
  match Date_parse isoString with
  | Some t => Returned (minuteKey (zoneOffset h TZ t) t)
  | None => Threw RangeError
  end.

(** [now] is the time value of [new Date()]. *)
Definition nowKeyJst (h : host) (now : Z) : string :=
  minuteKey (zoneOffset h TZ now) now.

Definition parseJstToIso (dateStr timeStr : string) : string :=
  dateStr ++ "T" ++ timeStr ++ ":00+09:00".

Definition nextId (events : list event) : num :=
  succ (fold_left
          (fun max e =>
             let n := Number (id e) in
             if negb (isNaN n) then Math_max max n else max)
          events (ofZ 0)).

Definition helpText : string :=
  join nl [
    "使い方:";
    "• /event add YYYY-MM-DD HH:mm タイトル";
    "• /event list";
    "• /event remove ID";
    "";
    "例:";
    "• /event add 2026-01-12 20:27 Render自動投稿テスト";
    "• /event remove 3"
  ].

(** [a.isoJst > b.isoJst ? 1 : -1] is negative.  This comparator never
    answers 0: of two records with the same text it calls each the smaller. *)
Definition precedes (a b : event) : bool := negb (String.ltb (isoJst b) (isoJst a)).

(** [Array.prototype.sort] with a comparator [cmp]; [lt a b] tells whether
    [cmp(a, b) < 0].  The engine sorts by insertion and by merging runs, and
    it always asks [cmp(later, earlier)]: an element moves in front of those
    before it for which the answer is negative, and stays behind the others.
    [insert lt x sorted] puts [x] among the elements that came before it.
    For a comparator that is consistent this is the stable sort; for the one
    above it puts records of the same text in the reverse of their order.
    Where a comparator orders the elements in no consistent way (a
    difference with an invalid date is NaN) the engine's search may find
    another place than the first one. *)
Fixpoint insert {A} (lt : A -> A -> bool) (x : A) (l : list A) : list A :=
  match l with
  | [] => [x]
  | y :: r => if lt x y then x :: l else y :: insert lt x r
  end.

Definition sort {A} (lt : A -> A -> bool) (l : list A) : list A :=
  fold_left (fun sorted x => insert lt x sorted) l [].

Definition listLine (h : host) (e : event) : outcome string :=
  match formatJst h (isoJst e) with
  | Returned k =>
    Returned ("• [" ++ toString (id e) ++ "] " ++ k ++ "  " ++ title e ++ "  "
              ++ (if notified e then "✅" else "⏳"))
  | Threw err => Threw err
  end.

(** The loop that pushes one line per event: it stops at the first line that
    throws. *)
Fixpoint listLines (h : host) (events : list event) : outcome (list string) :=
  match events with
  | [] => Returned []
  | e :: r =>
    match listLine h e with
    | Returned s =>
      match listLines h r with
      | Returned ls => Returned (s :: ls)
      | Threw err => Threw err
      end
    | Threw err => Threw err
    end
  end.

(** [app.command("/event", ...)]: the text given to [respond], after the
    command has been acknowledged.  [text] is [command.text || ""]. *)
Definition command (h : host) (text : string) : M string :=
  let text := trim text in
  if String.eqb text "" then ret helpText
  else
    let tokens := split_ws text in
    let sub := nth 0 tokens "" in
    if String.eqb sub "add" then
      if (List.length tokens <? 4)%nat then
        ret ("❌ 形式が違います。" ++ nl ++ helpText)
      else
        let dateStr := nth 1 tokens "" in
        let timeStr := nth 2 tokens "" in
        let title := join " " (skipn 3 tokens) in
        if negb (isDateText dateStr) || negb (isTimeText timeStr) then
          ret ("❌ 日付/時刻の形式が違います（YYYY-MM-DD / HH:mm）。" ++ nl ++ helpText)
        else
          let isoJst := parseJstToIso dateStr timeStr in
          events <- loadEvents ;;
          let id := nextId events in
          let events := (events ++ [mkEvent (VNumber id) isoJst title false])%list in
          saveEvents events ;;;
          k <- lift (formatJst h isoJst) ;;
          ret ("登録しました ✅ ID=" ++ Number_toString id ++ nl ++ k ++ "  " ++ title)
    else if String.eqb sub "list" then
      loaded <- loadEvents ;;
      let events := sort precedes loaded in
      if (List.length events =? 0)%nat then ret "イベントはありません。"
      else
        lines <- lift (listLines h (firstn 50 events)) ;;
        ret (join nl ("イベント一覧（最大50件）" :: lines))
    else if String.eqb sub "remove" || String.eqb sub "delete" then
      if (List.length tokens <? 2)%nat then
        ret ("❌ remove の形式が違います。" ++ nl ++ "例: /event remove 3")
      else
        let id := Number_of_string (nth 1 tokens "") in
        if isNaN id then
          ret ("❌ ID は数字で指定してください。" ++ nl ++ "例: /event remove 3")
        else
          events <- loadEvents ;;
          let before := List.length events in
          let after := filter (fun e => negb (num_eqb (Number (Store.id e)) id)) events in
          saveEvents after ;;;
          if (List.length after =? before)%nat then
            ret ("⚠️ ID=" ++ Number_toString id ++ " は見つかりませんでした。")
          else
            ret ("削除しました ✅ ID=" ++ Number_toString id)
    else
      ret ("❓ サブコマンドが分かりません。" ++ nl ++ helpText).

(** [postReminder(event)] returns [{ok}]: without a channel it posts
    nothing; a rejected post is caught and logged. *)
Definition postReminder (h : host) (net : nat -> bool) (e : event) : M bool :=
  match TARGET_CHANNEL_ID h with
  | None | Some EmptyString => ret false
  | Some channel =>
    k <- lift (formatJst h (isoJst e)) ;;
    postMessage net channel ("⏰ リマインド" ++ nl ++ k ++ "  " ++ title e)
  end.

(** The [for (const e of events)] loop of [tick]: the events with their
    flags as the loop leaves them, and [changed]. *)
Fixpoint scan (h : host) (net : nat -> bool) (nowKey : string)
    (events : list event) (changed : bool) : M (list event * bool) :=
  match events with
  | [] => ret ([], changed)
  | e :: rest =>
    if notified e then
      r <- scan h net nowKey rest changed ;; ret (e :: fst r, snd r)
    else
      ek <- lift (formatJst h (isoJst e)) ;;
      if String.eqb ek nowKey then
        ok <- postReminder h net e ;;
        if ok then
          r <- scan h net nowKey rest true ;; ret (setNotified e :: fst r, snd r)
        else
          r <- scan h net nowKey rest changed ;; ret (e :: fst r, snd r)
      else
        r <- scan h net nowKey rest changed ;; ret (e :: fst r, snd r)
  end.

Definition tick (h : host) (net : nat -> bool) (now : Z) : M unit :=
  let nowKey := nowKeyJst h now in
  events <- loadEvents ;;
  r <- scan h net nowKey events false ;;
  if snd r then saveEvents (fst r) else ret tt.

End P001.

(* ================================================================== *)
(** * src/unnamed/part_000, first document *)
(* ================================================================== *)

(** This draft has the same [ensureDataFile], [loadEvents], [saveEvents],
    [formatJst], [nowKeyJst], [parseJstToIso] and [helpText] as part_001, word
    for word; they are taken from [P001].  Its [nextId] and the remove branch
    of its command differ, and its tick posts through [tryPostReminder]. *)
Module P000a.
Import Js Store.
Local Open Scope js_scope.

Definition nextId (events : list event) : num :=
  succ (fold_left (fun m e => Math_max m (orZero (Number (id e)))) events (ofZ 0)).

(** [const [sub, ...rest] = text.split(/\s+/)] *)
Definition command (h : host) (text : string) : M string :=
  let text := trim text in
  if String.eqb text "" then ret P001.helpText
  else
    let sub := hd "" (split_ws text) in
    let rest := tl (split_ws text) in
    if String.eqb sub "add" then
      if (List.length rest <? 3)%nat then
        ret ("❌ 形式が違います。" ++ nl ++ P001.helpText)
      else
        let dateStr := nth 0 rest "" in
        let timeStr := nth 1 rest "" in
        let title := join " " (skipn 2 rest) in
        if negb (isDateText dateStr) || negb (isTimeText timeStr) then
          ret ("❌ 日付/時刻の形式が違います（YYYY-MM-DD / HH:mm）。" ++ nl ++ P001.helpText)
        else
          let isoJst := P001.parseJstToIso dateStr timeStr in
          events <- P001.loadEvents ;;
          let id := nextId events in
          let events := (events ++ [mkEvent (VNumber id) isoJst title false])%list in
          P001.saveEvents events ;;;
          k <- lift (P001.formatJst h isoJst) ;;
          ret ("登録しました ✅ ID=" ++ Number_toString id ++ nl ++ k ++ "  " ++ title)
    else if String.eqb sub "list" then
      loaded <- P001.loadEvents ;;
      let events := P001.sort P001.precedes loaded in
      if (List.length events =? 0)%nat then ret "イベントはありません。"
      else
        lines <- lift (P001.listLines h (firstn 50 events)) ;;
        ret (join nl ("イベント一覧（最大50件）" :: lines))
    else if String.eqb sub "remove" || String.eqb sub "delete" then
      match rest with
      | [] => ret ("❌ remove の形式が違います。" ++ nl ++ "例: /event remove 3")
      | idStr :: _ =>
        let id := Number_of_string idStr in
        if String.eqb idStr "" || isNaN id then
          ret ("❌ remove の形式が違います。" ++ nl ++ "例: /event remove 3")
        else
          events <- P001.loadEvents ;;
          let before := List.length events in
          let afterEvents :=
            filter (fun e => negb (num_eqb (Number (Store.id e)) id)) events in
          P001.saveEvents afterEvents ;;;
          if (List.length afterEvents =? before)%nat then
            ret ("⚠️ ID=" ++ Number_toString id ++ " は見つかりませんでした。")
          else
            ret ("削除しました ✅ ID=" ++ Number_toString id)
      end
    else
      ret ("❓ サブコマンドが分かりません。" ++ nl ++ P001.helpText).

(** [tryPostReminder(event)]: the message is built first, so [formatJst]
    runs even when no channel is configured. *)
Definition tryPostReminder (h : host) (net : nat -> bool) (e : event) : M bool :=
  k <- lift (P001.formatJst h (isoJst e)) ;;
  let msg := "⏰ リマインド" ++ nl ++ k ++ "  " ++ title e in
  match TARGET_CHANNEL_ID h with
  | None | Some EmptyString => ret false
  | Some channel => postMessage net channel msg
  end.

Definition eventKeyJst (h : host) (isoJst : string) : outcome string :=
  P001.formatJst h isoJst.

Fixpoint scan (h : host) (net : nat -> bool) (nowKey : string)
    (events : list event) (changed : bool) : M (list event * bool) :=
  match events with
  | [] => ret ([], changed)
  | e :: rest =>
    if notified e then
      r <- scan h net nowKey rest changed ;; ret (e :: fst r, snd r)
    else
      ek <- lift (eventKeyJst h (isoJst e)) ;;
      if String.eqb ek nowKey then
        ok <- tryPostReminder h net e ;;
        if ok then
          r <- scan h net nowKey rest true ;; ret (setNotified e :: fst r, snd r)
        else
          r <- scan h net nowKey rest changed ;; ret (e :: fst r, snd r)
      else
        r <- scan h net nowKey rest changed ;; ret (e :: fst r, snd r)
  end.

Definition tick (h : host) (net : nat -> bool) (now : Z) : M unit :=
  let nowKey := P001.nowKeyJst h now in
  events <- P001.loadEvents ;;
  r <- scan h net nowKey events false ;;
  if snd r then P001.saveEvents (fst r) else ret tt.

End P000a.

(* ================================================================== *)
(** * src/unnamed/part_000, second document *)
(* ================================================================== *)

Module P000b.
Import Js Store.
Local Open Scope js_scope.

(** What [loadEvents] hands back: it returns whatever [JSON.parse] yields. *)
Inductive loaded : Type :=
| Seq (l : list event)
| Text (chars : nat)
| NotSeq.

(** A missing file makes [readFileSync] throw, unparsable text makes
    [JSON.parse] throw; both are caught.  Nothing is written. *)
Definition loadEvents : M loaded :=
  fun w =>
    match file w with
    | Some (Events l) => (Returned (Seq l), w)
    | Some (NonArray (Some n)) => (Returned (Text n), w)
    | Some (NonArray None) => (Returned NotSeq, w)
    | Some (Unparsable _) | None => (Returned (Seq []), w)
    end.

(** The first use of an array method ([map], [push], [sort], [filter]) on
    what was loaded: a TypeError when it is not an array. *)
Definition asArray (v : loaded) : M (list event) :=
  match v with
  | Seq l => ret l
  | Text _ | NotSeq => throw TypeError
  end.

Definition saveEvents (events : list event) : M unit :=
  writeFile (Events (map jsonEvent events)) (Saved (map jsonEvent events)).

(** [saveEvents] handed the string that was loaded writes it back. *)
Definition saveText (chars : nat) : M unit :=
  writeFile (NonArray (Some chars)) (SavedText chars).

(** [events.length ? Math.max(...events.map(e => e.id)) + 1 : 1];
    [Math.max] coerces each argument with [Number]. *)
Definition nextId (events : list event) : num :=
  match events with
  | [] => ofZ 1
  | _ => succ (fold_left (fun m e => Math_max m (Number (id e))) events NegInf)
  end.

(** [text] is split at white space after trimming; the time is read back
    with [Number] and range-checked, and the date must make a valid [Date]. *)
Definition parseAddArgs (text : string) : option (string * string) :=
  let parts := split_ws (trim text) in
  if (List.length parts <? 3)%nat then None
  else
    let dateStr := nth 0 parts "" in
    let timeStr := nth 1 parts "" in
    let title := trim (join " " (skipn 2 parts)) in
    if String.eqb title "" then None
    else if negb (isDateText dateStr) then None
    else if negb (isTimeText timeStr) then None
    else
      let hh := Number_of_string (substring 0 2 timeStr) in
      let mm := Number_of_string (substring 3 2 timeStr) in
      if negb (isInteger hh) || num_ltb hh (ofZ 0) || num_ltb (ofZ 23) hh then None
      else if negb (isInteger mm) || num_ltb mm (ofZ 0) || num_ltb (ofZ 59) mm then None
      else
        let isoJst :=
          dateStr ++ "T" ++ padStart2 (Number_toString hh) ++ ":"
                  ++ padStart2 (Number_toString mm) ++ ":00+09:00" in
        match Date_parse isoJst with
        | None => None
        | Some _ => Some (isoJst, title)
        end.

(** What the getters of an invalid date make, each being NaN. *)
Definition invalidKey : string := "NaN-NaN-NaN NaN:NaN".

(** Built from the getters of the process's local zone; an invalid date
    gives NaN in every field and nothing throws. *)
Definition formatJst (h : host) (isoJst : string) : string :=
  match Date_parse isoJst with
  | Some t => gettersKey (localOffset h t) t
  | None => invalidKey
  end.

Definition nowKeyJst (h : host) (now : Z) : string :=
  minuteKey (zoneOffset h "Asia/Tokyo" now) now.

(** [new Date(a.isoJst) - new Date(b.isoJst)] is negative; with an invalid
    date the difference is NaN, which is not. *)
Definition precedes (a b : event) : bool :=
  match Date_parse (isoJst a), Date_parse (isoJst b) with
  | Some ta, Some tb => ta <? tb
  | _, _ => false
  end.

Definition listLine (h : host) (e : event) : string :=
  "• [" ++ toString (id e) ++ "] " ++ formatJst h (isoJst e) ++ "  " ++ title e
    ++ "  " ++ (if notified e then "✅" else "⏳").

(** The [text] of the ephemeral response given to [respond]. *)
Definition command (h : host) (text : string) : M string :=
  let text := trim text in
  if String.eqb text "" then
    ret ("使い方:" ++ nl ++
         "• /event add YYYY-MM-DD HH:mm タイトル" ++ nl ++
         "• /event list" ++ nl ++
         "• /event del ID" ++ nl ++
         "例）/event add 2026-01-12 09:30 朝活ミーティング")
  else
    let sub := hd "" (split_ws text) in
    let rest := tl (split_ws text) in
    let restText := trim (join " " rest) in
    if String.eqb sub "add" then
      match parseAddArgs restText with
      | None => ret "形式: /event add 2026-01-12 09:30 朝活ミーティング"
      | Some (isoJst, title) =>
        v <- loadEvents ;;
        let id := match v with Seq l => nextId l | _ => ofZ 1 end in
        events <- asArray v ;;
        let events := (events ++ [mkEvent (VNumber id) isoJst title false])%list in
        let events := P001.sort precedes events in
        saveEvents events ;;;
        ret ("登録しました ✅  ID=" ++ Number_toString id ++ nl
             ++ formatJst h isoJst ++ "  " ++ title)
      end
    else if String.eqb sub "list" then
      v <- loadEvents ;;
      loadedEvents <- asArray v ;;
      let events := P001.sort precedes loadedEvents in
      if (List.length events =? 0)%nat then ret "登録されているイベントはありません。"
      else
        let lines := map (listLine h) (firstn 50 events) in
        ret ("イベント一覧（最大50件）" ++ nl ++ join nl lines)
    else if String.eqb sub "del" then
      let id := match rest with
                | [] => NaN
                | idStr :: _ => Number_of_string idStr
                end in
      if negb (isInteger id) then ret "例: /event del 1"
      else
        v <- loadEvents ;;
        events <- asArray v ;;
        let filtered := filter (fun e => negb (strictEqNumber (Store.id e) id)) events in
        if (List.length filtered =? List.length events)%nat then
          ret ("ID=" ++ Number_toString id ++ " は見つかりませんでした。")
        else
          saveEvents filtered ;;;
          ret ("削除しました ✅  ID=" ++ Number_toString id)
    else
      ret "不明なコマンドです。/event（引数なし）で使い方が出ます。".

(** The loop of [tick]: a rejected post is caught and logged inside it. *)
Fixpoint scan (h : host) (net : nat -> bool) (channel nowKey : string)
    (events : list event) (changed : bool) : M (list event * bool) :=
  match events with
  | [] => ret ([], changed)
  | e :: rest =>
    if notified e then
      r <- scan h net channel nowKey rest changed ;; ret (e :: fst r, snd r)
    else if String.eqb (formatJst h (isoJst e)) nowKey then
      ok <- postMessage net channel
              ("⏰ リマインド" ++ nl ++ formatJst h (isoJst e) ++ "  " ++ title e) ;;
      if ok then
        r <- scan h net channel nowKey rest true ;; ret (setNotified e :: fst r, snd r)
      else
        r <- scan h net channel nowKey rest changed ;; ret (e :: fst r, snd r)
    else
      r <- scan h net channel nowKey rest changed ;; ret (e :: fst r, snd r)
  end.

(** The same loop over a string that was loaded in place of the array: it
    walks the characters.  A character has no [notified], no [isoJst] and no
    [title]: it is pending, its key is that of [new Date(undefined)], its
    title prints as [undefined], and setting its flag leaves it as it is. *)
Fixpoint scanText (net : nat -> bool) (channel nowKey : string)
    (chars : nat) (changed : bool) : M bool :=
  match chars with
  | O => ret changed
  | S rest =>
    if String.eqb invalidKey nowKey then
      ok <- postMessage net channel
              ("⏰ リマインド" ++ nl ++ invalidKey ++ "  " ++ "undefined") ;;
      scanText net channel nowKey rest (if ok then true else changed)
    else
      scanText net channel nowKey rest changed
  end.

(** [for (const e of events)] throws a TypeError on what is neither an array
    nor a string. *)
Definition tick (h : host) (net : nat -> bool) (now : Z) : M unit :=
  match TARGET_CHANNEL_ID h with
  | None | Some EmptyString => ret tt
  | Some channel =>
    let nowKey := nowKeyJst h now in
    v <- loadEvents ;;
    match v with
    | Seq events =>
      r <- scan h net channel nowKey events false ;;
      if snd r then saveEvents (fst r) else ret tt
    | Text chars =>
      changed <- scanText net channel nowKey chars false ;;
      if changed then saveText chars else ret tt
    | NotSeq => throw TypeError
    end
  end.

End P000b.


(* ================================================================== *)
(** * src/index.js: the job that reads the spreadsheet *)
(* ================================================================== *)

(** The job is run once a minute by a scheduler.  It is embedded from the
    point where the rows of the sheet have been fetched: the clock is read,
    the three texts [nowDate], [nowTime] and [tomorrowDate] are built, and the
    rows are visited in order. *)
Module Index.
Import Js Store.

(** ** Dates as the job uses them *)

(** A [Date] object: its time value, or [None] when that is NaN. *)
Definition date : Type := option Z.

Definition maxTime : Z := 8640000000000000.

(** What the constructor makes of a number of milliseconds. *)
Definition TimeClip (t : Z) : date :=
  if Z.abs t <=? maxTime then Some t else None.

(** The zone the process runs in: the offset from UTC in effect at a time
    value, the offset the engine takes for a local time (it has a choice at a
    transition), and the name [toTimeString] prints. *)
Record zone : Type := mkZone {
  offsetAt : Z -> Z;
  offsetAtLocal : Z -> Z;
  zoneName : Z -> string
}.

(** [clock] is the time value of [new Date()]. *)
Definition getNowJst (clock : Z) : date :=
  TimeClip (clock + 9 * 60 * 60 * 1000).

(** [t.getDate()] of a valid date: the day of the month in the local zone. *)
Definition getDate (z : zone) (tv : Z) : Z :=
  let '(_, _, d) := civil_from_days ((tv + offsetAt z tv) / msPerDay) in d.

(** [t.setDate(dt)] on a valid date: day [dt], counted from the first of the
    local month, at the local time of day the date had. *)
Definition setDate (z : zone) (tv dt : Z) : date :=
  let lt := tv + offsetAt z tv in
  let '(y, m, _) := civil_from_days (lt / msPerDay) in
  let day := days_from_civil y m 1 + (dt - 1) in
  let local := day * msPerDay + lt mod msPerDay in
  TimeClip (local - offsetAtLocal z local).

(** The last [n] decimal digits of [v], with leading zeros. *)
Fixpoint padDigits (n : nat) (v : Z) : string :=
  match n with
  | O => ""
  | S k => padDigits k (v / 10) ++ String (digitChar (v mod 10)) ""
  end.

(** [d.toISOString()]: it throws a RangeError on an invalid date; a year
    outside 0..9999 is written with a sign and six digits. *)
Definition toISOString (d : date) : outcome string :=
  match d with
  | None => Threw RangeError
  | Some tv =>
    let '(y, m, dd) := civil_from_days (tv / msPerDay) in
    let ms := tv mod msPerDay in
    let year := if (0 <=? y) && (y <=? 9999) then padDigits 4 y
                else (if y <? 0 then "-" else "+") ++ padDigits 6 (Z.abs y) in
    Returned (year ++ "-" ++ twoDigits m ++ "-" ++ twoDigits dd ++ "T"
              ++ twoDigits (ms / msPerHour) ++ ":" ++ twoDigits ((ms / msPerMinute) mod 60)
              ++ ":" ++ twoDigits ((ms / 1000) mod 60) ++ "." ++ padDigits 3 (ms mod 1000)
              ++ "Z")
  end.

(** [d.toTimeString()]: the time of day in the local zone, the offset and
    the name of the zone. *)
Definition toTimeString (z : zone) (d : date) : string :=
  match d with
  | None => "Invalid Date"
  | Some tv =>
    let off := offsetAt z tv in
    let ms := (tv + off) mod msPerDay in
    twoDigits (ms / msPerHour) ++ ":" ++ twoDigits ((ms / msPerMinute) mod 60)
      ++ ":" ++ twoDigits ((ms / 1000) mod 60)
      ++ " GMT" ++ (if off <? 0 then "-" else "+")
      ++ twoDigits (Z.abs off / msPerHour) ++ twoDigits ((Z.abs off / msPerMinute) mod 60)
      ++ " (" ++ zoneName z tv ++ ")"
  end.

(** [new Date(now)] copies the time value; on an invalid date [getDate] is
    NaN and [setDate] leaves the date invalid. *)
Definition getTomorrowDateString (z : zone) (now : date) : outcome string :=
  let t := match now with
           | Some tv => setDate z tv (getDate z tv + 1)
           | None => None
           end in
  match toISOString t with
  | Returned s => Returned (substring 0 10 s)
  | Threw err => Threw err
  end.

(** ** The sheet *)

(** A cell of a row as the property access [row["..."]] yields it:
    [None] is [undefined]. *)
Definition cell : Type := option string.

(** [c === s] *)
Definition cellIs (c : cell) (s : string) : bool :=
  match c with
  | Some x => String.eqb x s
  | None => false
  end.

(** [`${c}`] *)
Definition shown (c : cell) : string :=
  match c with
  | Some s => s
  | None => "undefined"
  end.

(** The columns the job reads: 配信有効, 日付, 開始時刻, 前日送信済み,
    1時間前送信済み, イベント名, ひとこと, Zoomリンク. *)
Record row : Type := mkRow {
  enabled : cell;
  eventDate : cell;
  eventTime : cell;
  dayBeforeSent : cell;
  hourBeforeSent : cell;
  eventName : cell;
  note : cell;
  zoomLink : cell
}.

Definition setDayBeforeSent (r : row) : row :=
  mkRow (enabled r) (eventDate r) (eventTime r) (Some "TRUE") (hourBeforeSent r)
        (eventName r) (note r) (zoomLink r).

Definition setHourBeforeSent (r : row) : row :=
  mkRow (enabled r) (eventDate r) (eventTime r) (dayBeforeSent r) (Some "TRUE")
        (eventName r) (note r) (zoomLink r).

(** ** The outside world of the job *)

(** The rows the sheet holds, the calls of [chat.postMessage] made so far as
    (channel, text), and the calls of [row.save()] made so far as (index of
    the row, row). *)
Record office : Type := mkOffice {
  sheet : list row;
  sent : list (option string * string);
  saved : list (nat * row)
}.

Inductive failure : Type :=
| InvalidTime      (* the RangeError of [toISOString] *)
| PostRejected     (* [chat.postMessage] rejects *)
| SaveRejected.    (* [row.save()] rejects *)

Inductive result (A : Type) : Type :=
| Done (a : A)
| Failed (f : failure).
Arguments Done {A} a.
Arguments Failed {A} f.

(** The job has no [try]: a rejected promise ends the run. *)
Definition J (A : Type) : Type := office -> result A * office.

Definition done {A} (a : A) : J A := fun w => (Done a, w).

Definition andThen {A B} (m : J A) (k : A -> J B) : J B :=
  fun w =>
    match m w with
    | (Done a, w') => k a w'
    | (Failed f, w') => (Failed f, w')
    end.

(** [net n] tells whether the [n]-th call of [chat.postMessage] resolves,
    [disk n] whether the [n]-th call of [row.save()] does. *)
Definition postMessage (net : nat -> bool) (channel : option string) (text : string)
  : J unit :=
  fun w =>
    (if net (List.length (sent w)) then Done tt else Failed PostRejected,
     mkOffice (sheet w) (sent w ++ [(channel, text)]) (saved w)).

Fixpoint replace (i : nat) (r : row) (rows : list row) : list row :=
  match rows, i with
  | [], _ => []
  | _ :: rest, O => r :: rest
  | x :: rest, S k => x :: replace k r rest
  end.

(** [row.save()] writes the row back to its place in the sheet. *)
Definition save (disk : nat -> bool) (i : nat) (r : row) : J unit :=
  fun w =>
    if disk (List.length (saved w))
    then (Done tt, mkOffice (replace i r (sheet w)) (sent w) (saved w ++ [(i, r)]))
    else (Failed SaveRejected, mkOffice (sheet w) (sent w) (saved w ++ [(i, r)])).

(** ** The run *)

Definition dayBeforeText (r : row) : string :=
  "📢 明日 " ++ shown (eventTime r) ++ "〜 " ++ shown (eventName r) ++ nl
    ++ shown (note r) ++ nl ++ shown (zoomLink r).

Definition sameDayText (r : row) : string :=
  "⏰ 本日このあと " ++ shown (eventTime r) ++ "〜 " ++ shown (eventName r) ++ nl
    ++ shown (note r) ++ nl ++ shown (zoomLink r).

(** The body of the loop on the [i]-th row; it yields the row object as the
    body leaves it. *)
Definition visit (channel : option string) (net disk : nat -> bool)
    (nowDate nowTime tomorrowDate : string) (i : nat) (r : row) : J row :=
  if negb (cellIs (enabled r) "TRUE") then done r
  else
    andThen
      (if negb (cellIs (dayBeforeSent r) "TRUE")
          && cellIs (eventDate r) tomorrowDate
          && String.eqb nowTime "20:00"
       then
         andThen (postMessage net channel (dayBeforeText r)) (fun _ =>
         andThen (save disk i (setDayBeforeSent r)) (fun _ =>
         done (setDayBeforeSent r)))
       else done r)
      (fun r1 =>
         if negb (cellIs (hourBeforeSent r1) "TRUE")
            && cellIs (eventDate r1) nowDate
            && cellIs (eventTime r1) nowTime
         then
           andThen (postMessage net channel (sameDayText r1)) (fun _ =>
           andThen (save disk i (setHourBeforeSent r1)) (fun _ =>
           done (setHourBeforeSent r1)))
         else done r1).

Fixpoint visitAll (channel : option string) (net disk : nat -> bool)
    (nowDate nowTime tomorrowDate : string) (i : nat) (rows : list row) : J unit :=
  match rows with
  | [] => done tt
  | r :: rest =>
    andThen (visit channel net disk nowDate nowTime tomorrowDate i r) (fun _ =>
    visitAll channel net disk nowDate nowTime tomorrowDate (S i) rest)
  end.

(** [run()], from [const now = getNowJst()] on; [channel] is
    [TARGET_CHANNEL_ID]. *)
Definition run (z : zone) (channel : option string) (net disk : nat -> bool) (clock : Z)
  : J unit :=
  fun w =>
    let now := getNowJst clock in
    match toISOString now with
    | Threw _ => (Failed InvalidTime, w)
    | Returned iso =>
      let nowDate := substring 0 10 iso in
      let nowTime := substring 0 5 (toTimeString z now) in
      match getTomorrowDateString z now with
      | Threw _ => (Failed InvalidTime, w)
      | Returned tomorrowDate =>
        visitAll channel net disk nowDate nowTime tomorrowDate 0 (sheet w) w
      end
    end.

End Index.
(* ================================================================== *)
(** * Vocabulary of the properties *)
(* ================================================================== *)

Import Js Store.

(** The events a world holds: the array in the file, or none when the file
    is missing, unparsable or not an array. *)
Definition stored (w : world) : list event :=
  match file w with
  | Some (Events l) => l
  | _ => []
  end.

(** The id of [e] coerces to a number. *)
Definition numericId (e : event) : bool := negb (isNaN (Number (id e))).

(** [m] is the greatest of 0 and the numeric ids of [events]: it is 0 or the
    number one of the ids coerces to, and no numeric id exceeds it. *)
Definition greatestId (events : list event) (m : num) : Prop :=
  (m = ofZ 0 \/ exists e, In e events /\ Number (id e) = m)
  /\ num_leb (ofZ 0) m = true
  /\ forall e, In e events -> numericId e = true -> num_leb (Number (id e)) m = true.

(** A host in Japan for the examples: its zone database gives Asia/Tokyo
    +09:00, as the real one does for every time since September 1951 (the
    examples lie in 2026); the process runs in that zone, and a channel is
    configured. *)
Definition tokyoHost : host :=
  mkHost (fun _ _ => 9 * msPerHour) (fun _ => 9 * msPerHour) (Some "C0123456789").

(** A host whose process runs in UTC, as a hosted container does. *)
Definition utcHost : host :=
  mkHost (fun _ _ => 9 * msPerHour) (fun _ => 0) (Some "C0123456789").

Definition standup : event :=
  mkEvent (VNumber (ofZ 1)) "2026-01-12T09:30:00+09:00" "Standup" false.

Definition oneEvent : world := mkWorld (Some (Events [standup])) [] [].

Definition emptyStore : world := mkWorld (Some (Events [])) [] [].

(** The hour and the minute a text of the shape [dd:dd] denotes. *)
Definition clockFields (t : string) : option (Z * Z) :=
  ' (hh, s) <- digits2 t ;;
  ' s <- expect ":" s ;;
  ' (mm, s) <- digits2 s ;;
  Some (hh, mm).

(** The year, the month and the day a text of the shape [dddd-dd-dd]
    denotes. *)
Definition dateFields (d : string) : option (Z * Z * Z) :=
  ' (y, s) <- digits4 d ;;
  ' s <- expect "-" s ;;
  ' (mo, s) <- digits2 s ;;
  ' s <- expect "-" s ;;
  ' (dd, s) <- digits2 s ;;
  Some (y, mo, dd).

(** A time of day: hour 00-23 and minute 00-59. *)
Definition isClockTime (t : string) : bool :=
  isTimeText t &&
  match clockFields t with
  | Some (hh, mm) => (hh <=? 23) && (mm <=? 59)
  | None => false
  end.

(** A date of the calendar, with a year of four significant digits. *)
Definition isCalendarDate (d : string) : bool :=
  isDateText d &&
  match dateFields d with
  | Some (y, mo, dd) =>
    (1000 <=? y) && (1 <=? mo) && (mo <=? 12) && (1 <=? dd) && (dd <=? daysInMonth y mo)
  | None => false
  end.

(** A run that replies [reply] and leaves the collection [kept] in the file
    through one save, nothing else touched. *)
Definition savesAndReplies (run : M string) (w : world) (kept : list event)
    (reply : string) : Prop :=
  run w = (Returned reply,
           mkWorld (Some (Events kept)) (journal w ++ [Saved kept]) (outbox w)).

(** The records of [l] whose id, coerced to a number, is not [n]; and those
    whose id is not the number [n] itself. *)
Definition withoutId (n : num) (l : list event) : list event :=
  filter (fun e => negb (num_eqb (Number (id e)) n)) l.

Definition withoutStrictId (n : num) (l : list event) : list event :=
  filter (fun e => negb (strictEqNumber (id e) n)) l.

(** *** The reminder tick *)

(** The due key of an event in part_001, when [formatJst] gives one. *)
Definition P001_key (h : host) (e : event) : string :=
  match P001.formatJst h (isoJst e) with
  | Returned k => k
  | Threw _ => ""
  end.

(** [formatJst] does not throw on the event. *)
Definition P001_keyed (h : host) (e : event) : bool :=
  match P001.formatJst h (isoJst e) with
  | Returned _ => true
  | Threw _ => false
  end.

(** The event is not yet notified and its due key is [nowKey]. *)
Definition P001_due (h : host) (nowKey : string) (e : event) : bool :=
  negb (notified e) && P001_keyed h e && String.eqb (P001_key h e) nowKey.

Definition P000b_due (h : host) (nowKey : string) (e : event) : bool :=
  negb (notified e) && String.eqb (P000b.formatJst h (isoJst e)) nowKey.

(** The call of [chat.postMessage] that reminds of [e]. *)
Definition P001_reminder (h : host) (channel : string) (e : event) : string * string :=
  (channel, "⏰ リマインド" ++ nl ++ P001_key h e ++ "  " ++ title e).

Definition P000b_reminder (h : host) (channel : string) (e : event) : string * string :=
  (channel, "⏰ リマインド" ++ nl ++ P000b.formatJst h (isoJst e) ++ "  " ++ title e).

(** The flags after a pass over [l] in which the post for each due event is
    made in turn, the first of them being post number [k], and [net] decides
    each post. *)
Fixpoint flagged (due : event -> bool) (net : nat -> bool) (k : nat)
    (l : list event) : list event :=
  match l with
  | [] => []
  | e :: r =>
    if due e then (if net k then setNotified e else e) :: flagged due net (S k) r
    else e :: flagged due net k r
  end.

(** Some post of that pass was accepted. *)
Fixpoint anyAccepted (due : event -> bool) (net : nat -> bool) (k : nat)
    (l : list event) : bool :=
  match l with
  | [] => false
  | e :: r =>
    if due e then net k || anyAccepted due net (S k) r
    else anyAccepted due net k r
  end.

(** The number of the post made for the [i]-th event of [l], were it due. *)
Definition attempt (due : event -> bool) (k : nat) (l : list event) (i : nat) : nat :=
  (k + List.length (filter due (firstn i l)))%nat.

(** The channel is configured: the variable is set and not empty. *)
Definition channelOf (h : host) : option string :=
  match TARGET_CHANNEL_ID h with
  | None | Some EmptyString => None
  | Some c => Some c
  end.

(** The world a tick leaves, given the flags and [changed] of its loop. *)
Definition afterTick (w : world) (l' : list event) (changed : bool)
    (posts : list (string * string)) : world :=
  if changed
  then mkWorld (Some (Events (map jsonEvent l')))
               (journal w ++ [Saved (map jsonEvent l')]) (outbox w ++ posts)
  else mkWorld (file w) (journal w) (outbox w ++ posts).

(** Every due event marked. *)
Definition markDue (due : event -> bool) (l : list event) : list event :=
  map (fun e => if due e then setNotified e else e) l.

(** Two events due at 09:30 on 2026-01-12, and the time value of that minute. *)
Definition retro : event :=
  mkEvent (VNumber (ofZ 2)) "2026-01-12T09:30:00+09:00" "Retro" false.

Definition twoDue : world := mkWorld (Some (Events [standup; retro])) [] [].

Definition halfPastNine : Z := 1768177800000.

(** *** Histories of part_001 *)

(** What happens to the bot: a command arrives, or the scheduler ticks at
    time value [now] while the messaging client answers by [net]. *)
Inductive step : Type :=
| Command (text : string)
| Tick (net : nat -> bool) (now : Z).

(** The world after a step, whether the handler returned or threw. *)
Definition exec (h : host) (s : step) (w : world) : world :=
  match s with
  | Command text => snd (P001.command h text w)
  | Tick net now => snd (P001.tick h net now w)
  end.

(** The worlds a sequence of steps goes through. *)
Fixpoint run (h : host) (steps : list step) (w : world) : list world :=
  match steps with
  | [] => []
  | s :: r => exec h s w :: run h r (exec h s w)
  end.

(** [e'] is the record [e], untouched or written to the file and read back. *)
Definition kept (e e' : event) : Prop := e' = e \/ e' = jsonEvent e.

(** [e'] is the record [e] with its flag raised from false to true, and a
    post for [e], made after the world [w] and present in [w'], was
    accepted. *)
Definition raisedBy (h : host) (net : nat -> bool) (w w' : world) (e e' : event) : Prop :=
  notified e = false
  /\ (e' = setNotified e \/ e' = jsonEvent (setNotified e))
  /\ exists n ch, (List.length (outbox w) <= n)%nat /\ net n = true
                  /\ nth_error (outbox w') n = Some (P001_reminder h ch e).

(** How the records of a world follow from those of the world before.  A
    step keeps all records; or a command appends one record that is not
    notified; or a command drops some records and keeps the others; or a tick
    keeps every record and raises the flag of some. *)
Inductive succession (h : host) (w w' : world) : step -> Prop :=
| same_records (s : step) :
    Forall2 kept (stored w) (stored w') -> succession h w w' s
| record_added (text : string) (old : list event) (e : event) :
    Forall2 kept (stored w) old -> notified e = false ->
    stored w' = (old ++ [e])%list -> succession h w w' (Command text)
| records_removed (text : string) (keep : event -> bool) :
    Forall2 kept (filter keep (stored w)) (stored w') ->
    succession h w w' (Command text)
| records_marked (net : nat -> bool) (now : Z) :
    Forall2 (fun e e' => kept e e' \/ raisedBy h net w w' e e') (stored w) (stored w') ->
    succession h w w' (Tick net now).

(** Each world of [ws] follows from the one before, starting from [w]. *)
Fixpoint chained (h : host) (w : world) (steps : list step) (ws : list world) : Prop :=
  match steps, ws with
  | [], [] => True
  | s :: steps', w' :: ws' => succession h w w' s /\ chained h w' steps' ws'
  | _, _ => False
  end.

(** *** The list command *)

(** The stored instant of the event is the one the add command builds from
    a date of the calendar and a time of day. *)
Definition hasCalendarInstant (e : event) : bool :=
  let d := substring 0 10 (isoJst e) in
  let t := substring 11 5 (isoJst e) in
  isCalendarDate d && isClockTime t && String.eqb (isoJst e) (P001.parseJstToIso d t).

(** The scheduled instant of an event, as a time value. *)
Definition instantOf (e : event) : Z :=
  match Date_parse (isoJst e) with
  | Some t => t
  | None => 0
  end.

Definition notLater (a b : event) : Prop := instantOf a <= instantOf b.

(** The line the list command of part_001 shows for an event: its id, its
    formatted instant, its title, and the mark of its status. *)
Definition P001_line (h : host) (e : event) : string :=
  "• [" ++ toString (id e) ++ "] " ++ P001_key h e ++ "  " ++ title e ++ "  "
    ++ (if notified e then "✅" else "⏳").

(** The line the list command of the second draft of part_000 shows for an
    event with a valid instant: the same, with the instant as the getters of
    the process's zone give it. *)
Definition P000b_line (h : host) (e : event) : string :=
  "• [" ++ toString (id e) ++ "] "
    ++ gettersKey (localOffset h (instantOf e)) (instantOf e) ++ "  " ++ title e ++ "  "
    ++ (if notified e then "✅" else "⏳").

(** The day number in terms of the year that starts in March and the day of
    that year. *)
Definition marchDay (y' doy : Z) : Z :=
  365 * y' + y' / 4 - y' / 100 + y' / 400 + doy - 719468.

(** The twelve digits of a stored instant, read as one number. *)
Definition stamp (y mo d hh mm : Z) : Z :=
  y * 100000000 + mo * 1000000 + d * 10000 + hh * 100 + mm.

(** A store whose records are not in the order of time. *)
Definition outOfOrder : world :=
  mkWorld (Some (Events [
    mkEvent (VNumber (ofZ 2)) "2026-03-01T10:00:00+09:00" "Launch" false;
    mkEvent (VNumber (ofZ 3)) "2026-01-12T18:00:00+09:00" "Review" true;
    standup ])) [] [].


(** *** The minute a reminder is due in *)

(** The local time [lt] lies in a year of four digits, 1000 to 9999. *)
Definition fourDigitYear (lt : Z) : bool :=
  (days_from_civil 1000 1 1 * msPerDay <=? lt)
  && (lt <? days_from_civil 10000 1 1 * msPerDay).

(** [now] lies in the minute that starts at the time value [t]. *)
Definition inMinuteOf (t now : Z) : bool := (t <=? now) && (now <? t + msPerMinute).

(** The event is pending and [now] lies in the minute of its instant. *)
Definition dueAt (now : Z) (e : event) : bool :=
  negb (notified e) && inMinuteOf (instantOf e) now.

(** A host in Japan on which [TARGET_CHANNEL_ID] is not set. *)
Definition silentHost : host :=
  mkHost (fun _ _ => 9 * msPerHour) (fun _ => 9 * msPerHour) None.

(** The stored instant of the event makes a valid date, in a year of four
    digits in Japan. *)
Definition scheduled (e : event) : bool :=
  match Date_parse (isoJst e) with
  | Some t => fourDigitYear (t + 9 * msPerHour)
  | None => false
  end.

(** The zone database of the host has Asia/Tokyo at +09:00 at the instant
    of the event, when the event is pending and has one. *)
Definition onJapanTime (h : host) (e : event) : bool :=
  notified e ||
  match Date_parse (isoJst e) with
  | Some t => zoneOffset h P001.TZ t =? 9 * msPerHour
  | None => true
  end.

(** The greatest integer up to which every integer is a float:
    [Number.MAX_SAFE_INTEGER], 2^53 - 1. *)
Definition maxSafeInteger : Z := 9007199254740991.

(** *** What a command does to the file *)

(** The write [ensureDataFile] makes: none when the file exists. *)
Definition creation (w : world) : list write :=
  match file w with
  | None => [Created]
  | Some _ => []
  end.

(** The world as [loadEvents] of part_001 leaves it. *)
Definition ensured (w : world) : world :=
  mkWorld (match file w with None => Some (Events []) | Some c => Some c end)
          (journal w ++ creation w) (outbox w).

(** The world after [loadEvents] of part_001 and one [saveEvents] that
    writes [l]. *)
Definition savedOver (w : world) (l : list event) : world :=
  mkWorld (Some (Events l)) (journal w ++ creation w ++ [Saved l]) (outbox w).

(** A write made by [saveEvents]. *)
Definition isSave (wr : write) : bool :=
  match wr with
  | Saved _ | SavedText _ => true
  | Created => false
  end.

(** Whatever the world it starts in, the computation posts nothing and
    writes the file by at most [n] calls of [saveEvents], whether it returns
    or throws. *)
Definition effectWithin {A} (n : nat) (m : M A) : Prop :=
  forall w,
    outbox (snd (m w)) = outbox w
    /\ exists ws, journal (snd (m w)) = (journal w ++ ws)%list
                  /\ (List.length (filter isSave ws) <= n)%nat.

(** *** The spreadsheet job *)

(** A process that runs in UTC, as a hosted job does, and one in Japan. *)
Definition utcZone : Index.zone :=
  Index.mkZone (fun _ => 0) (fun _ => 0) (fun _ => "Coordinated Universal Time").

Definition japanZone : Index.zone :=
  Index.mkZone (fun _ => 9 * msPerHour) (fun _ => 9 * msPerHour)
               (fun _ => "Japan Standard Time").

(** The first ten characters of [toISOString] of the date, the text the job
    compares the 日付 column with. *)
Definition isoDay (d : Index.date) : outcome string :=
  match Index.toISOString d with
  | Returned s => Returned (substring 0 10 s)
  | Threw err => Threw err
  end.

(** The row is enabled and its day-before notice is to be sent in this
    run; the same for the notice of the day itself. *)
Definition dayBeforeDue (nowTime tomorrowDate : string) (r : Index.row) : bool :=
  Index.cellIs (Index.enabled r) "TRUE"
  && negb (Index.cellIs (Index.dayBeforeSent r) "TRUE")
  && Index.cellIs (Index.eventDate r) tomorrowDate
  && String.eqb nowTime "20:00".

Definition sameDayDue (nowDate nowTime : string) (r : Index.row) : bool :=
  Index.cellIs (Index.enabled r) "TRUE"
  && negb (Index.cellIs (Index.hourBeforeSent r) "TRUE")
  && Index.cellIs (Index.eventDate r) nowDate
  && Index.cellIs (Index.eventTime r) nowTime.

(** The texts to post for a row, and the row with the flags of the notices
    sent. *)
Definition notices (nowDate nowTime tomorrowDate : string) (r : Index.row) : list string :=
  ((if dayBeforeDue nowTime tomorrowDate r then [Index.dayBeforeText r] else [])
   ++ (if sameDayDue nowDate nowTime r then [Index.sameDayText r] else []))%list.

Definition flagsSet (nowDate nowTime tomorrowDate : string) (r : Index.row) : Index.row :=
  let r1 := if dayBeforeDue nowTime tomorrowDate r then Index.setDayBeforeSent r else r in
  if sameDayDue nowDate nowTime r then Index.setHourBeforeSent r1 else r1.

(** A sheet with one event on 2026-01-13 at 09:30, not yet announced. *)
Definition meetup : Index.row :=
  Index.mkRow (Some "TRUE") (Some "2026-01-13") (Some "09:30") (Some "FALSE") (Some "FALSE")
              (Some "Meetup") (Some "See you") (Some "https://zoom.example/j/1").

Definition paused : Index.row :=
  Index.mkRow (Some "FALSE") (Some "2026-01-13") (Some "09:30") None None
              (Some "Paused") None None.

Definition oneSheet : Index.office := Index.mkOffice [paused; meetup] [] [].

(** 20:00 in Japan on 2026-01-12, and 09:30 in Japan on 2026-01-13. *)
Definition eveningBefore : Z := 1768215600000.

Definition startOfMeetup : Z := 1768264200000.
(* ================================================================== *)
(** * Properties *)
(* ================================================================== *)

(** ** Digits *)

Lemma isDigit_cases (c : ascii) :
  isDigit c = true ->
  c = "0"%char \/ c = "1"%char \/ c = "2"%char \/ c = "3"%char \/ c = "4"%char
  \/ c = "5"%char \/ c = "6"%char \/ c = "7"%char \/ c = "8"%char \/ c = "9"%char.
Proof.
  destruct c as [[] [] [] [] [] [] [] []]; intros H; vm_compute in H;
    try discriminate; auto 10.
Qed.

Ltac digit_cases H :=
  apply isDigit_cases in H;
  destruct H as [H | [H | [H | [H | [H | [H | [H | [H | [H | H]]]]]]]]]; subst.

(** ** Numbers: the order [Math.max] works with *)

Section Numbers.

Lemma num_leb_refl (a : num) : isNaN a = false -> num_leb a a = true.
Proof.
  destruct a; simpl; intros H; try reflexivity; try discriminate.
  apply Qle_bool_iff, Qle_refl.
Qed.

Lemma num_leb_trans (a b c : num) :
  num_leb a b = true -> num_leb b c = true -> num_leb a c = true.
Proof.
  destruct a, b, c; simpl; intros H1 H2; try reflexivity; try discriminate.
  apply Qle_bool_iff in H1, H2. apply Qle_bool_iff. eapply Qle_trans; eauto.
Qed.

Lemma num_leb_total (a b : num) :
  isNaN a = false -> isNaN b = false -> num_leb a b = true \/ num_leb b a = true.
Proof.
  destruct a, b; simpl; intros H1 H2; try discriminate; auto.
  destruct (Qlt_le_dec q q0) as [H | H].
  - left. apply Qle_bool_iff, Qlt_le_weak, H.
  - right. apply Qle_bool_iff, H.
Qed.

Lemma num_leb_notNaN_l (a b : num) : num_leb a b = true -> isNaN a = false.
Proof. destruct a, b; simpl; congruence. Qed.

Lemma num_leb_notNaN_r (a b : num) : num_leb a b = true -> isNaN b = false.
Proof. destruct a, b; simpl; congruence. Qed.

(** [Math.max] of two numbers is one of them and dominates both. *)
Lemma Math_max_spec (a b : num) :
  isNaN a = false -> isNaN b = false ->
  (Math_max a b = a \/ Math_max a b = b)
  /\ num_leb a (Math_max a b) = true /\ num_leb b (Math_max a b) = true.
Proof.
  intros Ha Hb.
  assert (E : Math_max a b = if num_leb a b then b else a)
    by (destruct a, b; simpl in *; congruence).
  rewrite E. destruct (num_leb a b) eqn:L.
  - auto using num_leb_refl.
  - destruct (num_leb_total a b Ha Hb) as [H | H]; [congruence |].
    auto using num_leb_refl.
Qed.

Lemma orZero_spec (n : num) :
  isNaN (orZero n) = false
  /\ (orZero n = ofZ 0 \/ orZero n = n)
  /\ (isNaN n = false -> num_leb n (orZero n) = true).
Proof.
  destruct n; simpl; repeat split; auto; try discriminate.
  - destruct (Qeq_bool q 0); reflexivity.
  - destruct (Qeq_bool q 0); auto.
  - intros _. destruct (Qeq_bool q 0) eqn:E; simpl.
    + apply Qeq_bool_iff in E. apply Qle_bool_iff. rewrite E. apply Qle_refl.
    + apply Qle_bool_iff, Qle_refl.
Qed.

End Numbers.

(** ** Numbers: rounding to a float *)

Section Rounding.

(** Numbers that are equal as rationals round to the same float. *)
Lemma toDouble_Qeq (p q : Q) : p == q -> toDouble p = toDouble q.
Proof. intros E. unfold toDouble. rewrite (Qred_complete p q E). reflexivity. Qed.

Lemma nearestEven_near (n d : Z) :
  0 < d -> - d <= 2 * (nearestEven n d * d - n) <= d.
Proof.
  intros Hd. unfold nearestEven.
  pose proof (Z.div_mod n d ltac:(lia)) as E.
  pose proof (Z.mod_pos_bound n d Hd) as B.
  set (q := n / d) in *. set (r := n mod d) in *.
  destruct (Z.ltb_spec (2 * r) d); [nia |].
  destruct (Z.ltb_spec d (2 * r)); [nia |].
  destruct (Z.even q); nia.
Qed.

Lemma nearestEven_bound (n d k : Z) :
  0 < d -> 0 <= n -> n <= k * d -> 0 <= nearestEven n d <= k.
Proof.
  intros Hd Hn Hk. pose proof (nearestEven_near n d Hd) as H.
  split; nia.
Qed.

Lemma binade_le (a d : Z) :
  0 < a -> 0 < d -> a < d * 2 ^ 53 -> binade a d <= 52.
Proof.
  intros Ha Hd H. unfold binade.
  assert (Hlog : Z.log2 a < Z.log2 d + 54).
  { apply Z.log2_lt_pow2; [exact Ha |].
    pose proof (Z.log2_nonneg d) as Hn.
    destruct (Z.log2_spec d Hd) as [_ Hu].
    replace (Z.log2 d + 54) with (Z.succ (Z.log2 d) + 53) by lia.
    rewrite Z.pow_add_r by lia. nia. }
  set (e := Z.log2 a - Z.log2 d) in *.
  destruct (Z.eq_dec e 53) as [E | E].
  - rewrite E. change (0 <=? 53) with true. cbv iota.
    destruct (Z.ltb_spec a (d * 2 ^ 53)); lia.
  - destruct (if 0 <=? e then a <? d * 2 ^ e else a * 2 ^ (- e) <? d); lia.
Qed.

(** Below 2^53 a float is no further than 1/2 from what it rounds. *)
Lemma roundPositive_near (a d : Z) :
  0 < a -> 0 < d -> a < d * 2 ^ 53 ->
  exists r, roundPositive a d = Fin r
            /\ ((a # Z.to_pos d) - (1 # 2) <= r <= (a # Z.to_pos d) + (1 # 2))%Q.
Proof.
  intros Ha Hd H. unfold roundPositive.
  pose proof (binade_le a d Ha Hd H) as Hb.
  set (u := Z.max (binade a d - 52) (-1074)).
  assert (Hu : -1074 <= u <= 0) by (subst u; lia).
  destruct (Z.leb_spec 0 u) as [H0 | H0].
  - assert (u = 0) as -> by lia. change (2 ^ 0) with 1. rewrite !Z.mul_1_r.
    pose proof (nearestEven_near a d Hd) as Hn.
    assert (Hm : 0 <= nearestEven a d <= 2 ^ 53) by (apply nearestEven_bound; lia).
    set (m := nearestEven a d) in *.
    assert (Hlog : Z.log2 m <= 53).
    { destruct (Z.eq_dec m 0) as [-> | Hm0]; [cbn; lia |].
      change 53 with (Z.log2 (2 ^ 53)). apply Z.log2_le_mono. lia. }
    replace (1024 <=? Z.log2 m + 0) with false by (symmetry; apply Z.leb_gt; lia).
    eexists. split; [reflexivity |].
    unfold Qle, Qminus, Qplus, Qopp, inject_Z. cbn [Qnum Qden].
    rewrite ?Pos2Z.inj_mul, ?Z2Pos.id by lia. split; nia.
  - set (j := - u) in *. assert (Hj : 0 < j) by lia.
    assert (Hp : 0 < 2 ^ j) by (apply Z.pow_pos_nonneg; lia).
    pose proof (nearestEven_near (a * 2 ^ j) d Hd) as Hn.
    set (m := nearestEven (a * 2 ^ j) d) in *.
    eexists. split; [reflexivity |].
    rewrite Qred_correct.
    unfold Qle, Qminus, Qplus, Qopp. cbn [Qnum Qden].
    rewrite ?Pos2Z.inj_mul, ?Z2Pos.id by lia.
    assert (2 <= 2 ^ j).
    { change 2 with (2 ^ 1) at 1. apply Z.pow_le_mono_r; lia. }
    split; nia.
Qed.

Lemma toDouble_near (x : Q) :
  (- inject_Z (2 ^ 53) <= x <= inject_Z (2 ^ 53))%Q ->
  exists r, toDouble x = Fin r /\ (x - (1 # 2) <= r <= x + (1 # 2))%Q.
Proof.
  intros [Hlo Hhi].
  destruct (Qeq_dec x (inject_Z (2 ^ 53))) as [E | Ne1].
  { rewrite (toDouble_Qeq _ _ E). eexists. split; [vm_compute; reflexivity |].
    rewrite E. split; unfold Qle; cbn; lia. }
  destruct (Qeq_dec x (- inject_Z (2 ^ 53))) as [E | Ne2].
  { rewrite (toDouble_Qeq _ _ E). eexists. split; [vm_compute; reflexivity |].
    rewrite E. split; unfold Qle; cbn; lia. }
  pose proof (Qred_correct x) as Ex.
  unfold toDouble.
  destruct (Qred x) as [n D] eqn:Er. cbn [Qnum Qden].
  assert (Hn : - (2 ^ 53) * Zpos D < n < 2 ^ 53 * Zpos D).
  { rewrite <- Ex in Hlo, Hhi, Ne1, Ne2.
    unfold Qle, Qeq, Qopp, inject_Z in *. cbn [Qnum Qden] in *. lia. }
  destruct n as [| a | a].
  - exists 0%Q. split; [reflexivity |]. rewrite <- Ex. split; unfold Qle; cbn; lia.
  - destruct (roundPositive_near (Zpos a) (Zpos D) ltac:(lia) ltac:(lia) ltac:(lia))
      as (r & -> & Hr).
    exists r. split; [reflexivity |]. rewrite <- Ex. exact Hr.
  - destruct (roundPositive_near (Zpos a) (Zpos D) ltac:(lia) ltac:(lia) ltac:(lia))
      as (r & -> & Hr).
    exists (Qred (- r)). split; [reflexivity |]. rewrite <- Ex, Qred_correct.
    cbn [Z.to_pos] in Hr.
    assert (E : Z.neg a # D == - (Zpos a # D)) by reflexivity.
    rewrite E. lra.
Qed.

(** One more than zero is one. *)
Lemma succ_zero (m : num) :
  num_leb (ofZ 0) m = true -> num_leb m (ofZ 0) = true -> succ m = ofZ 1.
Proof.
  unfold ofZ. destruct m as [| | | q]; cbn [num_leb]; try discriminate.
  intros H1 H2. apply Qle_bool_iff in H1, H2.
  assert (E : q + 1 == inject_Z 1).
  { assert (q == 0) by (apply Qle_antisym; assumption).
    rewrite H. reflexivity. }
  unfold succ. rewrite (toDouble_Qeq _ _ E). reflexivity.
Qed.

End Rounding.

(** ** C7: [nextId] *)

Section NextId.

Lemma greatestId_nil : greatestId [] (ofZ 0).
Proof.
  split; [auto | split; [reflexivity |]]. intros e [].
Qed.

(** One round of a loop that keeps the greatest id seen so far: a step that
    returns the old maximum, 0, or the coerced id, and that dominates the old
    maximum and the id when the id is numeric. *)
Lemma greatestId_step (seen : list event) (m : num) (e : event) (m' : num) :
  greatestId seen m ->
  (m' = m \/ m' = ofZ 0 \/ m' = Number (id e)) ->
  num_leb m m' = true ->
  (numericId e = true -> num_leb (Number (id e)) m' = true) ->
  greatestId (seen ++ [e]) m'.
Proof.
  intros (Hin & H0 & Hub) Hm' Hle He.
  split; [| split].
  - destruct Hm' as [-> | [-> | ->]]; auto.
    + destruct Hin as [? | (x & Hx & E)]; auto.
      right. exists x. split; [apply in_or_app; auto | exact E].
    + right. exists e. split; [apply in_or_app; simpl; auto | reflexivity].
  - eapply num_leb_trans; eauto.
  - intros x Hx Hn. apply in_app_or in Hx. destruct Hx as [Hx | [<- | []]].
    + eapply num_leb_trans; [apply Hub; assumption | assumption].
    + apply He, Hn.
Qed.

Lemma fold_greatestId (f : num -> event -> num) :
  (forall seen m e, greatestId seen m -> greatestId (seen ++ [e]) (f m e)) ->
  forall events seen m,
    greatestId seen m -> greatestId (seen ++ events) (fold_left f events m).
Proof.
  intros Hf. induction events as [| e events IH]; intros seen m Hm; simpl.
  - rewrite app_nil_r. exact Hm.
  - replace (seen ++ e :: events)%list with ((seen ++ [e]) ++ events)%list
      by (rewrite <- app_assoc; reflexivity).
    apply IH, Hf, Hm.
Qed.

Lemma P001_nextId_greatest (events : list event) :
  exists m, greatestId events m /\ P001.nextId events = succ m.
Proof.
  eexists. split; [| reflexivity].
  apply (fold_greatestId _) with (seen := []); [| apply greatestId_nil].
  intros seen m e Hm.
  assert (Hnm : isNaN m = false) by (destruct Hm as (_ & H & _); eapply num_leb_notNaN_r; eauto).
  destruct (isNaN (Number (id e))) eqn:E; cbv beta zeta; rewrite E; cbn [negb].
  - apply greatestId_step with (m := m); auto using num_leb_refl.
    unfold numericId. rewrite E. discriminate.
  - destruct (Math_max_spec m (Number (id e)) Hnm E) as ([H | H] & H1 & H2);
      apply greatestId_step with (m := m); auto.
Qed.

Lemma P000a_nextId_greatest (events : list event) :
  exists m, greatestId events m /\ P000a.nextId events = succ m.
Proof.
  eexists. split; [| reflexivity].
  apply (fold_greatestId _) with (seen := []); [| apply greatestId_nil].
  intros seen m e Hm.
  assert (Hnm : isNaN m = false) by (destruct Hm as (_ & H & _); eapply num_leb_notNaN_r; eauto).
  destruct (orZero_spec (Number (id e))) as (Hz & Hor & Hle).
  destruct (Math_max_spec m _ Hnm Hz) as (Hmax & H1 & H2).
  apply greatestId_step with (m := m); [exact Hm | | exact H1 |].
  - destruct Hmax as [E | E]; rewrite E; [auto |].
    destruct Hor as [E' | E']; rewrite E'; auto.
  - unfold numericId. intros Hn. apply negb_true_iff in Hn.
    eapply num_leb_trans; [apply Hle, Hn | exact H2].
Qed.

Lemma greatestId_none (events : list event) (m : num) :
  greatestId events m ->
  (forall e, In e events -> numericId e = true -> num_leb (Number (id e)) (ofZ 0) = true) ->
  succ m = ofZ 1.
Proof.
  intros (Hin & H0 & _) Hnone. apply succ_zero; [exact H0 |].
  destruct Hin as [-> | (e & He & <-)]; [reflexivity |].
  apply Hnone; [exact He |].
  unfold numericId. apply negb_true_iff. eapply num_leb_notNaN_r; eauto.
Qed.

(** [nextId] of part_001 and of the first draft of part_000 does what C7
    says: it returns one more than the greatest numeric id present, counting
    from 0; an id that does not coerce to a number is passed over (it counts
    as 0), nothing throws, and for a collection that is empty or holds no
    numeric id above 0 the result is 1. *)
Lemma nextId_one_more_than_greatest (events : list event) :
  (exists m, greatestId events m /\ P001.nextId events = succ m)
  /\ (exists m, greatestId events m /\ P000a.nextId events = succ m)
  /\ ((forall e, In e events -> numericId e = true ->
                 num_leb (Number (id e)) (ofZ 0) = true) ->
      P001.nextId events = ofZ 1 /\ P000a.nextId events = ofZ 1).
Proof.
  split; [apply P001_nextId_greatest |].
  split; [apply P000a_nextId_greatest |].
  intros Hnone.
  destruct (P001_nextId_greatest events) as (m1 & G1 & ->).
  destruct (P000a_nextId_greatest events) as (m2 & G2 & ->).
  split; eapply greatestId_none; eauto.
Qed.

(** C7 on the second draft of part_000.  Its [nextId] hands the raw ids to
    [Math.max]: one id that is not numeric makes the result NaN, which the
    new record then carries as its id and the file as [null]; the other two
    drafts return 1 and 8 here. *)
Theorem P000b_nextId_not_a_number :
  let named := mkEvent (VString "abc") "2026-01-12T09:30:00+09:00" "Standup" false in
  let seven := mkEvent (VNumber (ofZ 7)) "2026-01-12T18:00:00+09:00" "Review" false in
  P000b.nextId [named] = NaN
  /\ P000b.nextId [seven; named] = NaN
  /\ jsonValue (VNumber (P000b.nextId [seven; named])) = VNull
  /\ P001.nextId [named] = ofZ 1 /\ P000a.nextId [named] = ofZ 1
  /\ P001.nextId [seven; named] = ofZ 8 /\ P000a.nextId [seven; named] = ofZ 8.
Proof. repeat split. Qed.

End NextId.

(** ** Running a handler *)

Section Handlers.

Lemma bind_returned {A B} (m : M A) (k : A -> M B) (w w' : world) (a : A) :
  m w = (Returned a, w') -> bind m k w = k a w'.
Proof. intros H. unfold bind. rewrite H. reflexivity. Qed.

Lemma bind_threw {A B} (m : M A) (k : A -> M B) (w w' : world) (e : error) :
  m w = (Threw e, w') -> bind m k w = (Threw e, w').
Proof. intros H. unfold bind. rewrite H. reflexivity. Qed.

(** A command with a subcommand and an argument is not the empty command. *)
Lemma tokens_nonempty (text : string) (a b : string) (more : list string) :
  split_ws text = a :: b :: more -> String.eqb text "" = false.
Proof.
  destruct text; [discriminate | reflexivity].
Qed.

Lemma P001_loadEvents_events (w : world) (l : list event) :
  file w = Some (Events l) -> P001.loadEvents w = (Returned l, w).
Proof.
  intros H. unfold P001.loadEvents, P001.ensureDataFile, bind. rewrite H. rewrite H.
  reflexivity.
Qed.

Lemma P000b_loadEvents_events (w : world) (l : list event) :
  file w = Some (Events l) -> P000b.loadEvents w = (Returned (P000b.Seq l), w).
Proof. intros H. unfold P000b.loadEvents. rewrite H. reflexivity. Qed.

Lemma filter_all {A} (p : A -> bool) (l : list A) :
  (forall x, In x l -> p x = true) -> filter p l = l.
Proof.
  induction l as [| x l IH]; simpl; intros H; [reflexivity |].
  rewrite (H x) by auto. f_equal. apply IH. auto.
Qed.

Lemma filter_shrinks {A} (p : A -> bool) (l : list A) (x : A) :
  In x l -> p x = false -> (List.length (filter p l) < List.length l)%nat.
Proof.
  induction l as [| y l IH]; simpl; intros Hin Hp; [contradiction |].
  pose proof (filter_length_le p l) as Hle.
  destruct Hin as [-> | Hin].
  - rewrite Hp. lia.
  - destruct (p y); simpl; [apply IH in Hin; auto; lia | lia].
Qed.

End Handlers.

(** ** C10: loading the store *)

Section Load.

(** C10, as the code has it.  [loadEvents] of part_001 always returns a
    sequence and never throws.  A missing file is created holding the empty
    array and the result is empty.  A file that is unparsable, or that parses
    to something else than an array, gives the empty sequence and is left as
    it is: nothing is written. *)
Theorem loadEvents_total (w : world) :
  exists l w',
    P001.loadEvents w = (Returned l, w')
    /\ match file w with
       | None => l = [] /\ w' = mkWorld (Some (Events [])) (journal w ++ [Created]) (outbox w)
       | Some (Events es) => l = es /\ w' = w
       | Some (Unparsable _) | Some (NonArray _) => l = [] /\ w' = w
       end.
Proof.
  unfold P001.loadEvents, P001.ensureDataFile, bind, writeFile.
  destruct (file w) as [[raw | raw | es] |] eqn:E; simpl; rewrite ?E; eauto.
Qed.

(** The claim has an unparsable file re-initialised by a load; it is not. *)
Lemma loadEvents_keeps_unparsable :
  let w := mkWorld (Some (Unparsable "{oops")) [] [] in
  P001.loadEvents w = (Returned [], w)
  /\ file (snd (P001.loadEvents w)) <> Some (Events []).
Proof. split; [reflexivity | discriminate]. Qed.

(** The draft with [parseAddArgs] hands back whatever was parsed (here an
    object), and creates nothing. *)
Lemma P000b_loadEvents_not_a_sequence :
  P000b.loadEvents (mkWorld (Some (NonArray None)) [] [])
  = (Returned P000b.NotSeq, mkWorld (Some (NonArray None)) [] [])
  /\ P000b.loadEvents (mkWorld None [] []) = (Returned (P000b.Seq []), mkWorld None [] []).
Proof. split; reflexivity. Qed.

End Load.

(** ** C4 and C6: the remove command *)

Section Remove.

(** C4 on part_001.  A remove whose id matches no record replies that it was
    not found, and it still calls [saveEvents]: the whole collection is
    written again. *)
Theorem P001_remove_unknown_id_saves (h : host)
    (text sub idStr : string) (more : list string) (l : list event) (w : world) :
  split_ws (trim text) = sub :: idStr :: more ->
  sub = "remove" \/ sub = "delete" ->
  isInteger (Number_of_string idStr) = true ->
  file w = Some (Events l) ->
  (forall e, In e l -> num_eqb (Number (id e)) (Number_of_string idStr) = false) ->
  P001.command h text w
  = (Returned ("⚠️ ID=" ++ Number_toString (Number_of_string idStr) ++ " は見つかりませんでした。"),
     mkWorld (Some (Events (map jsonEvent l)))
             (journal w ++ [Saved (map jsonEvent l)]) (outbox w)).
Proof.
  intros Htok Hsub Hint Hfile Hnone.
  unfold P001.command.
  rewrite (tokens_nonempty _ _ _ _ Htok), Htok.
  cbn [nth List.length].
  assert (Hadd : String.eqb sub "add" = false) by (destruct Hsub; subst; reflexivity).
  assert (Hlist : String.eqb sub "list" = false) by (destruct Hsub; subst; reflexivity).
  assert (Hrm : String.eqb sub "remove" || String.eqb sub "delete" = true)
    by (destruct Hsub; subst; reflexivity).
  rewrite Hadd, Hlist, Hrm.
  replace (S (S (List.length more)) <? 2)%nat with false
    by (symmetry; apply Nat.ltb_ge; lia).
  assert (Hn : isNaN (Number_of_string idStr) = false)
    by (destruct (Number_of_string idStr); simpl in *; congruence).
  rewrite Hn.
  rewrite (bind_returned _ _ _ _ _ (P001_loadEvents_events w l Hfile)).
  rewrite filter_all by (intros e He; rewrite (Hnone e He); reflexivity).
  unfold bind, P001.saveEvents, writeFile. cbn [file journal outbox].
  rewrite Nat.eqb_refl. reflexivity.
Qed.

Lemma P001_remove_unknown_id_saves_witness :
  P001.command tokyoHost "remove 999" oneEvent
  = (Returned "⚠️ ID=999 は見つかりませんでした。",
     mkWorld (Some (Events [standup])) [Saved [standup]] []).
Proof.
  apply (P001_remove_unknown_id_saves tokyoHost "remove 999" "remove" "999" [] [standup] oneEvent).
  - reflexivity.
  - left; reflexivity.
  - reflexivity.
  - reflexivity.
  - intros e [<- | []]. reflexivity.
Defined.

(** The draft with the [del] subcommand does what the claim says: the reply
    is the not-found message and the world is untouched. *)
Lemma P000b_del_unknown_id_no_save (h : host)
    (text idStr : string) (more : list string) (l : list event) (w : world) :
  split_ws (trim text) = "del" :: idStr :: more ->
  isInteger (Number_of_string idStr) = true ->
  file w = Some (Events l) ->
  (forall e, In e l -> strictEqNumber (id e) (Number_of_string idStr) = false) ->
  P000b.command h text w
  = (Returned ("ID=" ++ Number_toString (Number_of_string idStr) ++ " は見つかりませんでした。"), w).
Proof.
  intros Htok Hint Hfile Hnone.
  unfold P000b.command.
  rewrite (tokens_nonempty _ _ _ _ Htok), Htok.
  cbn [hd tl].
  change (String.eqb "del" "add") with false.
  change (String.eqb "del" "list") with false.
  change (String.eqb "del" "del") with true.
  cbv iota. rewrite Hint. cbn [negb].
  rewrite (bind_returned _ _ _ _ _ (P000b_loadEvents_events w l Hfile)).
  unfold P000b.asArray, bind, ret.
  rewrite filter_all by (intros e He; rewrite (Hnone e He); reflexivity).
  rewrite Nat.eqb_refl. reflexivity.
Qed.

End Remove.

(** ** C5: the add command and the range of the time *)

Section AddRange.

(** A text that matches [\d{2}:\d{2}] is two digits, a colon and two digits. *)
Lemma isTimeText_shape (t : string) :
  isTimeText t = true ->
  exists a b c d,
    t = String a (String b (String ":" (String c (String d ""))))
    /\ isDigit a = true /\ isDigit b = true /\ isDigit c = true /\ isDigit d = true.
Proof.
  destruct t as [| a [| b [| k [| c [| d [| ? ?]]]]]]; try discriminate.
  unfold isTimeText. intros H.
  rewrite !andb_true_iff in H. destruct H as ((((Ha & Hb) & Hk) & Hc) & Hd).
  apply Ascii.eqb_eq in Hk. subst k. exists a, b, c, d. auto.
Qed.

Lemma clockFields_digits (a b c d : ascii) :
  isDigit a = true -> isDigit b = true -> isDigit c = true -> isDigit d = true ->
  clockFields (String a (String b (String ":" (String c (String d "")))))
  = Some (10 * digitVal a + digitVal b, 10 * digitVal c + digitVal d).
Proof.
  intros Ha Hb Hc Hd. unfold clockFields, digits2, expect.
  rewrite Ha, Hb. cbn -[digitVal Z.mul Z.add]. rewrite Hc, Hd. reflexivity.
Qed.

(** [Number] reads two digits as the number they denote. *)
Lemma Number_two_digits (a b : ascii) :
  isDigit a = true -> isDigit b = true ->
  Number_of_string (String a (String b "")) = ofZ (10 * digitVal a + digitVal b).
Proof.
  intros Ha Hb. digit_cases Ha; digit_cases Hb; reflexivity.
Qed.

Lemma digitVal_range (a : ascii) : isDigit a = true -> 0 <= digitVal a <= 9.
Proof.
  intros Ha. digit_cases Ha; vm_compute; split; discriminate.
Qed.

Lemma ofZ_ltb (x y : Z) : num_ltb (ofZ x) (ofZ y) = (x <? y).
Proof.
  unfold num_ltb, ofZ. cbn [num_leb num_eqb].
  destruct (Z.ltb_spec x y) as [H | H].
  - apply andb_true_iff. split.
    + apply Qle_bool_iff. rewrite <- Zle_Qle. lia.
    + apply negb_true_iff. apply not_true_is_false. intros E.
      apply Qeq_bool_iff in E. unfold Qeq in E. simpl in E. lia.
  - destruct (Z.eq_dec x y) as [-> | Hne].
    + rewrite (proj2 (Qeq_bool_iff _ _)) by reflexivity. apply andb_false_r.
    + apply andb_false_iff. left. apply not_true_is_false. intros E.
      apply Qle_bool_iff in E. rewrite <- Zle_Qle in E. lia.
Qed.

(** The draft with [parseAddArgs] rejects a time whose hour or minute is out
    of range, as the claim says. *)
Lemma P000b_parseAddArgs_rejects_out_of_range
    (text dateStr timeStr : string) (more : list string) :
  split_ws (trim text) = dateStr :: timeStr :: more ->
  isTimeText timeStr = true ->
  isClockTime timeStr = false ->
  P000b.parseAddArgs text = None.
Proof.
  intros Htok Hshape Hrange.
  unfold P000b.parseAddArgs. rewrite Htok. cbn [nth skipn List.length].
  destruct (_ <? 3)%nat; [reflexivity |].
  destruct (String.eqb _ ""); [reflexivity |].
  destruct (negb (isDateText dateStr)); [reflexivity |].
  rewrite Hshape. cbn [negb].
  unfold isClockTime in Hrange. rewrite Hshape in Hrange. cbn [andb] in Hrange.
  destruct (isTimeText_shape _ Hshape) as (a & b & c & d & -> & Ha & Hb & Hc & Hd).
  cbn [substring].
  rewrite (Number_two_digits a b Ha Hb), (Number_two_digits c d Hc Hd).
  rewrite (clockFields_digits a b c d Ha Hb Hc Hd) in Hrange.
  rewrite !ofZ_ltb.
  pose proof (digitVal_range a Ha). pose proof (digitVal_range b Hb).
  pose proof (digitVal_range c Hc). pose proof (digitVal_range d Hd).
  apply andb_false_iff in Hrange.
  destruct Hrange as [Hr | Hr]; apply Z.leb_gt in Hr.
  - replace (23 <? 10 * digitVal a + digitVal b) with true
      by (symmetry; apply Z.ltb_lt; lia).
    rewrite orb_true_r. reflexivity.
  - replace (59 <? 10 * digitVal c + digitVal d) with true
      by (symmetry; apply Z.ltb_lt; lia).
    rewrite !orb_true_r. destruct (_ || _ || _); reflexivity.
Qed.

(** C5 on part_001.  The add command checks the shape of the time and not
    its range: [25:99] is taken, the record is appended and saved, and the
    handler then throws on the way to its reply, so the user gets none. *)
Theorem P001_add_accepts_time_out_of_range (h : host) :
  let e := mkEvent (VNumber (ofZ 1)) "2026-01-12T25:99:00+09:00" "x" false in
  isTimeText "25:99" = true
  /\ isClockTime "25:99" = false
  /\ P001.command h "add 2026-01-12 25:99 x" emptyStore
     = (Threw RangeError, mkWorld (Some (Events [e])) [Saved [e]] []).
Proof. repeat split. Qed.

(** The same command on the draft with [parseAddArgs]: a usage reply and no
    mutation. *)
Lemma P000b_add_rejects_time_out_of_range (h : host) :
  P000b.command h "add 2026-01-12 25:99 x" emptyStore
  = (Returned "形式: /event add 2026-01-12 09:30 朝活ミーティング", emptyStore).
Proof. reflexivity. Qed.

(** What the stored record does to part_001 afterwards: every tick throws
    when it reaches it, before anything is saved, so a reminder posted
    earlier in that tick stays unmarked and is posted again by the next tick
    of the same minute; and a list throws as well. *)
Lemma P001_invalid_instant_stops_tick_and_list :
  let bad := mkEvent (VNumber (ofZ 2)) "2026-01-12T25:99:00+09:00" "x" false in
  let w := mkWorld (Some (Events [standup; bad])) [] [] in
  let posted := ("C0123456789", "⏰ リマインド" ++ nl ++ "2026-01-12 09:30  Standup") in
  P001.tick tokyoHost (fun _ => true) 1768177800000 w
  = (Threw RangeError, mkWorld (Some (Events [standup; bad])) [] [posted])
  /\ P001.command tokyoHost "list" w = (Threw RangeError, w).
Proof. split; reflexivity. Qed.

End AddRange.

Section RemoveSpelling.

(** The claim has one handler take both [remove] and [del].  part_001 takes
    [remove] and [delete] and answers [del] as an unknown subcommand; the
    draft with [del] answers [remove] the same way.  Neither touches the
    store. *)
Lemma no_draft_takes_both_spellings :
  P001.command tokyoHost "del 1" oneEvent
  = (Returned ("❓ サブコマンドが分かりません。" ++ nl ++ P001.helpText), oneEvent)
  /\ P000a.command tokyoHost "del 1" oneEvent
     = (Returned ("❓ サブコマンドが分かりません。" ++ nl ++ P001.helpText), oneEvent)
  /\ P000b.command tokyoHost "remove 1" oneEvent
     = (Returned "不明なコマンドです。/event（引数なし）で使い方が出ます。", oneEvent)
  /\ stored (snd (P001.command tokyoHost "del 1" oneEvent)) = [standup]
  /\ stored (snd (P000b.command tokyoHost "remove 1" oneEvent)) = [standup]
  /\ fst (P001.command tokyoHost "del 1" oneEvent) <> Returned "削除しました ✅ ID=1"
  /\ fst (P000b.command tokyoHost "remove 1" oneEvent) <> Returned "削除しました ✅  ID=1".
Proof. repeat split; discriminate. Qed.

Lemma P001_remove_known (h : host)
    (text sub idStr : string) (more : list string) (l : list event) (w : world) (e : event) :
  split_ws (trim text) = sub :: idStr :: more ->
  sub = "remove" \/ sub = "delete" ->
  isNaN (Number_of_string idStr) = false ->
  file w = Some (Events l) ->
  In e l -> num_eqb (Number (id e)) (Number_of_string idStr) = true ->
  savesAndReplies (P001.command h text) w
    (map jsonEvent (withoutId (Number_of_string idStr) l))
    ("削除しました ✅ ID=" ++ Number_toString (Number_of_string idStr)).
Proof.
  intros Htok Hsub Hn Hfile Hin Hmatch.
  unfold savesAndReplies, P001.command.
  rewrite (tokens_nonempty _ _ _ _ Htok), Htok.
  cbn [nth List.length].
  assert (Hadd : String.eqb sub "add" = false) by (destruct Hsub; subst; reflexivity).
  assert (Hlist : String.eqb sub "list" = false) by (destruct Hsub; subst; reflexivity).
  assert (Hrm : String.eqb sub "remove" || String.eqb sub "delete" = true)
    by (destruct Hsub; subst; reflexivity).
  rewrite Hadd, Hlist, Hrm.
  replace (S (S (List.length more)) <? 2)%nat with false
    by (symmetry; apply Nat.ltb_ge; lia).
  rewrite Hn.
  rewrite (bind_returned _ _ _ _ _ (P001_loadEvents_events w l Hfile)).
  unfold bind, P001.saveEvents, writeFile. cbn [file journal outbox].
  fold (withoutId (Number_of_string idStr) l).
  assert (Hlt : (List.length (withoutId (Number_of_string idStr) l) < List.length l)%nat).
  { apply filter_shrinks with (x := e); [exact Hin |]. rewrite Hmatch. reflexivity. }
  replace (_ =? _)%nat with false by (symmetry; apply Nat.eqb_neq; lia).
  reflexivity.
Qed.

Lemma P000a_remove_known (h : host)
    (text sub idStr : string) (more : list string) (l : list event) (w : world) (e : event) :
  split_ws (trim text) = sub :: idStr :: more ->
  sub = "remove" \/ sub = "delete" ->
  idStr <> "" ->
  isNaN (Number_of_string idStr) = false ->
  file w = Some (Events l) ->
  In e l -> num_eqb (Number (id e)) (Number_of_string idStr) = true ->
  savesAndReplies (P000a.command h text) w
    (map jsonEvent (withoutId (Number_of_string idStr) l))
    ("削除しました ✅ ID=" ++ Number_toString (Number_of_string idStr)).
Proof.
  intros Htok Hsub Hid Hn Hfile Hin Hmatch.
  unfold savesAndReplies, P000a.command.
  rewrite (tokens_nonempty _ _ _ _ Htok), Htok.
  cbn [hd tl].
  assert (Hadd : String.eqb sub "add" = false) by (destruct Hsub; subst; reflexivity).
  assert (Hlist : String.eqb sub "list" = false) by (destruct Hsub; subst; reflexivity).
  assert (Hrm : String.eqb sub "remove" || String.eqb sub "delete" = true)
    by (destruct Hsub; subst; reflexivity).
  rewrite Hadd, Hlist, Hrm.
  assert (Hne : String.eqb idStr "" = false).
  { destruct idStr; [contradiction | reflexivity]. }
  rewrite Hne, Hn. cbn [orb].
  rewrite (bind_returned _ _ _ _ _ (P001_loadEvents_events w l Hfile)).
  unfold bind, P001.saveEvents, writeFile. cbn [file journal outbox].
  fold (withoutId (Number_of_string idStr) l).
  assert (Hlt : (List.length (withoutId (Number_of_string idStr) l) < List.length l)%nat).
  { apply filter_shrinks with (x := e); [exact Hin |]. rewrite Hmatch. reflexivity. }
  replace (_ =? _)%nat with false by (symmetry; apply Nat.eqb_neq; lia).
  reflexivity.
Qed.

Lemma P000b_del_known (h : host)
    (text idStr : string) (more : list string) (l : list event) (w : world) (e : event) :
  split_ws (trim text) = "del" :: idStr :: more ->
  isInteger (Number_of_string idStr) = true ->
  file w = Some (Events l) ->
  In e l -> strictEqNumber (id e) (Number_of_string idStr) = true ->
  savesAndReplies (P000b.command h text) w
    (map jsonEvent (withoutStrictId (Number_of_string idStr) l))
    ("削除しました ✅  ID=" ++ Number_toString (Number_of_string idStr)).
Proof.
  intros Htok Hint Hfile Hin Hmatch.
  unfold savesAndReplies, P000b.command.
  rewrite (tokens_nonempty _ _ _ _ Htok), Htok.
  cbn [hd tl].
  change (String.eqb "del" "add") with false.
  change (String.eqb "del" "list") with false.
  change (String.eqb "del" "del") with true.
  cbv iota. rewrite Hint. cbn [negb].
  rewrite (bind_returned _ _ _ _ _ (P000b_loadEvents_events w l Hfile)).
  unfold P000b.asArray, bind, ret, P000b.saveEvents, writeFile.
  cbn [file journal outbox].
  fold (withoutStrictId (Number_of_string idStr) l).
  assert (Hlt : (List.length (withoutStrictId (Number_of_string idStr) l) < List.length l)%nat).
  { apply filter_shrinks with (x := e); [exact Hin |]. rewrite Hmatch. reflexivity. }
  replace (_ =? _)%nat with false by (symmetry; apply Nat.eqb_neq; lia).
  reflexivity.
Qed.

(** The claim has the command remove exactly one record.  The handlers
    filter the collection, so every record of that id goes: of two records
    with id 1, [remove 1] and [del 1] leave none. *)
Lemma remove_takes_every_record_of_the_id :
  let twice := mkWorld (Some (Events [standup; standup])) [] [] in
  savesAndReplies (P001.command tokyoHost "remove 1") twice [] "削除しました ✅ ID=1"
  /\ savesAndReplies (P000a.command tokyoHost "remove 1") twice [] "削除しました ✅ ID=1"
  /\ savesAndReplies (P000b.command tokyoHost "del 1") twice [] "削除しました ✅  ID=1".
Proof. repeat split. Qed.

(** The claim has the stored id coerced to a number before it is compared.
    part_001 and the first draft of part_000 do so ([Number(e.id) !== id]):
    a record stored with the id "1", a string, is removed by [remove 1].
    The second draft of part_000 compares [e.id !== id] without coercion:
    [del 1] answers that the id was not found and leaves the record. *)
Lemma P000b_del_does_not_coerce :
  let texted := mkEvent (VString "1") "2026-01-12T09:30:00+09:00" "Standup" false in
  let w := mkWorld (Some (Events [texted])) [] [] in
  savesAndReplies (P001.command tokyoHost "remove 1") w [] "削除しました ✅ ID=1"
  /\ savesAndReplies (P000a.command tokyoHost "remove 1") w [] "削除しました ✅ ID=1"
  /\ P000b.command tokyoHost "del 1" w = (Returned "ID=1 は見つかりませんでした。", w).
Proof. repeat split. Qed.

(** C6, as the code has it.  part_001 and the first draft of part_000 take
    the subcommand [remove] (or [delete]), the second draft of part_000
    takes [del].  Given an ID token that reads as an integer and a store
    holding a record whose id is that number - after coercion with [Number]
    in the first two; in the third for a stored id that is the number
    itself -, the handler drops every record of that id and keeps the
    others, in their order, saves that collection once and replies with the
    confirmation that names the id. *)
Theorem remove_drops_matching_records (h : host)
    (verb idStr : string) (l : list event) (w : world) (e : event) :
  idStr <> "" ->
  isInteger (Number_of_string idStr) = true ->
  file w = Some (Events l) ->
  In e l ->
  forall text more, split_ws (trim text) = verb :: idStr :: more ->
  let n := Number_of_string idStr in
  (verb = "remove" \/ verb = "delete" ->
   num_eqb (Number (id e)) n = true ->
   savesAndReplies (P001.command h text) w (map jsonEvent (withoutId n l))
     ("削除しました ✅ ID=" ++ Number_toString n)
   /\ savesAndReplies (P000a.command h text) w (map jsonEvent (withoutId n l))
        ("削除しました ✅ ID=" ++ Number_toString n)
   /\ (List.length (withoutId n l) < List.length l)%nat)
  /\ (verb = "del" ->
      strictEqNumber (id e) n = true ->
      savesAndReplies (P000b.command h text) w (map jsonEvent (withoutStrictId n l))
        ("削除しました ✅  ID=" ++ Number_toString n)
      /\ (List.length (withoutStrictId n l) < List.length l)%nat).
Proof.
  intros Hid Hint Hfile Hin text more Htok n.
  assert (Hn : isNaN n = false)
    by (subst n; destruct (Number_of_string idStr); simpl in *; congruence).
  split.
  - intros Hverb Hmatch. repeat split.
    + eapply P001_remove_known; eauto.
    + eapply P000a_remove_known; eauto.
    + apply filter_shrinks with (x := e); [exact Hin |]. rewrite Hmatch. reflexivity.
  - intros -> Hmatch. split.
    + eapply P000b_del_known; eauto.
    + apply filter_shrinks with (x := e); [exact Hin |]. rewrite Hmatch. reflexivity.
Qed.

Lemma remove_drops_matching_records_witness :
  savesAndReplies (P001.command tokyoHost "remove 1") oneEvent [] "削除しました ✅ ID=1"
  /\ savesAndReplies (P000b.command tokyoHost "del 1") oneEvent [] "削除しました ✅  ID=1".
Proof.
  split.
  - apply (remove_drops_matching_records tokyoHost "remove" "1" [standup] oneEvent standup
             ltac:(discriminate) eq_refl eq_refl (or_introl eq_refl) "remove 1" [] eq_refl);
      [left |]; reflexivity.
  - apply (remove_drops_matching_records tokyoHost "del" "1" [standup] oneEvent standup
             ltac:(discriminate) eq_refl eq_refl (or_introl eq_refl) "del 1" [] eq_refl);
      reflexivity.
Defined.

End RemoveSpelling.

(** ** The reminder tick *)

Section Tick.

Lemma lift_returned {A B} (a : A) (k : A -> M B) (w : world) :
  bind (lift (Returned a)) k w = k a w.
Proof. reflexivity. Qed.

Lemma bind_ret {A B} (a : A) (k : A -> M B) (w : world) :
  bind (ret a) k w = k a w.
Proof. reflexivity. Qed.

Lemma channelOf_some (h : host) (ch : string) :
  channelOf h = Some ch ->
  TARGET_CHANNEL_ID h = Some ch /\ exists c r, ch = String c r.
Proof.
  unfold channelOf. destruct (TARGET_CHANNEL_ID h) as [[| c r] |]; try discriminate.
  intros E. injection E as <-. eauto.
Qed.

Lemma P001_postReminder_posts (h : host) (net : nat -> bool) (ch : string) (e : event)
    (w : world) :
  channelOf h = Some ch -> P001_keyed h e = true ->
  P001.postReminder h net e w
  = (Returned (net (List.length (outbox w))),
     mkWorld (file w) (journal w) (outbox w ++ [P001_reminder h ch e])).
Proof.
  intros Hch Hk. apply channelOf_some in Hch. destruct Hch as (Hch & c & r & ->).
  unfold P001.postReminder, P001_reminder, P001_key. rewrite Hch.
  unfold P001_keyed in Hk.
  destruct (P001.formatJst h (isoJst e)) as [k |]; [| discriminate].
  reflexivity.
Qed.

(** What the loop of part_001 does when no event makes [formatJst] throw:
    one post per due event, in order, and the flags and [changed] that the
    outcomes of the posts decide. *)
Lemma P001_scan_spec (h : host) (net : nat -> bool) (nowKey ch : string) :
  channelOf h = Some ch ->
  forall (l : list event) (changed : bool) (w : world),
    forallb (fun e => notified e || P001_keyed h e) l = true ->
    P001.scan h net nowKey l changed w
    = (Returned (flagged (P001_due h nowKey) net (List.length (outbox w)) l,
                 changed || anyAccepted (P001_due h nowKey) net (List.length (outbox w)) l),
       mkWorld (file w) (journal w)
               (outbox w ++ map (P001_reminder h ch) (filter (P001_due h nowKey) l))).
Proof.
  intros Hch. induction l as [| e l IH]; intros changed w Hk.
  - cbn. rewrite orb_false_r, app_nil_r. destruct w; reflexivity.
  - cbn [forallb] in Hk. apply andb_prop in Hk. destruct Hk as [Hke Hk].
    cbn [P001.scan flagged anyAccepted filter].
    destruct (notified e) eqn:En.
    + assert (Hd : P001_due h nowKey e = false)
        by (unfold P001_due; rewrite En; reflexivity).
      rewrite Hd, (bind_returned _ _ _ _ _ (IH changed w Hk)). reflexivity.
    + cbn [orb] in Hke.
      assert (Hkey : P001.formatJst h (isoJst e) = Returned (P001_key h e)).
      { unfold P001_keyed in Hke. unfold P001_key.
        destruct (P001.formatJst h (isoJst e)); [reflexivity | discriminate]. }
      assert (Hd : P001_due h nowKey e = String.eqb (P001_key h e) nowKey)
        by (unfold P001_due; rewrite En, Hke; reflexivity).
      rewrite Hd, Hkey, lift_returned.
      destruct (String.eqb (P001_key h e) nowKey) eqn:Edue.
      * rewrite (bind_returned _ _ _ _ _ (P001_postReminder_posts h net ch e w Hch Hke)).
        set (w1 := mkWorld (file w) (journal w) (outbox w ++ [P001_reminder h ch e])).
        assert (Hlen : List.length (outbox w1) = S (List.length (outbox w)))
          by (unfold w1; cbn [outbox]; rewrite length_app; cbn; lia).
        destruct (net (List.length (outbox w))) eqn:Enet.
        -- rewrite (bind_returned _ _ _ _ _ (IH true w1 Hk)). rewrite Hlen.
           unfold ret, w1. cbn [fst snd file journal outbox map orb].
           rewrite <- app_assoc, orb_true_r. reflexivity.
        -- rewrite (bind_returned _ _ _ _ _ (IH changed w1 Hk)). rewrite Hlen.
           unfold ret, w1. cbn [fst snd file journal outbox map orb].
           rewrite <- app_assoc. reflexivity.
      * rewrite (bind_returned _ _ _ _ _ (IH changed w Hk)). reflexivity.
Qed.

(** The loop of the draft with [parseAddArgs], whose [formatJst] never
    throws. *)
Lemma P000b_scan_spec (h : host) (net : nat -> bool) (nowKey ch : string) :
  forall (l : list event) (changed : bool) (w : world),
    P000b.scan h net ch nowKey l changed w
    = (Returned (flagged (P000b_due h nowKey) net (List.length (outbox w)) l,
                 changed || anyAccepted (P000b_due h nowKey) net (List.length (outbox w)) l),
       mkWorld (file w) (journal w)
               (outbox w ++ map (P000b_reminder h ch) (filter (P000b_due h nowKey) l))).
Proof.
  induction l as [| e l IH]; intros changed w.
  - cbn. rewrite orb_false_r, app_nil_r. destruct w; reflexivity.
  - cbn [P000b.scan flagged anyAccepted filter].
    destruct (notified e) eqn:En.
    + assert (Hd : P000b_due h nowKey e = false)
        by (unfold P000b_due; rewrite En; reflexivity).
      rewrite Hd, (bind_returned _ _ _ _ _ (IH changed w)). reflexivity.
    + assert (Hd : P000b_due h nowKey e = String.eqb (P000b.formatJst h (isoJst e)) nowKey)
        by (unfold P000b_due; rewrite En; reflexivity).
      rewrite Hd.
      destruct (String.eqb _ nowKey) eqn:Edue.
      * unfold bind at 1. unfold postMessage at 1.
        set (w1 := mkWorld (file w) (journal w) (outbox w ++ [_])).
        assert (Hlen : List.length (outbox w1) = S (List.length (outbox w)))
          by (unfold w1; cbn [outbox]; rewrite length_app; cbn; lia).
        destruct (net (List.length (outbox w))) eqn:Enet.
        -- rewrite (bind_returned _ _ _ _ _ (IH true w1)). rewrite Hlen.
           unfold ret, w1, P000b_reminder. cbn [fst snd file journal outbox map orb].
           rewrite <- app_assoc, orb_true_r. reflexivity.
        -- rewrite (bind_returned _ _ _ _ _ (IH changed w1)). rewrite Hlen.
           unfold ret, w1, P000b_reminder. cbn [fst snd file journal outbox map orb].
           rewrite <- app_assoc. reflexivity.
      * rewrite (bind_returned _ _ _ _ _ (IH changed w)). reflexivity.
Qed.

Lemma P001_tick_spec (h : host) (net : nat -> bool) (now : Z) (ch : string)
    (l : list event) (w : world) :
  channelOf h = Some ch ->
  file w = Some (Events l) ->
  forallb (fun e => notified e || P001_keyed h e) l = true ->
  let due := P001_due h (P001.nowKeyJst h now) in
  let k := List.length (outbox w) in
  P001.tick h net now w
  = (Returned tt,
     afterTick w (flagged due net k l) (anyAccepted due net k l)
               (map (P001_reminder h ch) (filter due l))).
Proof.
  intros Hch Hfile Hk due k. unfold P001.tick.
  rewrite (bind_returned _ _ _ _ _ (P001_loadEvents_events w l Hfile)).
  rewrite (bind_returned _ _ _ _ _ (P001_scan_spec h net _ ch Hch l false w Hk)).
  cbn [fst snd orb]. fold due k. unfold afterTick.
  destruct (anyAccepted due net k l); reflexivity.
Qed.

Lemma P000b_tick_spec (h : host) (net : nat -> bool) (now : Z) (ch : string)
    (l : list event) (w : world) :
  channelOf h = Some ch ->
  file w = Some (Events l) ->
  let due := P000b_due h (P000b.nowKeyJst h now) in
  let k := List.length (outbox w) in
  P000b.tick h net now w
  = (Returned tt,
     afterTick w (flagged due net k l) (anyAccepted due net k l)
               (map (P000b_reminder h ch) (filter due l))).
Proof.
  intros Hch Hfile due k. unfold P000b.tick.
  apply channelOf_some in Hch. destruct Hch as (Hch & c & r & ->). rewrite Hch.
  rewrite (bind_returned _ _ _ _ _ (P000b_loadEvents_events w l Hfile)).
  cbv beta iota.
  rewrite (bind_returned _ _ _ _ _ (P000b_scan_spec h net _ _ l false w)).
  cbn [fst snd orb]. fold due k. unfold afterTick.
  destruct (anyAccepted due net k l); reflexivity.
Qed.

Lemma flagged_all_accepted (due : event -> bool) (net : nat -> bool) (l : list event) :
  forall k, (forall n, (k <= n)%nat -> net n = true) ->
  flagged due net k l = markDue due l /\ anyAccepted due net k l = existsb due l.
Proof.
  unfold markDue. induction l as [| e l IH]; intros k Hnet; [split; reflexivity |].
  cbn [flagged anyAccepted map existsb].
  destruct (due e).
  - rewrite (Hnet k) by lia.
    destruct (IH (S k)) as [E1 E2]; [intros n Hn; apply Hnet; lia |].
    rewrite E1. split; reflexivity.
  - destruct (IH k Hnet) as [E1 E2]. rewrite E1, E2. split; reflexivity.
Qed.

Lemma flagged_none_accepted (due : event -> bool) (net : nat -> bool) (l : list event) :
  forall k, anyAccepted due net k l = false -> flagged due net k l = l.
Proof.
  induction l as [| e l IH]; intros k H; [reflexivity |].
  cbn [flagged anyAccepted] in *.
  destruct (due e).
  - apply orb_false_iff in H. destruct H as [-> H]. rewrite (IH _ H). reflexivity.
  - rewrite (IH _ H). reflexivity.
Qed.

Lemma flagged_nth (due : event -> bool) (net : nat -> bool) (l : list event) :
  forall k i e, nth_error l i = Some e ->
  nth_error (flagged due net k l) i
  = Some (if due e && net (attempt due k l i) then setNotified e else e).
Proof.
  unfold attempt. induction l as [| x l IH]; intros k i e H; [destruct i; discriminate |].
  destruct i as [| i]; cbn [nth_error firstn filter flagged] in *.
  - injection H as ->. cbn [List.length]. rewrite Nat.add_0_r.
    destruct (due e); [destruct (net k) |]; reflexivity.
  - destruct (due x); cbn [nth_error List.length].
    + rewrite (IH (S k) i e H). rewrite Nat.add_succ_comm. reflexivity.
    + apply IH, H.
Qed.

(** The records a tick leaves in the file, one for one those its loop left
    in memory. *)
Lemma afterTick_stored (w : world) (l l' : list event) (changed : bool)
    (posts : list (string * string)) :
  file w = Some (Events l) -> (changed = false -> l' = l) ->
  forall i e, nth_error l' i = Some e ->
  exists e', nth_error (stored (afterTick w l' changed posts)) i = Some e'
             /\ isoJst e' = isoJst e /\ title e' = title e /\ notified e' = notified e.
Proof.
  intros Hfile Hsame i e Hi. unfold afterTick, stored. destruct changed; cbn [file].
  - exists (jsonEvent e). rewrite nth_error_map, Hi. repeat split.
  - rewrite Hfile, <- (Hsame eq_refl). exists e. auto.
Qed.

Lemma flagged_length (due : event -> bool) (net : nat -> bool) (l : list event) :
  forall k, List.length (flagged due net k l) = List.length l.
Proof.
  induction l as [| x r IH]; intros k; [reflexivity |].
  cbn [flagged]. destruct (due x); cbn [List.length]; rewrite IH; reflexivity.
Qed.

(** What a tick leaves of the record at each place of the store: the same
    instant and title, and the flag the record had or the one its accepted
    post raised. *)
Lemma tick_records (due : event -> bool) (net : nat -> bool) (w : world) (l : list event)
    (posts : list (string * string)) :
  file w = Some (Events l) ->
  let k := List.length (outbox w) in
  let w' := afterTick w (flagged due net k l) (anyAccepted due net k l) posts in
  List.length (stored w') = List.length l
  /\ forall i e, nth_error l i = Some e ->
     exists e', nth_error (stored w') i = Some e'
       /\ isoJst e' = isoJst e /\ title e' = title e
       /\ notified e' = notified e || (due e && net (attempt due k l i)).
Proof.
  intros Hfile k w'. split.
  - unfold w', afterTick, stored. destruct (anyAccepted due net k l) eqn:E; cbn [file].
    + rewrite length_map. apply flagged_length.
    + rewrite Hfile. reflexivity.
  - intros i e Hi.
    destruct (afterTick_stored w l (flagged due net k l) (anyAccepted due net k l) posts
                Hfile (flagged_none_accepted due net l k) i _
                (flagged_nth due net l k i e Hi))
      as (e' & He' & E1 & E2 & E3).
    exists e'. split; [exact He' |].
    rewrite E1, E2, E3.
    destruct (due e && net _); cbn [setNotified isoJst title notified];
      rewrite ?orb_true_r, ?orb_false_r; auto.
Qed.

Lemma attempt_accepted (due : event -> bool) (net : nat -> bool) (k : nat)
    (l : list event) (i : nat) :
  (forall n, (k <= n)%nat -> net n = true) -> net (attempt due k l i) = true.
Proof. intros H. apply H. unfold attempt. lia. Qed.

Lemma afterTick_journal (w : world) (l' : list event) (changed : bool)
    (posts : list (string * string)) :
  let w' := afterTick w l' changed posts in
  if changed
  then journal w' = (journal w ++ [Saved (stored w')])%list
  else journal w' = journal w /\ file w' = file w.
Proof. unfold afterTick. destruct changed; cbn; auto. Qed.

(** The draft with [parseAddArgs] does what C2 says on every store: with
    every post accepted, each record ends with the flag it had or, when it
    was due, with the flag raised; the collection is written by one save when
    some record was due and not at all otherwise. *)
Lemma P000b_tick_marks_all_due_in_one_save
    (h : host) (net : nat -> bool) (now : Z) (ch : string) (l : list event) (w : world) :
  channelOf h = Some ch ->
  file w = Some (Events l) ->
  (forall n, (List.length (outbox w) <= n)%nat -> net n = true) ->
  let due := P000b_due h (P000b.nowKeyJst h now) in
  exists w',
    P000b.tick h net now w = (Returned tt, w')
    /\ List.length (stored w') = List.length l
    /\ (forall i e, nth_error l i = Some e ->
        exists e', nth_error (stored w') i = Some e'
          /\ isoJst e' = isoJst e /\ title e' = title e
          /\ notified e' = notified e || due e)
    /\ (if existsb due l
        then journal w' = (journal w ++ [Saved (stored w')])%list
        else journal w' = journal w /\ file w' = file w).
Proof.
  intros Hch Hfile Hnet due.
  eexists. split; [apply (P000b_tick_spec h net now ch l w Hch Hfile) |].
  fold due.
  destruct (tick_records due net w l (map (P000b_reminder h ch) (filter due l)) Hfile)
    as [Hlen Hrec].
  pose proof (afterTick_journal w (flagged due net (List.length (outbox w)) l)
                (anyAccepted due net (List.length (outbox w)) l)
                (map (P000b_reminder h ch) (filter due l))) as Hj.
  cbv zeta in Hlen, Hrec, Hj.
  destruct (flagged_all_accepted due net l _ Hnet) as [_ Ea]. rewrite Ea in *.
  split; [exact Hlen |]. split; [| exact Hj].
  intros i e Hi. destruct (Hrec i e Hi) as (e' & He' & E1 & E2 & E3).
  exists e'. rewrite (attempt_accepted due net _ l i Hnet), andb_true_r in E3. auto.
Qed.

(** So does part_001 on a store in which no pending record makes
    [formatJst] throw. *)
Lemma P001_tick_marks_all_due_when_instants_are_valid
    (h : host) (net : nat -> bool) (now : Z) (ch : string) (l : list event) (w : world) :
  channelOf h = Some ch ->
  file w = Some (Events l) ->
  (forall n, (List.length (outbox w) <= n)%nat -> net n = true) ->
  forallb (fun e => notified e || P001_keyed h e) l = true ->
  let due := P001_due h (P001.nowKeyJst h now) in
  exists w',
    P001.tick h net now w = (Returned tt, w')
    /\ List.length (stored w') = List.length l
    /\ (forall i e, nth_error l i = Some e ->
        exists e', nth_error (stored w') i = Some e'
          /\ isoJst e' = isoJst e /\ title e' = title e
          /\ notified e' = notified e || due e)
    /\ (if existsb due l
        then journal w' = (journal w ++ [Saved (stored w')])%list
        else journal w' = journal w /\ file w' = file w).
Proof.
  intros Hch Hfile Hnet Hk due.
  eexists. split; [apply (P001_tick_spec h net now ch l w Hch Hfile Hk) |].
  fold due.
  destruct (tick_records due net w l (map (P001_reminder h ch) (filter due l)) Hfile)
    as [Hlen Hrec].
  pose proof (afterTick_journal w (flagged due net (List.length (outbox w)) l)
                (anyAccepted due net (List.length (outbox w)) l)
                (map (P001_reminder h ch) (filter due l))) as Hj.
  cbv zeta in Hlen, Hrec, Hj.
  destruct (flagged_all_accepted due net l _ Hnet) as [_ Ea]. rewrite Ea in *.
  split; [exact Hlen |]. split; [| exact Hj].
  intros i e Hi. destruct (Hrec i e Hi) as (e' & He' & E1 & E2 & E3).
  exists e'. rewrite (attempt_accepted due net _ l i Hnet), andb_true_r in E3. auto.
Qed.

(** C2 on part_001.  The add command of part_001 stores the time 25:99
    behind the record of the stand-up.  At 09:30 the tick posts the reminder
    of the stand-up, the post is accepted, and the tick then throws at the
    record that has no due key: nothing is saved, and the stand-up, which was
    due and delivered, is still pending in the file.  The tick of the draft
    with [parseAddArgs] marks it there and saves once. *)
Theorem P001_tick_leaves_delivered_record_pending :
  let odd := mkEvent (VNumber (ofZ 2)) "2026-01-12T25:99:00+09:00" "x" false in
  let done := mkEvent (VNumber (ofZ 1)) "2026-01-12T09:30:00+09:00" "Standup" true in
  let posted := ("C0123456789", "⏰ リマインド" ++ nl ++ "2026-01-12 09:30  Standup") in
  let w := snd (P001.command tokyoHost "add 2026-01-12 25:99 x" oneEvent) in
  w = mkWorld (Some (Events [standup; odd])) [Saved [standup; odd]] []
  /\ notified standup = false
  /\ P001_due tokyoHost (P001.nowKeyJst tokyoHost halfPastNine) standup = true
  /\ P001.tick tokyoHost (fun _ => true) halfPastNine w
     = (Threw RangeError,
        mkWorld (Some (Events [standup; odd])) [Saved [standup; odd]] [posted])
  /\ P000b.tick tokyoHost (fun _ => true) halfPastNine w
     = (Returned tt,
        mkWorld (Some (Events [done; odd]))
                [Saved [standup; odd]; Saved [done; odd]] [posted]).
Proof. repeat split. Qed.

(** The draft with [parseAddArgs] does what C9 says on every store, whatever
    the outcome of each post: the tick returns, it makes one post for every
    record that is due, in the order of the store, and a record ends up
    notified exactly when it was so before or its own post was accepted. *)
Lemma P000b_tick_goes_on_after_failed_delivery
    (h : host) (net : nat -> bool) (now : Z) (ch : string) (l : list event) (w : world) :
  channelOf h = Some ch ->
  file w = Some (Events l) ->
  let due := P000b_due h (P000b.nowKeyJst h now) in
  exists w',
    P000b.tick h net now w = (Returned tt, w')
    /\ outbox w' = (outbox w ++ map (P000b_reminder h ch) (filter due l))%list
    /\ forall i e, nth_error l i = Some e ->
       exists e', nth_error (stored w') i = Some e'
         /\ isoJst e' = isoJst e /\ title e' = title e
         /\ notified e'
            = notified e || (due e && net (attempt due (List.length (outbox w)) l i)).
Proof.
  intros Hch Hfile due.
  eexists. split; [apply (P000b_tick_spec h net now ch l w Hch Hfile) |].
  fold due. split; [unfold afterTick; destruct (anyAccepted _ _ _ _); reflexivity |].
  apply (tick_records due net w l _ Hfile).
Qed.

(** So does part_001 on a store in which no pending record makes
    [formatJst] throw. *)
Lemma P001_tick_goes_on_when_instants_are_valid
    (h : host) (net : nat -> bool) (now : Z) (ch : string) (l : list event) (w : world) :
  channelOf h = Some ch ->
  file w = Some (Events l) ->
  forallb (fun e => notified e || P001_keyed h e) l = true ->
  let due := P001_due h (P001.nowKeyJst h now) in
  exists w',
    P001.tick h net now w = (Returned tt, w')
    /\ outbox w' = (outbox w ++ map (P001_reminder h ch) (filter due l))%list
    /\ forall i e, nth_error l i = Some e ->
       exists e', nth_error (stored w') i = Some e'
         /\ isoJst e' = isoJst e /\ title e' = title e
         /\ notified e'
            = notified e || (due e && net (attempt due (List.length (outbox w)) l i)).
Proof.
  intros Hch Hfile Hk due.
  eexists. split; [apply (P001_tick_spec h net now ch l w Hch Hfile Hk) |].
  fold due. split; [unfold afterTick; destruct (anyAccepted _ _ _ _); reflexivity |].
  apply (tick_records due net w l _ Hfile).
Qed.

(** C9 on part_001.  Three add commands store the stand-up, the time 25:99
    and the retrospective; the first and the third are due at 09:30.  The
    post for the stand-up is rejected and its record stays pending, as C9
    says; but the tick then throws at the record in between, so the post for
    the retrospective is never attempted.  The tick of the draft with
    [parseAddArgs] goes on to it, and marks it. *)
Theorem P001_tick_stops_before_later_due_record :
  let first := mkEvent (VNumber (ofZ 1)) "2026-01-12T09:30:00+09:00" "Standup" false in
  let odd := mkEvent (VNumber (ofZ 2)) "2026-01-12T25:99:00+09:00" "x" false in
  let third := mkEvent (VNumber (ofZ 3)) "2026-01-12T09:30:00+09:00" "Retro" false in
  let marked := mkEvent (VNumber (ofZ 3)) "2026-01-12T09:30:00+09:00" "Retro" true in
  let post1 := ("C0123456789", "⏰ リマインド" ++ nl ++ "2026-01-12 09:30  Standup") in
  let post3 := ("C0123456789", "⏰ リマインド" ++ nl ++ "2026-01-12 09:30  Retro") in
  let w1 := snd (P001.command tokyoHost "add 2026-01-12 09:30 Standup" emptyStore) in
  let w2 := snd (P001.command tokyoHost "add 2026-01-12 25:99 x" w1) in
  let w := snd (P001.command tokyoHost "add 2026-01-12 09:30 Retro" w2) in
  let firstRejected := fun n : nat => negb (n =? 0)%nat in
  stored w = [first; odd; third]
  /\ P001_due tokyoHost (P001.nowKeyJst tokyoHost halfPastNine) third = true
  /\ P001.tick tokyoHost firstRejected halfPastNine w
     = (Threw RangeError, mkWorld (file w) (journal w) [post1])
  /\ P000b.tick tokyoHost firstRejected halfPastNine w
     = (Returned tt,
        mkWorld (Some (Events [first; odd; marked]))
                (journal w ++ [Saved [first; odd; marked]]) [post1; post3]).
Proof. repeat split. Qed.

End Tick.

(** ** C3: the notified flag only rises *)

Section History.

Lemma snd_bind_returned {A B} (m : M A) (k : A -> M B) (w w1 : world) (a : A) :
  m w = (Returned a, w1) -> snd (bind m k w) = snd (k a w1).
Proof. intros H. unfold bind. rewrite H. reflexivity. Qed.

Lemma snd_bind_lift {A B} (o : outcome A) (k : A -> M B) (w : world) :
  (forall a, snd (k a w) = w) -> snd (bind (lift o) k w) = w.
Proof. intros H. unfold bind, lift. destruct o; [apply H | reflexivity]. Qed.

Lemma kept_refl (l : list event) : Forall2 kept l l.
Proof. induction l; constructor; [left; reflexivity | assumption]. Qed.

Lemma kept_json (l : list event) : Forall2 kept l (map jsonEvent l).
Proof. induction l; constructor; [right; reflexivity | assumption]. Qed.

(** A kept record has the flag it had; a raised one had it false and has it
    true. *)
Lemma kept_flag (e e' : event) : kept e e' -> notified e' = notified e.
Proof. intros [-> | ->]; reflexivity. Qed.

Lemma raisedBy_flag (h : host) (net : nat -> bool) (w w' : world) (e e' : event) :
  raisedBy h net w w' e e' -> notified e = false /\ notified e' = true.
Proof. intros (H & [-> | ->] & _); auto. Qed.

(** [loadEvents] hands back the stored records and changes none of them. *)
Lemma P001_loadEvents_stored (w : world) :
  exists w1, P001.loadEvents w = (Returned (stored w), w1)
             /\ stored w1 = stored w /\ outbox w1 = outbox w
             /\ (w1 = w
                 \/ file w = None
                    /\ w1 = mkWorld (Some (Events [])) (journal w ++ [Created]) (outbox w)).
Proof.
  unfold P001.loadEvents, P001.ensureDataFile, bind, writeFile, stored.
  destruct (file w) as [[raw | raw | es] |] eqn:E; cbn [file]; rewrite ?E;
    eexists; (split; [reflexivity |]); cbn [file outbox]; rewrite ?E;
    repeat split; auto.
Qed.

Lemma P001_command_succession (h : host) (text : string) (w : world) :
  succession h w (exec h (Command text) w) (Command text).
Proof.
  unfold exec, P001.command.
  destruct (P001_loadEvents_stored w) as (w1 & Hload & Hst & _ & _).
  repeat match goal with
         | |- context [if ?c then _ else _] => destruct c
         end;
    try (apply same_records; apply kept_refl).
  - (* add *)
    rewrite (snd_bind_returned _ _ _ _ _ Hload).
    unfold bind at 1, P001.saveEvents at 1, writeFile at 1.
    rewrite snd_bind_lift by reflexivity.
    eapply record_added with (old := map jsonEvent (stored w));
      [apply kept_json | | unfold stored; cbn [file]; rewrite map_app; reflexivity].
    reflexivity.
  - (* list *)
    rewrite (snd_bind_returned _ _ _ _ _ Hload).
    apply same_records. rewrite <- Hst.
    destruct (_ =? 0)%nat; [apply kept_refl |].
    rewrite snd_bind_lift by reflexivity. apply kept_refl.
  - (* remove *)
    rewrite (snd_bind_returned _ _ _ _ _ Hload).
    unfold bind at 1, P001.saveEvents at 1, writeFile at 1.
    eapply records_removed.
    match goal with
    | |- context [if ?c then _ else _] => destruct c
    end; unfold ret, stored at 2; cbn [snd file]; apply kept_json.
Qed.

Lemma jsonEvent_idem (e : event) : jsonEvent (jsonEvent e) = jsonEvent e.
Proof.
  destruct e as [v ? ? ?]. destruct v as [| | b | n | s]; try reflexivity.
  destruct n; reflexivity.
Qed.

Lemma raisedBy_earlier (h : host) (net : nat -> bool) (w w1 w' : world) (e e' : event) :
  (List.length (outbox w) <= List.length (outbox w1))%nat ->
  raisedBy h net w1 w' e e' -> raisedBy h net w w' e e'.
Proof.
  intros Hle (H1 & H2 & n & ch & Hn & Hnet & Hnth).
  repeat split; auto. exists n, ch. repeat split; auto. lia.
Qed.

Lemma Forall2_raised_earlier (h : host) (net : nat -> bool) (w w1 w' : world)
    (l l' : list event) :
  (List.length (outbox w) <= List.length (outbox w1))%nat ->
  Forall2 (fun e e' => e' = e \/ raisedBy h net w1 w' e e') l l' ->
  Forall2 (fun e e' => e' = e \/ raisedBy h net w w' e e') l l'.
Proof.
  intros Hle H. induction H; constructor; auto.
  destruct H as [-> | H]; [left; reflexivity | right].
  eapply raisedBy_earlier; eauto.
Qed.

(** [postReminder] on an event whose key is defined: without a channel it
    answers false and posts nothing; with one it makes the post and answers
    what the client answers. *)
Lemma P001_postReminder_any (h : host) (net : nat -> bool) (e : event) (w : world) :
  P001_keyed h e = true ->
  (channelOf h = None /\ P001.postReminder h net e w = (Returned false, w))
  \/ (exists ch, channelOf h = Some ch
        /\ P001.postReminder h net e w
           = (Returned (net (List.length (outbox w))),
              mkWorld (file w) (journal w) (outbox w ++ [P001_reminder h ch e]))).
Proof.
  intros Hk. destruct (channelOf h) as [ch |] eqn:Hch.
  - right. exists ch. split; [reflexivity |]. apply P001_postReminder_posts; assumption.
  - left. split; [reflexivity |]. unfold P001.postReminder. unfold channelOf in Hch.
    destruct (TARGET_CHANNEL_ID h) as [[| c r] |]; try discriminate; reflexivity.
Qed.

(** The loop of [tick] on any store: it writes nothing; it only adds posts;
    and when it returns, each record is as it was or has had its flag raised
    by an accepted post, and nothing at all has changed when [changed] is
    false. *)
Lemma P001_scan_any (h : host) (net : nat -> bool) (nowKey : string) (l : list event) :
  forall (c : bool) (w : world),
  exists o w',
    P001.scan h net nowKey l c w = (o, w')
    /\ file w' = file w /\ journal w' = journal w
    /\ (exists posts, outbox w' = (outbox w ++ posts)%list)
    /\ match o with
       | Returned r =>
         Forall2 (fun e e' => e' = e \/ raisedBy h net w w' e e') l (fst r)
         /\ (snd r = false -> fst r = l /\ c = false)
       | Threw _ => True
       end.
Proof.
  induction l as [| e l IH]; intros c w.
  - exists (Returned ([], c)), w. cbn. repeat split; auto.
    exists []. rewrite app_nil_r. reflexivity.
  - cbn [P001.scan].
    assert (Hskip :
      exists o w',
        bind (P001.scan h net nowKey l c) (fun r => ret (e :: fst r, snd r)) w = (o, w')
        /\ file w' = file w /\ journal w' = journal w
        /\ (exists posts, outbox w' = (outbox w ++ posts)%list)
        /\ match o with
           | Returned r =>
             Forall2 (fun e e' => e' = e \/ raisedBy h net w w' e e') (e :: l) (fst r)
             /\ (snd r = false -> fst r = e :: l /\ c = false)
           | Threw _ => True
           end).
    { destruct (IH c w) as (o & w' & Hs & Hf & Hj & Hp & Ho).
      unfold bind. rewrite Hs. destruct o as [r | err].
      - exists (Returned (e :: fst r, snd r)), w'. cbn [ret fst snd].
        repeat split; auto.
        + constructor; [left; reflexivity | apply Ho].
        + f_equal. apply Ho, H.
        + apply Ho, H.
      - exists (Threw err), w'. auto. }
    destruct (notified e) eqn:En; [exact Hskip |].
    destruct (P001.formatJst h (isoJst e)) as [k | err] eqn:Ek.
    2:{ exists (Threw err), w. cbn. repeat split; auto.
        exists []. rewrite app_nil_r. reflexivity. }
    rewrite lift_returned.
    destruct (String.eqb k nowKey); [| exact Hskip].
    assert (Hk : P001_keyed h e = true) by (unfold P001_keyed; rewrite Ek; reflexivity).
    destruct (P001_postReminder_any h net e w Hk) as [[_ Hpost] | (ch & _ & Hpost)];
      rewrite (bind_returned _ _ _ _ _ Hpost); [exact Hskip |].
    set (w1 := mkWorld (file w) (journal w) (outbox w ++ [P001_reminder h ch e])).
    assert (Hlen : (List.length (outbox w) <= List.length (outbox w1))%nat)
      by (unfold w1; cbn [outbox]; rewrite length_app; lia).
    destruct (net (List.length (outbox w))) eqn:Enet.
    + destruct (IH true w1) as (o & w' & Hs & Hf & Hj & (posts & Hp) & Ho).
      unfold bind. rewrite Hs. destruct o as [r | err].
      * exists (Returned (setNotified e :: fst r, snd r)), w'. cbn [ret fst snd].
        split; [reflexivity |]. split; [exact Hf |]. split; [exact Hj |].
        split; [exists (P001_reminder h ch e :: posts); rewrite Hp; unfold w1;
                cbn [outbox]; rewrite <- app_assoc; reflexivity |].
        split.
        -- constructor.
           ++ right. split; [exact En |]. split; [left; reflexivity |].
              exists (List.length (outbox w)), ch. split; [lia |]. split; [exact Enet |].
              rewrite Hp. unfold w1. cbn [outbox]. rewrite <- app_assoc.
              rewrite nth_error_app2 by lia. rewrite Nat.sub_diag. reflexivity.
           ++ eapply Forall2_raised_earlier; [exact Hlen | apply Ho].
        -- intros H. destruct Ho as [_ Ho]. destruct (Ho H) as [_ Hc]. discriminate.
      * exists (Threw err), w'. repeat split; auto.
        exists (P001_reminder h ch e :: posts). rewrite Hp. unfold w1.
        cbn [outbox]. rewrite <- app_assoc. reflexivity.
    + destruct (IH c w1) as (o & w' & Hs & Hf & Hj & (posts & Hp) & Ho).
      unfold bind. rewrite Hs. destruct o as [r | err].
      * exists (Returned (e :: fst r, snd r)), w'. cbn [ret fst snd].
        split; [reflexivity |]. split; [exact Hf |]. split; [exact Hj |].
        split; [exists (P001_reminder h ch e :: posts); rewrite Hp; unfold w1;
                cbn [outbox]; rewrite <- app_assoc; reflexivity |].
        split.
        -- constructor; [left; reflexivity |].
           eapply Forall2_raised_earlier; [exact Hlen | apply Ho].
        -- intros H. destruct Ho as [_ Ho]. destruct (Ho H) as [-> ->]. auto.
      * exists (Threw err), w'. repeat split; auto.
        exists (P001_reminder h ch e :: posts). rewrite Hp. unfold w1.
        cbn [outbox]. rewrite <- app_assoc. reflexivity.
Qed.

(** Saving the records a loop left: kept ones stay kept, raised ones stay
    raised. *)
Lemma Forall2_saved (h : host) (net : nat -> bool) (w w1 w' w2 : world)
    (l l' : list event) :
  outbox w2 = outbox w' -> outbox w1 = outbox w ->
  Forall2 (fun e e' => e' = e \/ raisedBy h net w1 w' e e') l l' ->
  Forall2 (fun e e' => kept e e' \/ raisedBy h net w w2 e e') l (map jsonEvent l').
Proof.
  intros Hw2 Hout Hall.
  induction Hall as [| e e' l l' He Hall IH]; cbn [map]; constructor; auto.
  destruct He as [-> | (H1 & H2 & n & ch & Hn & Hnet & Hnth)].
  - left. right. reflexivity.
  - right. split; [exact H1 |]. split.
    + destruct H2 as [-> | ->]; [right; reflexivity |].
      right. apply jsonEvent_idem.
    + exists n, ch. rewrite Hw2, <- Hout. auto.
Qed.

Lemma P001_tick_succession (h : host) (net : nat -> bool) (now : Z) (w : world) :
  succession h w (exec h (Tick net now) w) (Tick net now).
Proof.
  unfold exec, P001.tick.
  destruct (P001_loadEvents_stored w) as (w1 & Hload & Hst & Hout & _).
  rewrite (snd_bind_returned _ _ _ _ _ Hload).
  destruct (P001_scan_any h net (P001.nowKeyJst h now) (stored w) false w1)
    as (o & w' & Hs & Hf & Hj & _ & Ho).
  unfold bind. rewrite Hs.
  assert (Hsame : stored w' = stored w) by (unfold stored in *; rewrite Hf; exact Hst).
  destruct o as [r | err]; cbn [snd].
  2:{ apply same_records. rewrite Hsame. apply kept_refl. }
  destruct Ho as [Hall Hnone].
  destruct (snd r) eqn:Ec.
  - apply records_marked. unfold P001.saveEvents, writeFile, stored at 2. cbn [snd file].
    apply Forall2_saved with (w1 := w1) (w' := w'); [reflexivity | exact Hout | exact Hall].
  - apply same_records. unfold ret. cbn [snd]. rewrite Hsame. apply kept_refl.
Qed.

(** C3.  Along every sequence of commands and ticks of part_001, from any
    world, each world follows from the one before in one of four ways: all
    records are kept as they are; a command appends one record, not notified;
    a command drops records and keeps the rest; a tick keeps every record and
    raises the flag of some from false to true, each through a post for that
    record which the client accepted during that tick.  No step lowers a
    flag. *)
Theorem notified_only_rises (h : host) (steps : list step) (w : world) :
  chained h w steps (run h steps w).
Proof.
  revert w. induction steps as [| s steps IH]; intros w; cbn [run chained]; [exact I |].
  split; [| apply IH].
  destruct s as [text | net now].
  - apply P001_command_succession.
  - apply P001_tick_succession.
Qed.

End History.

(** ** C1: the due key of an event *)

Section DueKey.

Lemma digitChar_digitVal (c : ascii) : isDigit c = true -> digitChar (digitVal c) = c.
Proof. intros H. digit_cases H; reflexivity. Qed.

Lemma twoDigits_digits (a b : ascii) :
  isDigit a = true -> isDigit b = true ->
  twoDigits (10 * digitVal a + digitVal b) = String a (String b "").
Proof. intros Ha Hb. digit_cases Ha; digit_cases Hb; reflexivity. Qed.

Lemma decimal_from_digit (f : nat) (q r : Z) (acc : string) :
  0 <= r <= 9 ->
  decimal_from (S f) (10 * q + r) acc
  = if q =? 0 then String (digitChar r) acc
    else decimal_from f q (String (digitChar r) acc).
Proof.
  intros Hr. cbn [decimal_from].
  replace ((10 * q + r) mod 10) with r by (Z.div_mod_to_equations; lia).
  replace ((10 * q + r) / 10) with q by (Z.div_mod_to_equations; lia).
  reflexivity.
Qed.

(** A year of four significant digits prints as those digits. *)
Lemma decimal_four_digits (a b c d : ascii) :
  isDigit a = true -> isDigit b = true -> isDigit c = true -> isDigit d = true ->
  1 <= digitVal a ->
  decimal (100 * (10 * digitVal a + digitVal b) + (10 * digitVal c + digitVal d))
  = String a (String b (String c (String d ""))).
Proof.
  intros Ha Hb Hc Hd H1.
  pose proof (digitVal_range a Ha). pose proof (digitVal_range b Hb).
  pose proof (digitVal_range c Hc). pose proof (digitVal_range d Hd).
  set (n := 100 * (10 * digitVal a + digitVal b) + (10 * digitVal c + digitVal d)).
  assert (Hlog : 3 <= Z.log2 n).
  { change 3 with (Z.log2 8). apply Z.log2_le_mono. subst n. lia. }
  unfold decimal.
  destruct (Z.to_nat (Z.log2 n)) as [| [| [| k]]] eqn:E; try lia.
  replace n with (10 * (10 * (10 * (10 * 0 + digitVal a) + digitVal b) + digitVal c) + digitVal d)
    by (subst n; lia).
  rewrite decimal_from_digit by assumption.
  replace (_ =? 0) with false by (symmetry; apply Z.eqb_neq; lia).
  rewrite decimal_from_digit by assumption.
  replace (_ =? 0) with false by (symmetry; apply Z.eqb_neq; lia).
  rewrite decimal_from_digit by assumption.
  replace (_ =? 0) with false by (symmetry; apply Z.eqb_neq; lia).
  rewrite decimal_from_digit by assumption.
  rewrite Z.eqb_refl.
  rewrite !digitChar_digitVal by assumption. reflexivity.
Qed.

(** *** The calendar *)

Lemma civil_of_doe (era yoe doy : Z) :
  0 <= yoe < 400 -> 0 <= doy ->
  doy < (if (yoe =? 399) || ((yoe mod 4 =? 3) && negb (yoe mod 100 =? 99))
         then 366 else 365) ->
  let doe := yoe * 365 + yoe / 4 - yoe / 100 + doy in
  let z := era * 146097 + doe in
  z / 146097 = era /\ (doe - doe / 1460 + doe / 36524 - doe / 146096) / 365 = yoe.
Proof.
  intros Hy Hd Hl doe z. subst doe z.
  destruct (Z.eqb_spec yoe 399), (Z.eqb_spec (yoe mod 4) 3), (Z.eqb_spec (yoe mod 100) 99);
    cbn [orb andb negb] in Hl.
  all: split; Z.div_mod_to_equations; lia.
Qed.

(** The day number of a date of the calendar leads back to that date. *)
Lemma civil_roundtrip (y m d : Z) :
  1 <= m <= 12 -> 1 <= d <= daysInMonth y m ->
  civil_from_days (days_from_civil y m d) = (y, m, d).
Proof.
  intros Hm Hd.
  unfold days_from_civil, civil_from_days.
  set (y' := if m <=? 2 then y - 1 else y).
  set (era := y' / 400).
  set (yoe := y' - era * 400).
  set (mp := if m <=? 2 then m + 9 else m - 3).
  set (doy := (153 * mp + 2) / 5 + d - 1).
  assert (Hyoe : 0 <= yoe < 400) by (subst yoe era; Z.div_mod_to_equations; lia).
  assert (Hmp : 0 <= mp <= 11) by (subst mp; destruct (m <=? 2) eqn:E; lia).
  assert (Hdoy : 0 <= doy /\
            doy < (if (yoe =? 399) || ((yoe mod 4 =? 3) && negb (yoe mod 100 =? 99))
                   then 366 else 365)
            /\ (5 * doy + 2) / 153 = mp /\ doy - (153 * mp + 2) / 5 + 1 = d).
  { unfold daysInMonth, isLeapYear in Hd.
    assert (m = 1 \/ m = 2 \/ m = 3 \/ m = 4 \/ m = 5 \/ m = 6 \/ m = 7 \/ m = 8 \/ m = 9
            \/ m = 10 \/ m = 11 \/ m = 12) as Hc by lia.
    destruct (Z.eq_dec m 2) as [-> | Hm2].
    - subst doy mp yoe era y'.
      cbn [Z.eqb Z.leb Z.compare Pos.compare Pos.compare_cont Pos.eqb] in *.
      destruct (Z.eqb_spec (y mod 4) 0), (Z.eqb_spec (y mod 100) 0),
               (Z.eqb_spec (y mod 400) 0);
        cbn [orb andb negb] in Hd;
        match goal with |- context [if ?c then 366 else 365] => destruct c eqn:Ec end;
        try (rewrite orb_true_iff, andb_true_iff, negb_true_iff, !Z.eqb_eq, Z.eqb_neq in Ec);
        try (rewrite orb_false_iff, andb_false_iff, negb_false_iff, !Z.eqb_eq, !Z.eqb_neq in Ec);
        (repeat split; Z.div_mod_to_equations; lia).
    - assert (Hlt : doy < 365 /\ 0 <= doy /\ (5 * doy + 2) / 153 = mp
                    /\ doy - (153 * mp + 2) / 5 + 1 = d).
      { clear Hyoe Hmp. subst doy mp.
        repeat (destruct Hc as [-> | Hc]); try subst m; try contradiction;
          cbn [Z.eqb Z.leb Z.compare Pos.compare Pos.compare_cont Pos.eqb orb] in *;
          (repeat split; Z.div_mod_to_equations; lia). }
      destruct Hlt as (H1 & H2 & H3 & H4).
      repeat split; auto.
      match goal with |- context [if ?c then _ else _] => destruct c end; lia. }
  destruct Hdoy as (Hd0 & Hd1 & Hd2 & Hd3).
  destruct (civil_of_doe era yoe doy Hyoe Hd0 Hd1) as [E1 E2].
  cbv zeta in E1, E2.
  replace (era * 146097 + (yoe * 365 + yoe / 4 - yoe / 100 + doy) - 719468 + 719468)
    with (era * 146097 + (yoe * 365 + yoe / 4 - yoe / 100 + doy)) by lia.
  rewrite E1.
  replace (era * 146097 + (yoe * 365 + yoe / 4 - yoe / 100 + doy) - era * 146097)
    with (yoe * 365 + yoe / 4 - yoe / 100 + doy) by lia.
  rewrite E2.
  replace (yoe * 365 + yoe / 4 - yoe / 100 + doy - (365 * yoe + yoe / 4 - yoe / 100))
    with doy by lia.
  rewrite Hd2, Hd3.
  subst mp yoe era y'.
  destruct (m <=? 2) eqn:E.
  - apply Z.leb_le in E.
    replace (m + 9 <? 10) with false by (symmetry; apply Z.ltb_ge; lia).
    replace (m + 9 - 9 <=? 2) with true by (symmetry; apply Z.leb_le; lia).
    repeat (f_equal; try lia).
  - apply Z.leb_gt in E.
    replace (m - 3 <? 10) with true by (symmetry; apply Z.ltb_lt; lia).
    replace (m - 3 + 3 <=? 2) with false by (symmetry; apply Z.leb_gt; lia).
    repeat (f_equal; try lia).
Qed.

Lemma days_from_civil_day (y m d : Z) :
  days_from_civil y m 1 + (d - 1) = days_from_civil y m d.
Proof. unfold days_from_civil. lia. Qed.

(** *** The stored instant and its key *)

Lemma isDateText_shape (s : string) :
  isDateText s = true ->
  exists y1 y2 y3 y4 m1 m2 d1 d2,
    s = String y1 (String y2 (String y3 (String y4 (String "-"
          (String m1 (String m2 (String "-" (String d1 (String d2 "")))))))))
    /\ isDigit y1 = true /\ isDigit y2 = true /\ isDigit y3 = true /\ isDigit y4 = true
    /\ isDigit m1 = true /\ isDigit m2 = true /\ isDigit d1 = true /\ isDigit d2 = true.
Proof.
  destruct s as [| y1 [| y2 [| y3 [| y4 [| h1 [| m1 [| m2 [| h2 [| d1 [| d2 [| ? ?]]]]]]]]]]];
    try discriminate.
  unfold isDateText. intros H. rewrite !andb_true_iff in H.
  destruct H as (((((((((H1 & H2) & H3) & H4) & K1) & H5) & H6) & K2) & H7) & H8).
  apply Ascii.eqb_eq in K1, K2. subst h1 h2.
  exists y1, y2, y3, y4, m1, m2, d1, d2. repeat split; assumption.
Qed.

Lemma dateFields_digits (y1 y2 y3 y4 m1 m2 d1 d2 : ascii) :
  isDigit y1 = true -> isDigit y2 = true -> isDigit y3 = true -> isDigit y4 = true ->
  isDigit m1 = true -> isDigit m2 = true -> isDigit d1 = true -> isDigit d2 = true ->
  dateFields (String y1 (String y2 (String y3 (String y4 (String "-"
                (String m1 (String m2 (String "-" (String d1 (String d2 ""))))))))))
  = Some (100 * (10 * digitVal y1 + digitVal y2) + (10 * digitVal y3 + digitVal y4),
          10 * digitVal m1 + digitVal m2, 10 * digitVal d1 + digitVal d2).
Proof.
  intros H1 H2 H3 H4 H5 H6 H7 H8. unfold dateFields, digits4, digits2, expect.
  rewrite H1, H2. cbn -[digitVal Z.mul Z.add].
  rewrite H3, H4. cbn -[digitVal Z.mul Z.add].
  rewrite H5, H6. cbn -[digitVal Z.mul Z.add]. rewrite H7, H8. reflexivity.
Qed.

(** The time value of the string the add command stores. *)
Lemma Date_parse_stored (dateStr timeStr : string) (y mo d hh mm : Z) :
  isDateText dateStr = true -> isTimeText timeStr = true ->
  dateFields dateStr = Some (y, mo, d) -> clockFields timeStr = Some (hh, mm) ->
  Date_parse (P001.parseJstToIso dateStr timeStr)
  = if (1 <=? mo) && (mo <=? 12) && (1 <=? d) && (d <=? 31)
       && (hh <=? 24) && (mm <=? 59) && ((hh <? 24) || (mm =? 0))
    then Some ((days_from_civil y mo 1 + (d - 1)) * msPerDay
               + hh * msPerHour + mm * msPerMinute - 9 * msPerHour)
    else None.
Proof.
  intros Hd Ht Hdf Hcf.
  destruct (isDateText_shape _ Hd)
    as (y1 & y2 & y3 & y4 & m1 & m2 & d1 & d2 & -> & H1 & H2 & H3 & H4 & H5 & H6 & H7 & H8).
  destruct (isTimeText_shape _ Ht) as (a & b & c & e & -> & Ha & Hb & Hc & He).
  rewrite (dateFields_digits _ _ _ _ _ _ _ _ H1 H2 H3 H4 H5 H6 H7 H8) in Hdf.
  rewrite (clockFields_digits _ _ _ _ Ha Hb Hc He) in Hcf.
  injection Hdf as <- <- <-. injection Hcf as <- <-.
  unfold P001.parseJstToIso. cbn [append].
  unfold Date_parse, digits4, digits2, expect.
  rewrite H1, H2. cbn -[digitVal Z.mul Z.add String.eqb].
  rewrite H3, H4. cbn -[digitVal Z.mul Z.add String.eqb].
  rewrite H5, H6. cbn -[digitVal Z.mul Z.add String.eqb].
  rewrite H7, H8. cbn -[digitVal Z.mul Z.add String.eqb].
  rewrite Ha, Hb. cbn -[digitVal Z.mul Z.add String.eqb].
  rewrite Hc, He. cbn -[digitVal Z.mul Z.add Z.sub Z.leb Z.ltb Z.eqb String.eqb
                        days_from_civil msPerDay msPerHour msPerMinute].
  rewrite String.eqb_refl. reflexivity.
Qed.

(** The key of a time value that was built from a date of the calendar and a
    time of day, in a zone that is then at +09:00. *)
Lemma minuteKey_of_fields (y mo d hh mm : Z) :
  1 <= mo <= 12 -> 1 <= d <= daysInMonth y mo -> 0 <= hh <= 23 -> 0 <= mm <= 59 ->
  minuteKey (9 * msPerHour)
            ((days_from_civil y mo 1 + (d - 1)) * msPerDay
             + hh * msPerHour + mm * msPerMinute - 9 * msPerHour)
  = yearText y ++ "-" ++ twoDigits mo ++ "-" ++ twoDigits d ++ " "
      ++ twoDigits hh ++ ":" ++ twoDigits mm.
Proof.
  intros Hmo Hd Hh Hm. unfold minuteKey.
  rewrite days_from_civil_day.
  set (day := days_from_civil y mo d).
  replace (day * msPerDay + hh * msPerHour + mm * msPerMinute - 9 * msPerHour + 9 * msPerHour)
    with (day * msPerDay + (hh * msPerHour + mm * msPerMinute)) by lia.
  unfold msPerDay, msPerHour, msPerMinute.
  replace ((day * 86400000 + (hh * 3600000 + mm * 60000)) / 86400000) with day
    by (Z.div_mod_to_equations; lia).
  replace ((day * 86400000 + (hh * 3600000 + mm * 60000)) mod 86400000)
    with (hh * 3600000 + mm * 60000) by (Z.div_mod_to_equations; lia).
  subst day. rewrite (civil_roundtrip y mo d Hmo Hd).
  replace ((hh * 3600000 + mm * 60000) / 3600000) with hh
    by (Z.div_mod_to_equations; lia).
  replace (((hh * 3600000 + mm * 60000) / 60000) mod 60) with mm
    by (Z.div_mod_to_equations; lia).
  reflexivity.
Qed.

(** The claim is about every date and time the add command takes.
    part_001 takes any text of the two shapes: with month 13 the record is
    stored, and no due key exists for it, as [formatJst] throws on the stored
    instant. *)
Lemma due_key_undefined_for_month_13 :
  isDateText "2026-13-01" = true /\ isTimeText "10:00" = true
  /\ P001.command tokyoHost "add 2026-13-01 10:00 x" emptyStore
     = (Threw RangeError,
        mkWorld (Some (Events [mkEvent (VNumber (ofZ 1)) "2026-13-01T10:00:00+09:00" "x" false]))
                [Saved [mkEvent (VNumber (ofZ 1)) "2026-13-01T10:00:00+09:00" "x" false]] [])
  /\ P001.formatJst tokyoHost (P001.parseJstToIso "2026-13-01" "10:00") = Threw RangeError
  /\ P001.formatJst tokyoHost (P001.parseJstToIso "2026-13-01" "10:00")
     <> Returned ("2026-13-01" ++ " " ++ "10:00").
Proof. repeat split. discriminate. Qed.

(** Other texts of the two shapes whose key is not the text: a year with
    leading zeros, which is printed without them, and the hour 24, which is
    the start of the next day.  And in the draft with [parseAddArgs] the key
    is built in the zone of the process, so that on a host running in UTC it
    is nine hours behind the key of the tick. *)
Lemma due_key_differs_from_text :
  P001.formatJst tokyoHost (P001.parseJstToIso "0999-01-01" "10:00")
  = Returned "999-01-01 10:00"
  /\ P001.formatJst tokyoHost (P001.parseJstToIso "2026-01-12" "24:00")
     = Returned "2026-01-13 00:00"
  /\ P000b.parseAddArgs "2026-01-12 09:30 Standup"
     = Some ("2026-01-12T09:30:00+09:00", "Standup")
  /\ P000b.formatJst utcHost "2026-01-12T09:30:00+09:00" = "2026-01-12 00:30"
  /\ P000b.nowKeyJst utcHost halfPastNine = "2026-01-12 09:30".
Proof. repeat split. Qed.

(** C1, as the code has it.  For a DATE that is a date of the calendar with a
    year from 1000 on and a TIME with hour 00-23 and minute 00-59, on a host
    whose zone database has Asia/Tokyo at +09:00 at that instant, [formatJst]
    of the stored instant is the text "DATE TIME", character for character;
    so a pending event with that instant is due at a tick exactly when the
    tick's [nowKey] is that text. *)
Theorem due_key_is_date_and_time (h : host) (dateStr timeStr : string) :
  isCalendarDate dateStr = true ->
  isClockTime timeStr = true ->
  (forall t, Date_parse (P001.parseJstToIso dateStr timeStr) = Some t ->
             zoneOffset h P001.TZ t = 9 * msPerHour) ->
  P001.formatJst h (P001.parseJstToIso dateStr timeStr)
  = Returned (dateStr ++ " " ++ timeStr)
  /\ forall nowKey e,
       isoJst e = P001.parseJstToIso dateStr timeStr -> notified e = false ->
       P001_due h nowKey e = String.eqb (dateStr ++ " " ++ timeStr) nowKey.
Proof.
  intros Hdate Htime Hzone.
  unfold isCalendarDate in Hdate. apply andb_prop in Hdate. destruct Hdate as [Hd Hdr].
  unfold isClockTime in Htime. apply andb_prop in Htime. destruct Htime as [Ht Htr].
  destruct (dateFields dateStr) as [[[y mo] d] |] eqn:Edf; [| discriminate].
  destruct (clockFields timeStr) as [[hh mm] |] eqn:Ecf; [| discriminate].
  rewrite !andb_true_iff, !Z.leb_le in Hdr. rewrite !andb_true_iff, !Z.leb_le in Htr.
  destruct Hdr as ((((Hy & Hmo1) & Hmo2) & Hd1) & Hd2). destruct Htr as [Hh Hm].
  pose proof (Date_parse_stored dateStr timeStr y mo d hh mm Hd Ht Edf Ecf) as Hparse.
  destruct (isDateText_shape _ Hd)
    as (y1 & y2 & y3 & y4 & m1 & m2 & d1 & d2 & -> & H1 & H2 & H3 & H4 & H5 & H6 & H7 & H8).
  destruct (isTimeText_shape _ Ht) as (a & b & c & e & -> & Ha & Hb & Hc & He).
  rewrite (dateFields_digits _ _ _ _ _ _ _ _ H1 H2 H3 H4 H5 H6 H7 H8) in Edf.
  rewrite (clockFields_digits _ _ _ _ Ha Hb Hc He) in Ecf.
  assert (Ey : 100 * (10 * digitVal y1 + digitVal y2) + (10 * digitVal y3 + digitVal y4) = y)
    by congruence.
  assert (Emo : 10 * digitVal m1 + digitVal m2 = mo) by congruence.
  assert (Ed : 10 * digitVal d1 + digitVal d2 = d) by congruence.
  assert (Eh : 10 * digitVal a + digitVal b = hh) by congruence.
  assert (Em : 10 * digitVal c + digitVal e = mm) by congruence.
  clear Edf Ecf.
  pose proof (digitVal_range y1 H1). pose proof (digitVal_range y2 H2).
  pose proof (digitVal_range y3 H3). pose proof (digitVal_range y4 H4).
  pose proof (digitVal_range m1 H5). pose proof (digitVal_range m2 H6).
  pose proof (digitVal_range d1 H7). pose proof (digitVal_range d2 H8).
  pose proof (digitVal_range a Ha). pose proof (digitVal_range b Hb).
  pose proof (digitVal_range c Hc). pose proof (digitVal_range e He).
  assert (Hdim : daysInMonth y mo <= 31).
  { unfold daysInMonth.
    repeat match goal with |- context [if ?c then _ else _] => destruct c end; lia. }
  assert (Hrange : (1 <=? mo) && (mo <=? 12) && (1 <=? d) && (d <=? 31)
                   && (hh <=? 24) && (mm <=? 59) && ((hh <? 24) || (mm =? 0)) = true).
  { rewrite !andb_true_iff, orb_true_iff, !Z.leb_le, Z.ltb_lt. repeat split; lia. }
  rewrite Hrange in Hparse.
  assert (Hkey : P001.formatJst h
                   (P001.parseJstToIso
                      (String y1 (String y2 (String y3 (String y4 (String "-"
                         (String m1 (String m2 (String "-" (String d1 (String d2 ""))))))))))
                      (String a (String b (String ":" (String c (String e ""))))))
                 = Returned
                     (String y1 (String y2 (String y3 (String y4 (String "-"
                        (String m1 (String m2 (String "-" (String d1 (String d2 "")))))))))
                      ++ " " ++ String a (String b (String ":" (String c (String e "")))))).
  { unfold P001.formatJst. rewrite Hparse. rewrite (Hzone _ Hparse).
    rewrite minuteKey_of_fields by lia.
    unfold yearText. replace (y <=? 0) with false by (symmetry; apply Z.leb_gt; lia).
    rewrite <- Ey, <- Emo, <- Ed, <- Eh, <- Em.
    rewrite decimal_four_digits by (try assumption; lia).
    rewrite !twoDigits_digits by assumption. reflexivity. }
  split; [exact Hkey |].
  intros nowKey ev Hiso Hn.
  unfold P001_due, P001_keyed, P001_key. rewrite Hn, Hiso, Hkey. reflexivity.
Qed.

(** Scenario A of the specification: 2026-01-12 09:30. *)
Lemma due_key_is_date_and_time_witness :
  P001.formatJst tokyoHost (P001.parseJstToIso "2026-01-12" "09:30")
  = Returned "2026-01-12 09:30".
Proof.
  apply (due_key_is_date_and_time tokyoHost "2026-01-12" "09:30" eq_refl eq_refl
           (fun _ _ => eq_refl)).
Defined.

End DueKey.

(** ** C8: the list command *)

Section Chronology.

Lemma days_from_civil_march (y m d : Z) :
  days_from_civil y m d
  = marchDay (if m <=? 2 then y - 1 else y)
             ((153 * (if m <=? 2 then m + 9 else m - 3) + 2) / 5 + d - 1).
Proof.
  unfold days_from_civil, marchDay.
  set (y' := if m <=? 2 then y - 1 else y).
  set (mp := if m <=? 2 then m + 9 else m - 3).
  Z.div_mod_to_equations. lia.
Qed.

Lemma marchDay_next_year (y1 y2 doy1 doy2 : Z) :
  y1 < y2 -> 0 <= doy2 ->
  doy1 < (if isLeapYear (y1 + 1) then 366 else 365) ->
  marchDay y1 doy1 < marchDay y2 doy2.
Proof.
  intros Hy H2 H1. unfold marchDay. unfold isLeapYear in H1.
  destruct (Z.eqb_spec ((y1 + 1) mod 4) 0), (Z.eqb_spec ((y1 + 1) mod 100) 0),
           (Z.eqb_spec ((y1 + 1) mod 400) 0);
    cbn [orb andb negb] in H1; Z.div_mod_to_equations; lia.
Qed.

(** The day of the March-based year of a date of the calendar, and the
    month it falls in. *)
Lemma calendar_day_of_year (y m d : Z) :
  1 <= m <= 12 -> 1 <= d <= daysInMonth y m ->
  let y' := if m <=? 2 then y - 1 else y in
  let mp := if m <=? 2 then m + 9 else m - 3 in
  let doy := (153 * mp + 2) / 5 + d - 1 in
  0 <= doy /\ doy < (if isLeapYear (y' + 1) then 366 else 365)
  /\ (5 * doy + 2) / 153 = mp.
Proof.
  intros Hm Hd y' mp doy.
  unfold daysInMonth in Hd.
  assert (m = 1 \/ m = 2 \/ m = 3 \/ m = 4 \/ m = 5 \/ m = 6 \/ m = 7 \/ m = 8 \/ m = 9
          \/ m = 10 \/ m = 11 \/ m = 12) as Hc by lia.
  destruct (Z.eq_dec m 2) as [-> | Hm2].
  - subst doy mp y'. cbn [Z.eqb Z.leb Z.compare Pos.compare Pos.compare_cont Pos.eqb] in *.
    replace (y - 1 + 1) with y by lia.
    destruct (isLeapYear y); repeat split; Z.div_mod_to_equations; lia.
  - assert (Hlt : doy < 365 /\ 0 <= doy /\ (5 * doy + 2) / 153 = mp).
    { subst doy mp.
      repeat (destruct Hc as [-> | Hc]); try subst m; try contradiction;
        cbn [Z.eqb Z.leb Z.compare Pos.compare Pos.compare_cont Pos.eqb orb] in *;
        (repeat split; Z.div_mod_to_equations; lia). }
    destruct Hlt as (H1 & H2 & H3). repeat split; auto.
    destruct (isLeapYear (y' + 1)); lia.
Qed.

(** Of two dates of the calendar the earlier has the smaller day number. *)
Lemma days_from_civil_lt (y1 m1 d1 y2 m2 d2 : Z) :
  1 <= m1 <= 12 -> 1 <= d1 <= daysInMonth y1 m1 ->
  1 <= m2 <= 12 -> 1 <= d2 <= daysInMonth y2 m2 ->
  y1 < y2 \/ (y1 = y2 /\ m1 < m2) \/ (y1 = y2 /\ m1 = m2 /\ d1 < d2) ->
  days_from_civil y1 m1 d1 < days_from_civil y2 m2 d2.
Proof.
  intros Hm1 Hd1 Hm2 Hd2 Hlt.
  destruct (calendar_day_of_year y1 m1 d1 Hm1 Hd1) as (A1 & B1 & C1).
  destruct (calendar_day_of_year y2 m2 d2 Hm2 Hd2) as (A2 & B2 & C2).
  rewrite !days_from_civil_march.
  cbv zeta in *.
  set (ya := if m1 <=? 2 then y1 - 1 else y1) in *.
  set (yb := if m2 <=? 2 then y2 - 1 else y2) in *.
  set (pa := if m1 <=? 2 then m1 + 9 else m1 - 3) in *.
  set (pb := if m2 <=? 2 then m2 + 9 else m2 - 3) in *.
  set (doya := (153 * pa + 2) / 5 + d1 - 1) in *.
  set (doyb := (153 * pb + 2) / 5 + d2 - 1) in *.
  destruct (Z.lt_trichotomy ya yb) as [Hy | [Hy | Hy]].
  - apply marchDay_next_year; assumption.
  - rewrite Hy. unfold marchDay.
    assert (doya < doyb); [| lia].
    assert (Hp : pa < pb \/ (pa = pb /\ d1 < d2)).
    { subst ya yb pa pb.
      destruct (Z.leb_spec m1 2), (Z.leb_spec m2 2); lia. }
    clearbody ya yb pa pb. subst doya doyb.
    destruct Hp as [Hp | [-> Hp]]; [| lia].
    clear B1 B2 A1 A2. Z.div_mod_to_equations. lia.
  - exfalso. subst ya yb. destruct (Z.leb_spec m1 2), (Z.leb_spec m2 2); lia.
Qed.

(** Digits compare as the numbers they denote. *)
Lemma digit_compare (a b : ascii) :
  isDigit a = true -> isDigit b = true ->
  Ascii.compare a b = (digitVal a ?= digitVal b).
Proof. intros Ha Hb. digit_cases Ha; digit_cases Hb; reflexivity. Qed.

Lemma ascii_compare_refl (c : ascii) : Ascii.compare c c = Eq.
Proof. unfold Ascii.compare. apply N.compare_refl. Qed.

(** The time value of an instant built from a date of the calendar and a
    time of day. *)
Lemma Date_parse_calendar (dateStr timeStr : string) :
  isCalendarDate dateStr = true -> isClockTime timeStr = true ->
  exists y mo d hh mm,
    dateFields dateStr = Some (y, mo, d) /\ clockFields timeStr = Some (hh, mm)
    /\ 1 <= mo <= 12 /\ 1 <= d <= daysInMonth y mo /\ hh <= 23 /\ mm <= 59
    /\ Date_parse (P001.parseJstToIso dateStr timeStr)
       = Some (days_from_civil y mo d * msPerDay
               + hh * msPerHour + mm * msPerMinute - 9 * msPerHour).
Proof.
  intros Hdate Htime.
  unfold isCalendarDate in Hdate. apply andb_prop in Hdate. destruct Hdate as [Hd Hdr].
  unfold isClockTime in Htime. apply andb_prop in Htime. destruct Htime as [Ht Htr].
  destruct (dateFields dateStr) as [[[y mo] d] |] eqn:Edf; [| discriminate].
  destruct (clockFields timeStr) as [[hh mm] |] eqn:Ecf; [| discriminate].
  rewrite !andb_true_iff, !Z.leb_le in Hdr. rewrite !andb_true_iff, !Z.leb_le in Htr.
  destruct Hdr as ((((Hy & Hmo1) & Hmo2) & Hd1) & Hd2). destruct Htr as [Hh Hm].
  exists y, mo, d, hh, mm. repeat split; auto.
  rewrite (Date_parse_stored dateStr timeStr y mo d hh mm Hd Ht Edf Ecf).
  assert (Hdim : daysInMonth y mo <= 31).
  { unfold daysInMonth.
    repeat match goal with |- context [if ?c then _ else _] => destruct c end; lia. }
  replace ((1 <=? mo) && (mo <=? 12) && (1 <=? d) && (d <=? 31)
           && (hh <=? 24) && (mm <=? 59) && ((hh <? 24) || (mm =? 0))) with true.
  - rewrite days_from_civil_day. reflexivity.
  - symmetry. rewrite !andb_true_iff, orb_true_iff, !Z.leb_le, Z.ltb_lt. repeat split; lia.
Qed.

(** Stored instants in the order of their texts are in the order of
    time. *)
Lemma stored_texts_in_time_order (da ta db tb : string) (t1 t2 : Z) :
  isCalendarDate da = true -> isClockTime ta = true ->
  isCalendarDate db = true -> isClockTime tb = true ->
  Date_parse (P001.parseJstToIso da ta) = Some t1 ->
  Date_parse (P001.parseJstToIso db tb) = Some t2 ->
  String.ltb (P001.parseJstToIso db tb) (P001.parseJstToIso da ta) = false ->
  t1 <= t2.
Proof.
  intros Hda Hta Hdb Htb Ht1 Ht2 Hcmp.
  destruct (Date_parse_calendar da ta Hda Hta)
    as (ya & ma & dda & ha & na & Fa & Ca & Ra1 & Ra2 & Ra3 & Ra4 & Pa).
  destruct (Date_parse_calendar db tb Hdb Htb)
    as (yb & mb & ddb & hb & nb & Fb & Cb & Rb1 & Rb2 & Rb3 & Rb4 & Pb).
  rewrite Pa in Ht1. rewrite Pb in Ht2. injection Ht1 as <-. injection Ht2 as <-.
  unfold isCalendarDate in Hda, Hdb. unfold isClockTime in Hta, Htb.
  apply andb_prop in Hda, Hdb, Hta, Htb.
  destruct Hda as [Hda _], Hdb as [Hdb _], Hta as [Hta _], Htb as [Htb _].
  destruct (isDateText_shape _ Hda)
    as (p1 & p2 & p3 & p4 & p5 & p6 & p7 & p8 & -> & P1 & P2 & P3 & P4 & P5 & P6 & P7 & P8).
  destruct (isTimeText_shape _ Hta) as (p9 & p10 & p11 & p12 & -> & P9 & P10 & P11 & P12).
  destruct (isDateText_shape _ Hdb)
    as (q1 & q2 & q3 & q4 & q5 & q6 & q7 & q8 & -> & Q1 & Q2 & Q3 & Q4 & Q5 & Q6 & Q7 & Q8).
  destruct (isTimeText_shape _ Htb) as (q9 & q10 & q11 & q12 & -> & Q9 & Q10 & Q11 & Q12).
  rewrite (dateFields_digits _ _ _ _ _ _ _ _ P1 P2 P3 P4 P5 P6 P7 P8) in Fa.
  rewrite (dateFields_digits _ _ _ _ _ _ _ _ Q1 Q2 Q3 Q4 Q5 Q6 Q7 Q8) in Fb.
  rewrite (clockFields_digits _ _ _ _ P9 P10 P11 P12) in Ca.
  rewrite (clockFields_digits _ _ _ _ Q9 Q10 Q11 Q12) in Cb.
  assert (Eya : 100 * (10 * digitVal p1 + digitVal p2) + (10 * digitVal p3 + digitVal p4) = ya)
    by congruence.
  assert (Ema : 10 * digitVal p5 + digitVal p6 = ma) by congruence.
  assert (Eda : 10 * digitVal p7 + digitVal p8 = dda) by congruence.
  assert (Eha : 10 * digitVal p9 + digitVal p10 = ha) by congruence.
  assert (Ena : 10 * digitVal p11 + digitVal p12 = na) by congruence.
  assert (Eyb : 100 * (10 * digitVal q1 + digitVal q2) + (10 * digitVal q3 + digitVal q4) = yb)
    by congruence.
  assert (Emb : 10 * digitVal q5 + digitVal q6 = mb) by congruence.
  assert (Edb : 10 * digitVal q7 + digitVal q8 = ddb) by congruence.
  assert (Ehb : 10 * digitVal q9 + digitVal q10 = hb) by congruence.
  assert (Enb : 10 * digitVal q11 + digitVal q12 = nb) by congruence.
  clear Fa Fb Ca Cb Pa Pb.
  (* the texts compare digit by digit *)
  assert (Hstamp : stamp ya ma dda ha na <= stamp yb mb ddb hb nb).
  { unfold P001.parseJstToIso in Hcmp. cbn [append] in Hcmp.
    unfold String.ltb in Hcmp. cbn [String.compare] in Hcmp.
    rewrite !ascii_compare_refl in Hcmp.
    rewrite (digit_compare q1 p1), (digit_compare q2 p2), (digit_compare q3 p3),
            (digit_compare q4 p4), (digit_compare q5 p5), (digit_compare q6 p6),
            (digit_compare q7 p7), (digit_compare q8 p8), (digit_compare q9 p9),
            (digit_compare q10 p10), (digit_compare q11 p11), (digit_compare q12 p12)
      in Hcmp by assumption.
    pose proof (digitVal_range p1 P1). pose proof (digitVal_range p2 P2).
    pose proof (digitVal_range p3 P3). pose proof (digitVal_range p4 P4).
    pose proof (digitVal_range p5 P5). pose proof (digitVal_range p6 P6).
    pose proof (digitVal_range p7 P7). pose proof (digitVal_range p8 P8).
    pose proof (digitVal_range p9 P9). pose proof (digitVal_range p10 P10).
    pose proof (digitVal_range p11 P11). pose proof (digitVal_range p12 P12).
    pose proof (digitVal_range q1 Q1). pose proof (digitVal_range q2 Q2).
    pose proof (digitVal_range q3 Q3). pose proof (digitVal_range q4 Q4).
    pose proof (digitVal_range q5 Q5). pose proof (digitVal_range q6 Q6).
    pose proof (digitVal_range q7 Q7). pose proof (digitVal_range q8 Q8).
    pose proof (digitVal_range q9 Q9). pose proof (digitVal_range q10 Q10).
    pose proof (digitVal_range q11 Q11). pose proof (digitVal_range q12 Q12).
    unfold stamp. subst ya ma dda ha na yb mb ddb hb nb.
    repeat match type of Hcmp with
           | context [?x ?= ?y] =>
             destruct (Z.compare_spec x y); try discriminate Hcmp; try lia
           end. }
  (* and the stamps order the time values *)
  assert (0 <= ha /\ 0 <= na /\ 0 <= hb /\ 0 <= nb) as (? & ? & ? & ?).
  { pose proof (digitVal_range p9 P9). pose proof (digitVal_range p10 P10).
    pose proof (digitVal_range p11 P11). pose proof (digitVal_range p12 P12).
    pose proof (digitVal_range q9 Q9). pose proof (digitVal_range q10 Q10).
    pose proof (digitVal_range q11 Q11). pose proof (digitVal_range q12 Q12). lia. }
  assert (Hdim : forall y m, daysInMonth y m <= 31).
  { intros y m. unfold daysInMonth.
    repeat match goal with |- context [if ?c then _ else _] => destruct c end; lia. }
  pose proof (Hdim ya ma). pose proof (Hdim yb mb).
  clear Eya Ema Eda Eha Ena Eyb Emb Edb Ehb Enb Hcmp.
  unfold stamp in Hstamp.
  destruct (Z.lt_trichotomy ya yb) as [Hy | [Hy | Hy]]; [| | lia].
  - pose proof (days_from_civil_lt ya ma dda yb mb ddb Ra1 Ra2 Rb1 Rb2 (or_introl Hy)).
    unfold msPerDay, msPerHour, msPerMinute. lia.
  - subst yb. destruct (Z.lt_trichotomy ma mb) as [Hm | [Hm | Hm]]; [| | lia].
    + pose proof (days_from_civil_lt ya ma dda ya mb ddb Ra1 Ra2 Rb1 Rb2
                    (or_intror (or_introl (conj eq_refl Hm)))).
      unfold msPerDay, msPerHour, msPerMinute. lia.
    + subst mb. destruct (Z.lt_trichotomy dda ddb) as [Hd | [Hd | Hd]]; [| | lia].
      * pose proof (days_from_civil_lt ya ma dda ya ma ddb Ra1 Ra2 Rb1 Rb2
                      (or_intror (or_intror (conj eq_refl (conj eq_refl Hd))))).
        unfold msPerDay, msPerHour, msPerMinute. lia.
      * subst ddb. unfold msPerDay, msPerHour, msPerMinute. lia.
Qed.

End Chronology.

Section ListCommand.

Lemma insert_perm {A} (lt : A -> A -> bool) (x : A) (l : list A) :
  Permutation (x :: l) (P001.insert lt x l).
Proof.
  induction l as [| y l IH]; cbn [P001.insert]; [reflexivity |].
  destruct (lt x y); [reflexivity |].
  rewrite perm_swap. apply perm_skip, IH.
Qed.

Lemma sort_from_perm {A} (lt : A -> A -> bool) (l : list A) :
  forall sorted,
    Permutation (sorted ++ l) (fold_left (fun s x => P001.insert lt x s) l sorted).
Proof.
  induction l as [| x l IH]; intros sorted; cbn [fold_left].
  - rewrite app_nil_r. reflexivity.
  - rewrite <- IH. rewrite <- (insert_perm lt x sorted).
    symmetry. apply Permutation_middle.
Qed.

Lemma sort_perm {A} (lt : A -> A -> bool) (l : list A) :
  Permutation l (P001.sort lt l).
Proof. exact (sort_from_perm lt l []). Qed.

(** The sort puts in order what the comparator orders: [P] says which
    elements it orders, [le] is the order. *)
Lemma sort_sorted {A} (P : A -> Prop) (le : A -> A -> Prop) (lt : A -> A -> bool) :
  (forall a b, P a -> P b -> lt a b = true -> le a b) ->
  (forall a b, P a -> P b -> lt a b = false -> le b a) ->
  (forall a b c, le a b -> le b c -> le a c) ->
  forall l, Forall P l -> StronglySorted le (P001.sort lt l).
Proof.
  intros Hlt Hge Htrans.
  assert (Hins : forall x l, P x -> Forall P l -> StronglySorted le l ->
                             StronglySorted le (P001.insert lt x l)).
  { intros x l Px. induction l as [| y l IH]; intros Pl Hs; cbn [P001.insert].
    - constructor; constructor.
    - inversion Pl as [| ? ? Py Pl']; subst. inversion Hs as [| ? ? Hs' Hall]; subst.
      destruct (lt x y) eqn:E.
      + constructor; [assumption |].
        constructor; [apply Hlt; assumption |].
        eapply Forall_impl; [| exact Hall]. intros z Hz.
        eapply Htrans; [apply Hlt; eassumption | exact Hz].
      + constructor; [apply IH; assumption |].
        apply (Permutation_Forall (insert_perm lt x l)).
        constructor; [apply Hge; assumption | assumption]. }
  assert (Hfold : forall l sorted, Forall P l -> Forall P sorted ->
            StronglySorted le sorted ->
            StronglySorted le (fold_left (fun s x => P001.insert lt x s) l sorted)).
  { induction l as [| x l IH]; intros sorted Pl Ps Hs; cbn [fold_left]; [exact Hs |].
    inversion Pl; subst. apply IH; [assumption | | apply Hins; assumption].
    apply (Permutation_Forall (insert_perm lt x sorted)). constructor; assumption. }
  intros l Pl. apply Hfold; [exact Pl | constructor | constructor].
Qed.

Lemma in_firstn {A} (n : nat) (l : list A) (x : A) : In x (firstn n l) -> In x l.
Proof. intros H. rewrite <- (firstn_skipn n l). apply in_or_app. auto. Qed.

Lemma in_skipn {A} (n : nat) (l : list A) (x : A) : In x (skipn n l) -> In x l.
Proof. intros H. rewrite <- (firstn_skipn n l). apply in_or_app. auto. Qed.

Lemma firstn_sorted {A} (le : A -> A -> Prop) (n : nat) (l : list A) :
  StronglySorted le l -> StronglySorted le (firstn n l).
Proof.
  revert l. induction n as [| n IH]; intros l Hs; [constructor |].
  destruct l as [| x l]; [constructor |].
  inversion Hs; subst. cbn. constructor; [apply IH; assumption |].
  apply Forall_forall. intros y Hy. apply in_firstn in Hy.
  eapply Forall_forall; eassumption.
Qed.

(** In a sorted list, what comes first is not later than what comes after. *)
Lemma sorted_prefix_first {A} (le : A -> A -> Prop) (n : nat) (l : list A) :
  StronglySorted le l ->
  forall x y, In x (firstn n l) -> In y (skipn n l) -> le x y.
Proof.
  revert l. induction n as [| n IH]; intros l Hs x y Hx Hy; [destruct Hx |].
  destruct l as [| z l]; [destruct Hx |].
  inversion Hs as [| ? ? Hs' Hall]; subst. cbn in Hx, Hy.
  destruct Hx as [<- | Hx].
  - eapply Forall_forall; [exact Hall |]. eapply in_skipn; eassumption.
  - eapply IH; eassumption.
Qed.

Lemma calendarInstant_parts (e : event) :
  hasCalendarInstant e = true ->
  exists d t, isCalendarDate d = true /\ isClockTime t = true
              /\ isoJst e = P001.parseJstToIso d t.
Proof.
  unfold hasCalendarInstant. intros H. rewrite !andb_true_iff in H.
  destruct H as [[Hd Ht] He]. apply String.eqb_eq in He. eauto.
Qed.

Lemma calendarInstant_time (e : event) :
  hasCalendarInstant e = true -> Date_parse (isoJst e) = Some (instantOf e).
Proof.
  intros H. destruct (calendarInstant_parts e H) as (d & t & Hd & Ht & E).
  destruct (Date_parse_calendar d t Hd Ht) as (? & ? & ? & ? & ? & _ & _ & _ & _ & _ & _ & P).
  unfold instantOf. rewrite E, P. reflexivity.
Qed.

Lemma calendarInstant_keyed (h : host) (e : event) :
  hasCalendarInstant e = true -> P001_keyed h e = true.
Proof.
  intros H. unfold P001_keyed, P001.formatJst.
  rewrite (calendarInstant_time e H). reflexivity.
Qed.

Lemma precedes_notLater (a b : event) :
  hasCalendarInstant a = true -> hasCalendarInstant b = true ->
  P001.precedes a b = true -> notLater a b.
Proof.
  intros Ha Hb Hcmp. unfold P001.precedes in Hcmp. apply negb_true_iff in Hcmp.
  pose proof (calendarInstant_time a Ha) as Ta. pose proof (calendarInstant_time b Hb) as Tb.
  destruct (calendarInstant_parts a Ha) as (da & ta & Hda & Hta & Ea).
  destruct (calendarInstant_parts b Hb) as (db & tb & Hdb & Htb & Eb).
  rewrite Ea in Ta, Hcmp. rewrite Eb in Tb, Hcmp.
  exact (stored_texts_in_time_order da ta db tb _ _ Hda Hta Hdb Htb Ta Tb Hcmp).
Qed.

Lemma not_precedes_notLater (a b : event) :
  hasCalendarInstant a = true -> hasCalendarInstant b = true ->
  P001.precedes a b = false -> notLater b a.
Proof.
  intros Ha Hb Hcmp. apply precedes_notLater; try assumption.
  unfold P001.precedes, String.ltb in *. apply negb_false_iff in Hcmp.
  apply negb_true_iff. rewrite String.compare_antisym.
  destruct (String.compare (isoJst b) (isoJst a)); try discriminate. reflexivity.
Qed.

Lemma P000b_precedes_valid (a b : event) :
  Date_parse (isoJst a) <> None -> Date_parse (isoJst b) <> None ->
  (P000b.precedes a b = true -> notLater a b)
  /\ (P000b.precedes a b = false -> notLater b a).
Proof.
  unfold P000b.precedes, notLater, instantOf. intros Ha Hb.
  destruct (Date_parse (isoJst a)) as [ta |]; [| congruence].
  destruct (Date_parse (isoJst b)) as [tb |]; [| congruence].
  split; intros H; [apply Z.ltb_lt in H | apply Z.ltb_ge in H]; lia.
Qed.

Lemma notLater_trans (a b c : event) : notLater a b -> notLater b c -> notLater a c.
Proof. unfold notLater. lia. Qed.

Lemma P001_listLines_keyed (h : host) (l : list event) :
  Forall (fun e => P001_keyed h e = true) l ->
  P001.listLines h l = Returned (map (P001_line h) l).
Proof.
  induction 1 as [| e l He Hl IH]; [reflexivity |].
  cbn [P001.listLines map]. rewrite IH.
  unfold P001.listLine, P001_line, P001_key. unfold P001_keyed in He.
  destruct (P001.formatJst h (isoJst e)); [reflexivity | discriminate].
Qed.

(** What both list commands show: the first fifty of the stored records in
    the order of their instants. *)
Lemma shown_first_fifty (P : event -> Prop) (lt : event -> event -> bool) (l : list event) :
  Forall P l ->
  (forall a b, P a -> P b -> lt a b = true -> notLater a b) ->
  (forall a b, P a -> P b -> lt a b = false -> notLater b a) ->
  let shown := firstn 50 (P001.sort lt l) in
  let later := skipn 50 (P001.sort lt l) in
  Permutation l (shown ++ later)
  /\ StronglySorted notLater shown
  /\ List.length shown = Nat.min 50 (List.length l)
  /\ (forall e e', In e shown -> In e' later -> notLater e e').
Proof.
  intros Hwf Hlt Hge shown later.
  assert (Hs : StronglySorted notLater (P001.sort lt l))
    by (apply (sort_sorted P notLater lt Hlt Hge notLater_trans l Hwf)).
  split; [| split; [| split]].
  - unfold shown, later. rewrite firstn_skipn. apply sort_perm.
  - apply firstn_sorted, Hs.
  - unfold shown. rewrite length_firstn, <- (Permutation_length (sort_perm lt l)).
    reflexivity.
  - apply sorted_prefix_first, Hs.
Qed.

End ListCommand.

Section ListReply.

Lemma list_subcommand (text : string) :
  hd "" (split_ws (trim text)) = "list" ->
  String.eqb (trim text) "" = false /\ nth 0 (split_ws (trim text)) "" = "list".
Proof.
  intros H. split.
  - destruct (trim text); [discriminate H | reflexivity].
  - destruct (split_ws (trim text)); exact H.
Qed.

Lemma sort_nil_iff {A} (lt : A -> A -> bool) (l : list A) :
  (List.length (P001.sort lt l) =? 0)%nat = match l with [] => true | _ => false end.
Proof.
  rewrite <- (Permutation_length (sort_perm lt l)). destruct l; reflexivity.
Qed.

(** C8 on part_001.  Two add commands store 1 March and then "30 February",
    which the engine reads as 2 March.  The list command orders the records
    by the text of the stored instant and shows the record of 2 March before
    the record of 1 March, where the claim has the list in the order of the
    scheduled instants.  The list command of the draft with [parseAddArgs],
    which orders by the difference of the two dates, shows them in the order
    of time. *)
Theorem P001_list_shows_later_instant_first :
  let w1 := snd (P001.command tokyoHost "add 2026-03-01 10:00 Launch" emptyStore) in
  let w := snd (P001.command tokyoHost "add 2026-02-30 10:00 Party" w1) in
  stored w = [mkEvent (VNumber (ofZ 1)) "2026-03-01T10:00:00+09:00" "Launch" false;
              mkEvent (VNumber (ofZ 2)) "2026-02-30T10:00:00+09:00" "Party" false]
  /\ (exists t1 t2, Date_parse "2026-03-01T10:00:00+09:00" = Some t1
                    /\ Date_parse "2026-02-30T10:00:00+09:00" = Some t2
                    /\ t2 = t1 + msPerDay)
  /\ P001.command tokyoHost "list" w
     = (Returned (join nl ["イベント一覧（最大50件）";
                           "• [2] 2026-03-02 10:00  Party  ⏳";
                           "• [1] 2026-03-01 10:00  Launch  ⏳"]), w)
  /\ P000b.command tokyoHost "list" w
     = (Returned ("イベント一覧（最大50件）" ++ nl
                  ++ join nl ["• [1] 2026-03-01 10:00  Launch  ⏳";
                              "• [2] 2026-03-02 10:00  Party  ⏳"]), w).
Proof.
  split; [reflexivity |]. split; [| split; reflexivity].
  eexists. eexists. repeat split.
Qed.

(** On a store whose records hold instants built from dates of the calendar
    the list command of part_001 does what C8 says: the no-events message
    when the store is empty, and otherwise a heading and one line per record
    for the first fifty records in the order of their scheduled instants,
    earliest first (all of them when there are fewer).  It saves nothing; a
    missing file is created, empty. *)
Lemma P001_list_in_time_order_for_calendar_dates (h : host) (text : string) (w : world) :
  hd "" (split_ws (trim text)) = "list" ->
  forallb hasCalendarInstant (stored w) = true ->
  exists shown later w',
    Permutation (stored w) (shown ++ later)
    /\ StronglySorted notLater shown
    /\ List.length shown = Nat.min 50 (List.length (stored w))
    /\ (forall e e', In e shown -> In e' later -> notLater e e')
    /\ P001.command h text w
       = (Returned match stored w with
                   | [] => "イベントはありません。"
                   | _ => join nl ("イベント一覧（最大50件）" :: map (P001_line h) shown)
                   end, w')
    /\ (w' = w
        \/ file w = None
           /\ w' = mkWorld (Some (Events [])) (journal w ++ [Created]) (outbox w)).
Proof.
  intros Hsub Hwf.
  destruct (list_subcommand text Hsub) as [Hne Hnth].
  assert (Hall : Forall (fun e => hasCalendarInstant e = true) (stored w))
    by (apply Forall_forall; intros e He; eapply forallb_forall in Hwf; eauto).
  destruct (shown_first_fifty _ P001.precedes (stored w) Hall
              precedes_notLater not_precedes_notLater) as (Hp & Hs & Hlen & Hfirst).
  destruct (P001_loadEvents_stored w) as (w1 & Hload & _ & _ & Hw1).
  exists (firstn 50 (P001.sort P001.precedes (stored w))),
         (skipn 50 (P001.sort P001.precedes (stored w))), w1.
  repeat (split; [assumption |]). split; [| exact Hw1].
  unfold P001.command. rewrite Hne, Hnth.
  change (String.eqb "list" "add") with false.
  change (String.eqb "list" "list") with true. cbv iota.
  rewrite (bind_returned _ _ _ _ _ Hload). rewrite sort_nil_iff.
  destruct (stored w) as [| e0 l0] eqn:El; [reflexivity |].
  rewrite P001_listLines_keyed; [reflexivity |].
  apply Forall_forall. intros e He. apply calendarInstant_keyed.
  apply in_firstn in He.
  apply (Permutation_in _ (Permutation_sym (sort_perm P001.precedes (e0 :: l0)))) in He.
  eapply Forall_forall in Hall; eauto.
Qed.

Lemma P000b_listLine_valid (h : host) (e : event) :
  Date_parse (isoJst e) <> None -> P000b.listLine h e = P000b_line h e.
Proof.
  intros H. unfold P000b.listLine, P000b_line, P000b.formatJst, instantOf.
  destruct (Date_parse (isoJst e)); [reflexivity | congruence].
Qed.

(** The list command of the draft with [parseAddArgs] does what C8 says on
    every store whose records have a scheduled instant (an array in the
    file, each text making a valid date): the lines of the first fifty
    records in the order of their instants, and nothing written or created. *)
Lemma P000b_list_in_time_order (h : host) (text : string) (w : world) :
  hd "" (split_ws (trim text)) = "list" ->
  (forall v, file w <> Some (NonArray v)) ->
  Forall (fun e => Date_parse (isoJst e) <> None) (stored w) ->
  exists shown later,
    Permutation (stored w) (shown ++ later)
    /\ StronglySorted notLater shown
    /\ List.length shown = Nat.min 50 (List.length (stored w))
    /\ (forall e e', In e shown -> In e' later -> notLater e e')
    /\ P000b.command h text w
       = (Returned match stored w with
                   | [] => "登録されているイベントはありません。"
                   | _ => "イベント一覧（最大50件）" ++ nl
                          ++ join nl (map (P000b_line h) shown)
                   end, w).
Proof.
  intros Hsub Harr Hall.
  destruct (list_subcommand text Hsub) as [Hne Hnth].
  destruct (shown_first_fifty _ P000b.precedes (stored w) Hall
              (fun a b Ha Hb => proj1 (P000b_precedes_valid a b Ha Hb))
              (fun a b Ha Hb => proj2 (P000b_precedes_valid a b Ha Hb)))
    as (Hp & Hs & Hlen & Hfirst).
  exists (firstn 50 (P001.sort P000b.precedes (stored w))),
         (skipn 50 (P001.sort P000b.precedes (stored w))).
  repeat (split; [assumption |]).
  unfold P000b.command. rewrite Hne, Hsub.
  change (String.eqb "list" "add") with false.
  change (String.eqb "list" "list") with true. cbv iota.
  assert (Hload : P000b.loadEvents w = (Returned (P000b.Seq (stored w)), w)).
  { unfold P000b.loadEvents, stored.
    destruct (file w) as [[raw | v | es] |]; try reflexivity.
    exfalso. apply (Harr v). reflexivity. }
  rewrite (bind_returned _ _ _ _ _ Hload). cbn [P000b.asArray]. rewrite bind_ret.
  rewrite sort_nil_iff.
  assert (Hmap : map (P000b.listLine h) (firstn 50 (P001.sort P000b.precedes (stored w)))
                 = map (P000b_line h) (firstn 50 (P001.sort P000b.precedes (stored w)))).
  { apply map_ext_in. intros e He. apply P000b_listLine_valid.
    apply in_firstn in He.
    apply (Permutation_in _ (Permutation_sym (sort_perm P000b.precedes (stored w)))) in He.
    eapply Forall_forall in Hall; eauto. }
  rewrite Hmap. destruct (stored w); reflexivity.
Qed.

Lemma list_reply_example :
  P001.command tokyoHost "list" outOfOrder
  = (Returned (join nl ["イベント一覧（最大50件）";
                        "• [1] 2026-01-12 09:30  Standup  ⏳";
                        "• [3] 2026-01-12 18:00  Review  ✅";
                        "• [2] 2026-03-01 10:00  Launch  ⏳"]), outOfOrder).
Proof. reflexivity. Qed.

End ListReply.

(** ** The scenarios of the specification, run on part_001 *)

Section Scenarios.

(** Scenario A: the first event added to an empty store gets id 1. *)
Example scenario_A :
  P001.command tokyoHost "add 2026-01-12 09:30 Standup" emptyStore
  = (Returned ("登録しました ✅ ID=1" ++ nl ++ "2026-01-12 09:30  Standup"),
     mkWorld (Some (Events [standup])) [Saved [standup]] []).
Proof. reflexivity. Qed.

(** Scenario B: one pending record due now, one post to the configured
    channel, accepted; the record is saved as notified. *)
Example scenario_B :
  P001.tick tokyoHost (fun _ => true) halfPastNine oneEvent
  = (Returned tt,
     mkWorld (Some (Events [setNotified standup])) [Saved [setNotified standup]]
             [("C0123456789", "⏰ リマインド" ++ nl ++ "2026-01-12 09:30  Standup")]).
Proof. reflexivity. Qed.

(** Scenario C: a date with slashes is answered with the usage and nothing
    is written. *)
Example scenario_C :
  P001.command tokyoHost "add 2026/01/12 09:30 Standup" emptyStore
  = (Returned ("❌ 日付/時刻の形式が違います（YYYY-MM-DD / HH:mm）。" ++ nl ++ P001.helpText),
     emptyStore).
Proof. reflexivity. Qed.

(** A minute later the record of scenario B is no longer due: the bucket
    that was missed is not caught up. *)
Example missed_minute_is_not_caught_up :
  P001.tick tokyoHost (fun _ => true) (halfPastNine + msPerMinute) oneEvent
  = (Returned tt, oneEvent).
Proof. reflexivity. Qed.

End Scenarios.

(* ================================================================== *)
(** * Further properties of the code *)
(* ================================================================== *)

(** ** The minute in which a reminder is due *)

Section FiringWindow.

Lemma digitVal_digitChar (a : Z) : 0 <= a <= 9 -> digitVal (digitChar a) = a.
Proof.
  intros H.
  assert (a = 0 \/ a = 1 \/ a = 2 \/ a = 3 \/ a = 4 \/ a = 5 \/ a = 6 \/ a = 7 \/ a = 8 \/ a = 9)
    as C by lia.
  repeat (destruct C as [-> | C]; [reflexivity |]). subst. reflexivity.
Qed.

Lemma digitChar_inj (a b : Z) :
  0 <= a <= 9 -> 0 <= b <= 9 -> digitChar a = digitChar b -> a = b.
Proof.
  intros Ha Hb E. rewrite <- (digitVal_digitChar a Ha), <- (digitVal_digitChar b Hb).
  rewrite E. reflexivity.
Qed.

Lemma decimal_four (y : Z) :
  1000 <= y <= 9999 ->
  decimal y = String (digitChar (y / 1000)) (String (digitChar (y / 100 mod 10))
               (String (digitChar (y / 10 mod 10)) (String (digitChar (y mod 10)) ""))).
Proof.
  intros Hy.
  assert (Hlog : 3 <= Z.log2 y).
  { change 3 with (Z.log2 8). apply Z.log2_le_mono. lia. }
  unfold decimal.
  destruct (Z.to_nat (Z.log2 y)) as [| [| [| k]]] eqn:E; try lia.
  set (a := y / 1000). set (b := y / 100 mod 10). set (c := y / 10 mod 10). set (d := y mod 10).
  assert (Ha : 1 <= a <= 9) by (subst a; Z.div_mod_to_equations; lia).
  assert (Hb : 0 <= b <= 9) by (subst b; Z.div_mod_to_equations; lia).
  assert (Hc : 0 <= c <= 9) by (subst c; Z.div_mod_to_equations; lia).
  assert (Hd : 0 <= d <= 9) by (subst d; Z.div_mod_to_equations; lia).
  replace y with (10 * (10 * (10 * (10 * 0 + a) + b) + c) + d) at 1
    by (subst a b c d; Z.div_mod_to_equations; lia).
  rewrite decimal_from_digit by assumption.
  replace (_ =? 0) with false by (symmetry; apply Z.eqb_neq; lia).
  rewrite decimal_from_digit by assumption.
  replace (_ =? 0) with false by (symmetry; apply Z.eqb_neq; lia).
  rewrite decimal_from_digit by assumption.
  replace (_ =? 0) with false by (symmetry; apply Z.eqb_neq; lia).
  rewrite decimal_from_digit by lia.
  rewrite Z.eqb_refl. reflexivity.
Qed.

Lemma civil_days (z : Z) :
  let '(y, m, d) := civil_from_days z in
  days_from_civil y m d = z /\ 1 <= m <= 12 /\ 1 <= d <= 31.
Proof.
  unfold civil_from_days, days_from_civil.
  cbv zeta.
  set (z1 := z + 719468).
  set (era := z1 / 146097).
  set (doe := z1 - era * 146097).
  set (yoe := (doe - doe / 1460 + doe / 36524 - doe / 146096) / 365).
  set (doy := doe - (365 * yoe + yoe / 4 - yoe / 100)).
  set (mp := (5 * doy + 2) / 153).
  assert (Hdoe : 0 <= doe < 146097) by (subst doe era; Z.div_mod_to_equations; lia).
  assert (Hyoe : 0 <= yoe < 400) by (subst yoe; Z.div_mod_to_equations; lia).
  assert (Hdoy : 0 <= doy < 366) by (subst doy yoe; Z.div_mod_to_equations; lia).
  assert (Hmp : 0 <= mp < 12) by (subst mp; Z.div_mod_to_equations; lia).
  assert (Hd : 1 <= doy - (153 * mp + 2) / 5 + 1 <= 31)
    by (subst mp; Z.div_mod_to_equations; lia).
  destruct (mp <? 10) eqn:E; [apply Z.ltb_lt in E | apply Z.ltb_ge in E].
  - replace (mp + 3 <=? 2) with false by (symmetry; apply Z.leb_gt; lia).
    replace (yoe + era * 400) with (era * 400 + yoe) by lia.
    assert (H : (era * 400 + yoe) / 400 = era) by (Z.div_mod_to_equations; lia).
    rewrite H.
    replace (era * 400 + yoe - era * 400) with yoe by lia.
    replace (mp + 3 - 3) with mp by lia.
    split; [| lia].
    subst doy doe z1. subst mp. Z.div_mod_to_equations; lia.
  - replace (mp - 9 <=? 2) with true by (symmetry; apply Z.leb_le; lia).
    replace (yoe + era * 400 + 1 - 1) with (era * 400 + yoe) by lia.
    assert (H : (era * 400 + yoe) / 400 = era) by (Z.div_mod_to_equations; lia).
    rewrite H.
    replace (era * 400 + yoe - era * 400) with yoe by lia.
    replace (mp - 9 + 9) with mp by lia.
    split; [| lia].
    subst doy doe z1. subst mp. Z.div_mod_to_equations; lia.
Qed.

Lemma civil_year_range (z : Z) :
  -354285 <= z < 2932897 ->
  let '(y, m, d) := civil_from_days z in 1000 <= y <= 9999.
Proof.
  intros Hz.
  unfold civil_from_days.
  cbv zeta.
  set (z1 := z + 719468).
  set (era := z1 / 146097).
  set (doe := z1 - era * 146097).
  set (yoe := (doe - doe / 1460 + doe / 36524 - doe / 146096) / 365).
  set (doy := doe - (365 * yoe + yoe / 4 - yoe / 100)).
  set (mp := (5 * doy + 2) / 153).
  assert (Hdoe : 0 <= doe < 146097) by (subst doe era; Z.div_mod_to_equations; lia).
  assert (Hyoe : 0 <= yoe < 400) by (subst yoe; Z.div_mod_to_equations; lia).
  assert (Hdoy : 0 <= doy < 366) by (subst doy yoe; Z.div_mod_to_equations; lia).
  assert (Hmp : 0 <= mp < 12) by (subst mp; Z.div_mod_to_equations; lia).
  assert (Hera : 2 <= era <= 24) by (subst era z1; Z.div_mod_to_equations; lia).
  destruct (mp <? 10) eqn:E; [apply Z.ltb_lt in E | apply Z.ltb_ge in E].
  - replace (mp + 3 <=? 2) with false by (symmetry; apply Z.leb_gt; lia).
    subst mp doy yoe doe era z1. Z.div_mod_to_equations; lia.
  - replace (mp - 9 <=? 2) with true by (symmetry; apply Z.leb_le; lia).
    subst mp doy yoe doe era z1. Z.div_mod_to_equations; lia.
Qed.

Lemma fourDigitYear_days (lt : Z) :
  fourDigitYear lt = true -> -354285 <= lt / msPerDay < 2932897.
Proof.
  unfold fourDigitYear. change (days_from_civil 1000 1 1) with (-354285).
  change (days_from_civil 10000 1 1) with 2932897. unfold msPerDay.
  rewrite andb_true_iff, Z.leb_le, Z.ltb_lt. intros [H1 H2].
  Z.div_mod_to_equations; lia.
Qed.


Lemma twoDigits_inj (a b : Z) :
  0 <= a <= 99 -> 0 <= b <= 99 -> twoDigits a = twoDigits b -> a = b.
Proof.
  intros Ha Hb. unfold twoDigits. intros E. injection E as E1 E2.
  apply digitChar_inj in E1; [| Z.div_mod_to_equations; lia | Z.div_mod_to_equations; lia].
  apply digitChar_inj in E2; [| Z.div_mod_to_equations; lia | Z.div_mod_to_equations; lia].
  Z.div_mod_to_equations; lia.
Qed.

Lemma fourDigits_inj (a b : Z) :
  1000 <= a <= 9999 -> 1000 <= b <= 9999 -> decimal a = decimal b -> a = b.
Proof.
  intros Ha Hb. rewrite !decimal_four by assumption. intros E.
  injection E as E1 E2 E3 E4.
  apply digitChar_inj in E1; [| Z.div_mod_to_equations; lia | Z.div_mod_to_equations; lia].
  apply digitChar_inj in E2; [| Z.div_mod_to_equations; lia | Z.div_mod_to_equations; lia].
  apply digitChar_inj in E3; [| Z.div_mod_to_equations; lia | Z.div_mod_to_equations; lia].
  apply digitChar_inj in E4; [| Z.div_mod_to_equations; lia | Z.div_mod_to_equations; lia].
  Z.div_mod_to_equations; lia.
Qed.

Lemma fourDigits_length (a : Z) :
  1000 <= a <= 9999 ->
  exists c1 c2 c3 c4, decimal a = String c1 (String c2 (String c3 (String c4 ""))).
Proof. intros Ha. rewrite decimal_four by assumption. eauto. Qed.

Lemma twoDigits_length (a : Z) :
  exists c1 c2, twoDigits a = String c1 (String c2 "").
Proof. unfold twoDigits. eauto. Qed.

(** The date and the minute of the day can be read off a key. *)
Lemma key_fields_inj (y1 m1 d1 h1 n1 y2 m2 d2 h2 n2 : Z) :
  1000 <= y1 <= 9999 -> 1000 <= y2 <= 9999 ->
  0 <= m1 <= 99 -> 0 <= m2 <= 99 -> 0 <= d1 <= 99 -> 0 <= d2 <= 99 ->
  0 <= h1 <= 99 -> 0 <= h2 <= 99 -> 0 <= n1 <= 99 -> 0 <= n2 <= 99 ->
  decimal y1 ++ "-" ++ twoDigits m1 ++ "-" ++ twoDigits d1 ++ " "
    ++ twoDigits h1 ++ ":" ++ twoDigits n1
  = decimal y2 ++ "-" ++ twoDigits m2 ++ "-" ++ twoDigits d2 ++ " "
    ++ twoDigits h2 ++ ":" ++ twoDigits n2 ->
  y1 = y2 /\ m1 = m2 /\ d1 = d2 /\ h1 = h2 /\ n1 = n2.
Proof.
  intros Hy1 Hy2 Hm1 Hm2 Hd1 Hd2 Hh1 Hh2 Hn1 Hn2 E.
  pose proof (fourDigits_inj y1 y2 Hy1 Hy2) as Iy.
  pose proof (twoDigits_inj m1 m2 Hm1 Hm2) as Im.
  pose proof (twoDigits_inj d1 d2 Hd1 Hd2) as Id.
  pose proof (twoDigits_inj h1 h2 Hh1 Hh2) as Ih.
  pose proof (twoDigits_inj n1 n2 Hn1 Hn2) as In_.
  destruct (fourDigits_length y1 Hy1) as (a1 & a2 & a3 & a4 & Ey1).
  destruct (fourDigits_length y2 Hy2) as (b1 & b2 & b3 & b4 & Ey2).
  destruct (twoDigits_length m1) as (p1 & p2 & Em1).
  destruct (twoDigits_length m2) as (q1 & q2 & Em2).
  destruct (twoDigits_length d1) as (r1 & r2 & Ed1).
  destruct (twoDigits_length d2) as (s1 & s2 & Ed2).
  destruct (twoDigits_length h1) as (t1 & t2 & Eh1).
  destruct (twoDigits_length h2) as (u1 & u2 & Eh2).
  destruct (twoDigits_length n1) as (v1 & v2 & En1).
  destruct (twoDigits_length n2) as (w1 & w2 & En2).
  rewrite Ey1, Ey2, Em1, Em2, Ed1, Ed2, Eh1, Eh2, En1, En2 in *.
  cbn [append] in E.
  injection E as -> -> -> -> -> -> -> -> -> -> -> ->.
  repeat split; auto.
Qed.

Lemma minuteKey_inj (c a b : Z) :
  fourDigitYear (a + c) = true -> fourDigitYear (b + c) = true ->
  minuteKey c a = minuteKey c b -> (a + c) / msPerMinute = (b + c) / msPerMinute.
Proof.
  intros Ha Hb.
  apply fourDigitYear_days in Ha. apply fourDigitYear_days in Hb.
  unfold minuteKey. cbv zeta.
  pose proof (civil_days ((a + c) / msPerDay)) as Da.
  pose proof (civil_days ((b + c) / msPerDay)) as Db.
  pose proof (civil_year_range _ Ha) as Ya.
  pose proof (civil_year_range _ Hb) as Yb.
  destruct (civil_from_days ((a + c) / msPerDay)) as [[y1 m1] d1].
  destruct (civil_from_days ((b + c) / msPerDay)) as [[y2 m2] d2].
  destruct Da as (Da & Hm1 & Hd1). destruct Db as (Db & Hm2 & Hd2).
  unfold yearText.
  replace (y1 <=? 0) with false by (symmetry; apply Z.leb_gt; lia).
  replace (y2 <=? 0) with false by (symmetry; apply Z.leb_gt; lia).
  set (ha := ((a + c) mod msPerDay) / msPerHour).
  set (hb := ((b + c) mod msPerDay) / msPerHour).
  set (ma := (((a + c) mod msPerDay) / msPerMinute) mod 60).
  set (mb := (((b + c) mod msPerDay) / msPerMinute) mod 60).
  assert (Hha : 0 <= ha <= 23)
    by (subst ha; unfold msPerDay, msPerHour; clear; Z.div_mod_to_equations; lia).
  assert (Hhb : 0 <= hb <= 23)
    by (subst hb; unfold msPerDay, msPerHour; clear; Z.div_mod_to_equations; lia).
  assert (Hma : 0 <= ma <= 59) by (subst ma; clear; Z.div_mod_to_equations; lia).
  assert (Hmb : 0 <= mb <= 59) by (subst mb; clear; Z.div_mod_to_equations; lia).
  intros E.
  apply key_fields_inj in E; try lia.
  destruct E as (-> & -> & -> & Eh & Em).
  assert (Hday : (a + c) / msPerDay = (b + c) / msPerDay) by congruence.
  subst ha hb ma mb. unfold msPerDay, msPerHour, msPerMinute in *.
  clear - Hday Eh Em. Z.div_mod_to_equations; lia.
Qed.

Lemma minuteKey_same (c a b : Z) :
  (a + c) / msPerMinute = (b + c) / msPerMinute -> minuteKey c a = minuteKey c b.
Proof.
  intros E. unfold minuteKey. cbv zeta.
  assert (Hday : (a + c) / msPerDay = (b + c) / msPerDay)
    by (unfold msPerDay, msPerMinute in *; Z.div_mod_to_equations; lia).
  assert (Hh : ((a + c) mod msPerDay) / msPerHour = ((b + c) mod msPerDay) / msPerHour)
    by (unfold msPerDay, msPerMinute, msPerHour in *; Z.div_mod_to_equations; lia).
  assert (Hm : ((a + c) mod msPerDay) / msPerMinute = ((b + c) mod msPerDay) / msPerMinute)
    by (unfold msPerDay, msPerMinute, msPerHour in *; Z.div_mod_to_equations; lia).
  rewrite Hday, Hh, Hm. reflexivity.
Qed.


(** A stored instant that makes a valid date is a whole minute. *)
Lemma Date_parse_whole_minute (s : string) (t : Z) :
  Date_parse s = Some t -> (t + 9 * msPerHour) mod msPerMinute = 0.
Proof.
  unfold Date_parse. intros H.
  repeat match type of H with
         | match ?x with _ => _ end = _ => destruct x eqn:?; try discriminate
         end.
  injection H as <-. unfold msPerDay, msPerHour, msPerMinute.
  Z.div_mod_to_equations; lia.
Qed.

(** Two keys taken in the same zone offset are equal exactly when the two
    times lie in the same minute. *)
Lemma minuteKey_eqb (c a b : Z) :
  fourDigitYear (a + c) = true -> fourDigitYear (b + c) = true ->
  String.eqb (minuteKey c a) (minuteKey c b)
  = ((a + c) / msPerMinute =? (b + c) / msPerMinute).
Proof.
  intros Ha Hb.
  destruct ((a + c) / msPerMinute =? (b + c) / msPerMinute) eqn:E.
  - apply Z.eqb_eq in E. apply String.eqb_eq. apply minuteKey_same. exact E.
  - apply Z.eqb_neq in E. apply String.eqb_neq. intros K. apply E.
    apply minuteKey_inj; assumption.
Qed.

(** X3.  [nowKeyJst] names the minute of the clock in Japan: taken at
    two times (of years 1000 to 9999, with Asia/Tokyo at +09:00) it gives the
    same key exactly when the two times lie in the same minute there.  So
    the two or three ticks of one minute read one key, and ticks of
    different minutes read different keys. *)
Theorem nowKeyJst_names_the_minute (h : host) (a b : Z) :
  zoneOffset h P001.TZ a = 9 * msPerHour -> zoneOffset h P001.TZ b = 9 * msPerHour ->
  fourDigitYear (a + 9 * msPerHour) = true -> fourDigitYear (b + 9 * msPerHour) = true ->
  (P001.nowKeyJst h a = P001.nowKeyJst h b
   <-> (a + 9 * msPerHour) / msPerMinute = (b + 9 * msPerHour) / msPerMinute)
  /\ P000b.nowKeyJst h a = P001.nowKeyJst h a.
Proof.
  intros Za Zb Fa Fb. split; [| reflexivity].
  unfold P001.nowKeyJst. rewrite Za, Zb.
  split; [apply minuteKey_inj; assumption | apply minuteKey_same].
Qed.

Lemma nowKeyJst_names_the_minute_witness :
  (P001.nowKeyJst tokyoHost halfPastNine = P001.nowKeyJst tokyoHost (halfPastNine + 59999)
   <-> (halfPastNine + 9 * msPerHour) / msPerMinute
       = (halfPastNine + 59999 + 9 * msPerHour) / msPerMinute)
  /\ P000b.nowKeyJst tokyoHost halfPastNine = P001.nowKeyJst tokyoHost halfPastNine.
Proof.
  exact (nowKeyJst_names_the_minute tokyoHost halfPastNine (halfPastNine + 59999)
           eq_refl eq_refl eq_refl eq_refl).
Defined.

Lemma P001_due_in_its_minute (h : host) (e : event) (t now : Z) :
  Date_parse (isoJst e) = Some t -> notified e = false ->
  zoneOffset h P001.TZ t = 9 * msPerHour -> zoneOffset h P001.TZ now = 9 * msPerHour ->
  fourDigitYear (t + 9 * msPerHour) = true -> fourDigitYear (now + 9 * msPerHour) = true ->
  P001_due h (P001.nowKeyJst h now) e = inMinuteOf t now.
Proof.
  intros Hp Hn Zt Zn Ft Fn.
  unfold P001_due, P001_keyed, P001_key, P001.formatJst, P001.nowKeyJst.
  rewrite Hp, Hn, Zt, Zn. cbn [negb andb].
  rewrite minuteKey_eqb by assumption.
  pose proof (Date_parse_whole_minute _ _ Hp) as Hm.
  unfold inMinuteOf, msPerHour, msPerMinute in *.
  destruct ((t + 9 * 3600000) / 60000 =? (now + 9 * 3600000) / 60000) eqn:E;
    [apply Z.eqb_eq in E | apply Z.eqb_neq in E]; symmetry.
  - apply andb_true_iff. rewrite Z.leb_le, Z.ltb_lt. Z.div_mod_to_equations; lia.
  - apply andb_false_iff. rewrite Z.leb_gt, Z.ltb_ge. Z.div_mod_to_equations; lia.
Qed.

Lemma scheduled_keyed (h : host) (e : event) : scheduled e = true -> P001_keyed h e = true.
Proof.
  unfold scheduled, P001_keyed, P001.formatJst.
  destruct (Date_parse (isoJst e)); [reflexivity | discriminate].
Qed.

Lemma P001_due_dueAt (h : host) (now : Z) (e : event) :
  onJapanTime h e = true ->
  zoneOffset h P001.TZ now = 9 * msPerHour ->
  fourDigitYear (now + 9 * msPerHour) = true ->
  notified e || scheduled e = true ->
  P001_due h (P001.nowKeyJst h now) e = dueAt now e.
Proof.
  intros Hz Zn Hn He. destruct (notified e) eqn:En.
  - unfold P001_due, dueAt. rewrite En. reflexivity.
  - cbn [orb] in He. unfold scheduled in He. unfold dueAt, instantOf. rewrite En.
    unfold onJapanTime in Hz. rewrite En in Hz. cbn [orb] in Hz.
    destruct (Date_parse (isoJst e)) as [t |] eqn:Ep; [| discriminate].
    apply Z.eqb_eq in Hz.
    cbn [negb andb]. apply P001_due_in_its_minute; auto.
Qed.

(** X2.  The tick of part_001 at time [now] posts one reminder for each
    pending record whose instant [t] satisfies [t <= now < t + 60000], in the
    order of the store, and for no other record: not before the instant and
    not once its minute is over.  The zone database has Asia/Tokyo at +09:00
    at [now] and at the instants of the pending records; the pending records
    have valid instants, in years of four digits. *)
Theorem P001_tick_reminds_within_the_minute
    (h : host) (net : nat -> bool) (now : Z) (ch : string) (l : list event) (w : world) :
  channelOf h = Some ch ->
  file w = Some (Events l) ->
  forallb (fun e => notified e || scheduled e) l = true ->
  forallb (onJapanTime h) l = true ->
  zoneOffset h P001.TZ now = 9 * msPerHour ->
  fourDigitYear (now + 9 * msPerHour) = true ->
  exists w',
    P001.tick h net now w = (Returned tt, w')
    /\ outbox w' = (outbox w ++ map (P001_reminder h ch) (filter (dueAt now) l))%list.
Proof.
  intros Hch Hf Hl Hz Zn Hn.
  assert (Hk : forallb (fun e => notified e || P001_keyed h e) l = true).
  { rewrite forallb_forall in *. intros e He. specialize (Hl e He).
    destruct (notified e); [reflexivity |]. cbn [orb] in *. apply scheduled_keyed. exact Hl. }
  rewrite (P001_tick_spec h net now ch l w Hch Hf Hk).
  eexists. split; [reflexivity |].
  assert (Hfilter : filter (P001_due h (P001.nowKeyJst h now)) l = filter (dueAt now) l).
  { apply filter_ext_in. intros e He. rewrite forallb_forall in Hl, Hz.
    apply P001_due_dueAt; auto. }
  rewrite <- Hfilter. unfold afterTick.
  destruct (anyAccepted _ _ _ _); reflexivity.
Qed.

Lemma P001_tick_reminds_within_the_minute_witness :
  exists w',
    P001.tick tokyoHost (fun _ => true) (halfPastNine + 30000) twoDue = (Returned tt, w')
    /\ outbox w'
       = (outbox twoDue
          ++ map (P001_reminder tokyoHost "C0123456789")
                 (filter (dueAt (halfPastNine + 30000)) [standup; retro]))%list.
Proof.
  exact (P001_tick_reminds_within_the_minute tokyoHost (fun _ => true) (halfPastNine + 30000)
           "C0123456789" [standup; retro] twoDue eq_refl eq_refl eq_refl eq_refl
           eq_refl eq_refl).
Defined.

(** X4.  In the second draft of part_000 the key of a record is built from
    the getters of the process's zone while the key of now is taken in
    Asia/Tokyo: with the process at offset [c] from UTC, a pending record
    with instant [t] is due exactly in the minute that starts at
    [t + c - 9h].  A process in Japan posts at the instant; a process in UTC
    posts nine hours before it. *)
Theorem P000b_due_minute_follows_process_zone (h : host) (e : event) (t now c : Z) :
  Date_parse (isoJst e) = Some t -> notified e = false ->
  localOffset h t = c -> c mod msPerMinute = 0 ->
  zoneOffset h "Asia/Tokyo" now = 9 * msPerHour ->
  fourDigitYear (t + c) = true -> fourDigitYear (now + 9 * msPerHour) = true ->
  P000b_due h (P000b.nowKeyJst h now) e = inMinuteOf (t + c - 9 * msPerHour) now.
Proof.
  intros Hp Hn Hc Hcm Hz Ft Fn.
  unfold P000b_due, P000b.formatJst, P000b.nowKeyJst. rewrite Hp, Hn, Hc, Hz. cbn [negb andb].
  assert (Hkey : gettersKey c t = minuteKey (9 * msPerHour) (t + c - 9 * msPerHour)).
  { unfold gettersKey, minuteKey. cbv zeta.
    replace (t + c - 9 * msPerHour + 9 * msPerHour) with (t + c) by lia.
    pose proof (civil_year_range _ (fourDigitYear_days _ Ft)) as Hy.
    destruct (civil_from_days ((t + c) / msPerDay)) as [[y m] d].
    unfold intText, yearText.
    replace (y <? 0) with false by (symmetry; apply Z.ltb_ge; lia).
    replace (y <=? 0) with false by (symmetry; apply Z.leb_gt; lia).
    reflexivity. }
  rewrite Hkey.
  rewrite minuteKey_eqb
    by (replace (t + c - 9 * msPerHour + 9 * msPerHour) with (t + c) by lia; assumption).
  pose proof (Date_parse_whole_minute _ _ Hp) as Hm.
  unfold inMinuteOf, msPerHour, msPerMinute in *.
  destruct ((t + c - 9 * 3600000 + 9 * 3600000) / 60000 =? (now + 9 * 3600000) / 60000) eqn:E;
    [apply Z.eqb_eq in E | apply Z.eqb_neq in E]; symmetry.
  - apply andb_true_iff. rewrite Z.leb_le, Z.ltb_lt. Z.div_mod_to_equations; lia.
  - apply andb_false_iff. rewrite Z.leb_gt, Z.ltb_ge. Z.div_mod_to_equations; lia.
Qed.

Lemma P000b_due_minute_follows_process_zone_witness :
  P000b_due utcHost (P000b.nowKeyJst utcHost (halfPastNine - 9 * msPerHour)) standup
  = inMinuteOf (halfPastNine + 0 - 9 * msPerHour) (halfPastNine - 9 * msPerHour).
Proof.
  exact (P000b_due_minute_follows_process_zone utcHost standup halfPastNine
           (halfPastNine - 9 * msPerHour) 0 eq_refl eq_refl eq_refl eq_refl eq_refl
           eq_refl eq_refl).
Defined.

End FiringWindow.

(** ** More on the reminder tick *)

Section TickMore.

(** *** The tick of the first draft of part_000 *)

Lemma bind_same {A B} (m m' : M A) (k k' : A -> M B) (w : world) :
  m w = m' w -> (forall a w1, k a w1 = k' a w1) -> bind m k w = bind m' k' w.
Proof.
  intros Hm Hk. unfold bind. rewrite Hm.
  destruct (m' w) as [[a | err] w1]; [apply Hk | reflexivity].
Qed.

Lemma P000a_tryPostReminder_keyed (h : host) (net : nat -> bool) (e : event) (w : world)
    (k : string) :
  P001.formatJst h (isoJst e) = Returned k ->
  P000a.tryPostReminder h net e w = P001.postReminder h net e w.
Proof.
  intros Ek. unfold P000a.tryPostReminder, P001.postReminder. rewrite Ek, lift_returned.
  destruct (TARGET_CHANNEL_ID h) as [[| c r] |]; try reflexivity.
Qed.

Lemma P000a_scan_eq (h : host) (net : nat -> bool) (nowKey : string) :
  forall (l : list event) (changed : bool) (w : world),
    P000a.scan h net nowKey l changed w = P001.scan h net nowKey l changed w.
Proof.
  induction l as [| e l IH]; intros changed w; [reflexivity |].
  cbn [P000a.scan P001.scan].
  destruct (notified e).
  - unfold bind. rewrite IH. reflexivity.
  - unfold P000a.eventKeyJst.
    destruct (P001.formatJst h (isoJst e)) as [k | err] eqn:Ek; [| reflexivity].
    rewrite !lift_returned.
    destruct (String.eqb k nowKey).
    + apply bind_same; [exact (P000a_tryPostReminder_keyed h net e w k Ek) |].
      intros ok w1. destruct ok; unfold bind; rewrite IH; reflexivity.
    + unfold bind. rewrite IH. reflexivity.
Qed.

(** X8.  The tick of the first draft of part_000, which goes through
    [eventKeyJst] and [tryPostReminder], does on every store, at every time
    and for every behaviour of the messaging client exactly what the tick of
    part_001 does: the same outcome, the same posts, the same writes. *)
Theorem P000a_tick_does_what_P001_tick_does
    (h : host) (net : nat -> bool) (now : Z) (w : world) :
  P000a.tick h net now w = P001.tick h net now w.
Proof.
  unfold P000a.tick, P001.tick.
  apply bind_same; [reflexivity |]. intros l w1.
  apply bind_same; [apply P000a_scan_eq | reflexivity].
Qed.

(** *** No channel configured *)

Lemma channelOf_none (h : host) :
  channelOf h = None -> TARGET_CHANNEL_ID h = None \/ TARGET_CHANNEL_ID h = Some "".
Proof.
  unfold channelOf. destruct (TARGET_CHANNEL_ID h) as [[| c r] |]; auto; discriminate.
Qed.

Lemma P001_postReminder_silent (h : host) (net : nat -> bool) (e : event) (w : world) :
  channelOf h = None -> P001.postReminder h net e w = (Returned false, w).
Proof.
  intros H. unfold P001.postReminder.
  destruct (channelOf_none h H) as [-> | ->]; reflexivity.
Qed.

Lemma P001_formatJst_throws (h : host) (s : string) (err : error) :
  P001.formatJst h s = Threw err -> err = RangeError.
Proof.
  unfold P001.formatJst. destruct (Date_parse s); [discriminate | congruence].
Qed.

Lemma P001_scan_silent (h : host) (net : nat -> bool) (nowKey : string) :
  channelOf h = None ->
  forall (l : list event) (changed : bool) (w : world),
    P001.scan h net nowKey l changed w = (Returned (l, changed), w)
    \/ P001.scan h net nowKey l changed w = (Threw RangeError, w).
Proof.
  intros Hch. induction l as [| e l IH]; intros changed w; [left; reflexivity |].
  cbn [P001.scan].
  assert (Hrest : bind (P001.scan h net nowKey l changed)
                    (fun r => ret (e :: fst r, snd r)) w = (Returned (e :: l, changed), w)
                  \/ bind (P001.scan h net nowKey l changed)
                       (fun r => ret (e :: fst r, snd r)) w = (Threw RangeError, w)).
  { unfold bind. destruct (IH changed w) as [-> | ->]; [left | right]; reflexivity. }
  destruct (notified e); [exact Hrest |].
  destruct (P001.formatJst h (isoJst e)) as [k | err] eqn:Ek.
  - rewrite lift_returned. destruct (String.eqb k nowKey); [| exact Hrest].
    rewrite (bind_returned _ _ _ _ _ (P001_postReminder_silent h net e w Hch)).
    exact Hrest.
  - right. apply P001_formatJst_throws in Ek. subst err. reflexivity.
Qed.

(** X6.  While [TARGET_CHANNEL_ID] is not set (or is empty) a tick
    never posts and never saves, whatever the store holds and whatever the
    time: part_001 and the first draft of part_000 leave the world as
    [loadEvents] leaves it (a missing file is created, nothing else), and
    return or throw the RangeError of a pending record with an invalid
    instant; the second draft of part_000 returns before it reads the
    file. *)
Theorem tick_without_channel_posts_and_saves_nothing
    (h : host) (net : nat -> bool) (now : Z) (w : world) :
  channelOf h = None ->
  (exists o w',
      P001.tick h net now w = (o, w')
      /\ P000a.tick h net now w = (o, w')
      /\ (o = Returned tt \/ o = Threw RangeError)
      /\ (w' = w
          \/ file w = None
             /\ w' = mkWorld (Some (Events [])) (journal w ++ [Created]) (outbox w)))
  /\ P000b.tick h net now w = (Returned tt, w).
Proof.
  intros Hch. split.
  - assert (Esame : P000a.tick h net now w = P001.tick h net now w).
    { unfold P000a.tick, P001.tick. apply bind_same; [reflexivity |]. intros l w1.
      apply bind_same; [apply P000a_scan_eq | reflexivity]. }
    rewrite Esame.
    destruct (P001_loadEvents_stored w) as (w1 & Hl & _ & _ & Hw1).
    unfold P001.tick. rewrite (bind_returned _ _ _ _ _ Hl).
    destruct (P001_scan_silent h net (P001.nowKeyJst h now) Hch (stored w) false w1) as [Hs | Hs].
    + rewrite (bind_returned _ _ _ _ _ Hs). cbn [snd]. exists (Returned tt), w1. auto.
    + rewrite (bind_threw _ _ _ _ _ Hs). exists (Threw RangeError), w1. auto.
  - unfold P000b.tick. destruct (channelOf_none h Hch) as [-> | ->]; reflexivity.
Qed.

Lemma tick_without_channel_posts_and_saves_nothing_witness :
  (exists o w',
      P001.tick silentHost (fun _ => true) halfPastNine oneEvent = (o, w')
      /\ P000a.tick silentHost (fun _ => true) halfPastNine oneEvent = (o, w')
      /\ (o = Returned tt \/ o = Threw RangeError)
      /\ (w' = oneEvent
          \/ file oneEvent = None
             /\ w' = mkWorld (Some (Events [])) (journal oneEvent ++ [Created])
                             (outbox oneEvent)))
  /\ P000b.tick silentHost (fun _ => true) halfPastNine oneEvent = (Returned tt, oneEvent).
Proof.
  exact (tick_without_channel_posts_and_saves_nothing silentHost (fun _ => true)
           halfPastNine oneEvent eq_refl).
Defined.

(** *** A second tick in the same minute *)

Lemma nothing_due (due : event -> bool) (net : nat -> bool) (l : list event) :
  (forall e, In e l -> due e = false) ->
  forall k, flagged due net k l = l /\ anyAccepted due net k l = false /\ filter due l = [].
Proof.
  induction l as [| e l IH]; intros H k; [repeat split |].
  cbn [flagged anyAccepted filter]. rewrite (H e (or_introl eq_refl)).
  destruct (IH (fun x Hx => H x (or_intror Hx)) k) as (-> & -> & ->). repeat split.
Qed.

Lemma afterTick_unchanged (w : world) (l : list event) :
  afterTick w l false [] = w.
Proof. unfold afterTick. rewrite app_nil_r. destruct w; reflexivity. Qed.

Lemma P001_tick_nothing_due (h : host) (net : nat -> bool) (now : Z) (ch : string)
    (l : list event) (w : world) :
  channelOf h = Some ch -> file w = Some (Events l) ->
  forallb (fun e => notified e || P001_keyed h e) l = true ->
  (forall e, In e l -> P001_due h (P001.nowKeyJst h now) e = false) ->
  P001.tick h net now w = (Returned tt, w).
Proof.
  intros Hch Hf Hk Hd. rewrite (P001_tick_spec h net now ch l w Hch Hf Hk).
  destruct (nothing_due _ net l Hd (List.length (outbox w))) as (-> & -> & ->).
  cbn [map]. rewrite afterTick_unchanged. reflexivity.
Qed.

Lemma P000b_tick_nothing_due (h : host) (net : nat -> bool) (now : Z) (ch : string)
    (l : list event) (w : world) :
  channelOf h = Some ch -> file w = Some (Events l) ->
  (forall e, In e l -> P000b_due h (P000b.nowKeyJst h now) e = false) ->
  P000b.tick h net now w = (Returned tt, w).
Proof.
  intros Hch Hf Hd. rewrite (P000b_tick_spec h net now ch l w Hch Hf).
  destruct (nothing_due _ net l Hd (List.length (outbox w))) as (-> & -> & ->).
  cbn [map]. rewrite afterTick_unchanged. reflexivity.
Qed.

Lemma marked_not_due (due : event -> bool) (l : list event) :
  (forall e, due (jsonEvent e) = due e) -> (forall e, due (setNotified e) = false) ->
  forall e, In e (map jsonEvent (markDue due l)) -> due e = false.
Proof.
  intros Hj Hs e He. apply in_map_iff in He. destruct He as (e1 & <- & He1).
  unfold markDue in He1. apply in_map_iff in He1. destruct He1 as (e0 & <- & _).
  rewrite Hj. destruct (due e0) eqn:E; [apply Hs | exact E].
Qed.

Lemma existsb_none {A} (p : A -> bool) (l : list A) :
  existsb p l = false -> forall x, In x l -> p x = false.
Proof.
  intros H x Hx. destruct (p x) eqn:E; [| reflexivity].
  assert (existsb p l = true) by (apply existsb_exists; eauto). congruence.
Qed.

Lemma P001_scan_aborts (h : host) (net : nat -> bool) (nowKey ch : string)
    (bad : event) (l2 : list event) :
  channelOf h = Some ch ->
  notified bad = false -> P001_keyed h bad = false ->
  forall (l1 : list event) (changed : bool) (w : world),
    forallb (fun e => notified e || P001_keyed h e) l1 = true ->
    P001.scan h net nowKey (l1 ++ bad :: l2) changed w
    = (Threw RangeError,
       mkWorld (file w) (journal w)
               (outbox w ++ map (P001_reminder h ch) (filter (P001_due h nowKey) l1))).
Proof.
  intros Hch Hn Hbad. induction l1 as [| e l IH]; intros changed w Hk.
  - cbn [app filter map P001.scan]. rewrite Hn, app_nil_r.
    unfold P001_keyed in Hbad.
    destruct (P001.formatJst h (isoJst bad)) as [k | err] eqn:Ek; [discriminate |].
    apply P001_formatJst_throws in Ek. subst err. destruct w; reflexivity.
  - cbn [forallb] in Hk. apply andb_prop in Hk. destruct Hk as [Hke Hk].
    cbn [app P001.scan filter].
    destruct (notified e) eqn:En.
    + assert (Hd : P001_due h nowKey e = false)
        by (unfold P001_due; rewrite En; reflexivity).
      rewrite Hd, (bind_threw _ _ _ _ _ (IH changed w Hk)). reflexivity.
    + cbn [orb] in Hke.
      assert (Hkey : P001.formatJst h (isoJst e) = Returned (P001_key h e)).
      { unfold P001_keyed in Hke. unfold P001_key.
        destruct (P001.formatJst h (isoJst e)); [reflexivity | discriminate]. }
      assert (Hd : P001_due h nowKey e = String.eqb (P001_key h e) nowKey)
        by (unfold P001_due; rewrite En, Hke; reflexivity).
      rewrite Hd, Hkey, lift_returned.
      destruct (String.eqb (P001_key h e) nowKey) eqn:Edue.
      * rewrite (bind_returned _ _ _ _ _ (P001_postReminder_posts h net ch e w Hch Hke)).
        set (w1 := mkWorld (file w) (journal w) (outbox w ++ [P001_reminder h ch e])).
        destruct (net (List.length (outbox w))).
        -- rewrite (bind_threw _ _ _ _ _ (IH true w1 Hk)).
           unfold w1. cbn [file journal outbox map]. rewrite <- app_assoc. reflexivity.
        -- rewrite (bind_threw _ _ _ _ _ (IH changed w1 Hk)).
           unfold w1. cbn [file journal outbox map]. rewrite <- app_assoc. reflexivity.
      * rewrite (bind_threw _ _ _ _ _ (IH changed w Hk)). reflexivity.
Qed.

Lemma first_failing {A} (f : A -> bool) (l : list A) :
  forallb f l = false ->
  exists l1 x l2, l = (l1 ++ x :: l2)%list /\ forallb f l1 = true /\ f x = false.
Proof.
  induction l as [| a l IH]; [discriminate |].
  cbn [forallb]. destruct (f a) eqn:E.
  - cbn [andb]. intros H. destruct (IH H) as (l1 & x & l2 & -> & H1 & Hx).
    exists (a :: l1), x, l2. cbn [forallb]. rewrite E. auto.
  - intros _. exists [], a, l. auto.
Qed.

(** A tick of part_001 returns only when no pending record makes
    [formatJst] throw. *)
Lemma P001_tick_returned (h : host) (net : nat -> bool) (now : Z) (ch : string)
    (l : list event) (w : world) :
  channelOf h = Some ch -> file w = Some (Events l) ->
  fst (P001.tick h net now w) = Returned tt ->
  forallb (fun e => notified e || P001_keyed h e) l = true.
Proof.
  intros Hch Hf Hret.
  destruct (forallb (fun e => notified e || P001_keyed h e) l) eqn:E; [reflexivity |].
  destruct (first_failing _ l E) as (l1 & bad & l2 & -> & H1 & Hbad).
  apply orb_false_iff in Hbad. destruct Hbad as [Hn Hkeyed].
  unfold P001.tick in Hret.
  rewrite (bind_returned _ _ _ _ _ (P001_loadEvents_events w _ Hf)) in Hret.
  rewrite (bind_threw _ _ _ _ _
             (P001_scan_aborts h net _ ch bad l2 Hch Hn Hkeyed l1 false w H1)) in Hret.
  discriminate.
Qed.

(** X5.  When a tick returned and every post of it was accepted, a
    later tick that reads the same nowKey (the ticks are 30 seconds apart, so
    two fall in most minutes) does nothing at all: it posts no reminder a
    second time and does not write the file.  Proved for part_001, whose tick
    returns when no pending record makes [formatJst] throw, and for the
    second draft of part_000, whose tick returns on every array. *)
Theorem tick_again_in_the_same_minute_does_nothing
    (h : host) (net again : nat -> bool) (now later : Z) (ch : string)
    (l : list event) (w : world) :
  channelOf h = Some ch ->
  file w = Some (Events l) ->
  (forall n, (List.length (outbox w) <= n)%nat -> net n = true) ->
  (fst (P001.tick h net now w) = Returned tt ->
   P001.nowKeyJst h later = P001.nowKeyJst h now ->
   let w1 := snd (P001.tick h net now w) in
   P001.tick h again later w1 = (Returned tt, w1))
  /\ (P000b.nowKeyJst h later = P000b.nowKeyJst h now ->
      let w1 := snd (P000b.tick h net now w) in
      fst (P000b.tick h net now w) = Returned tt
      /\ P000b.tick h again later w1 = (Returned tt, w1)).
Proof.
  intros Hch Hf Hnet. split.
  - intros Hret Hkey w1. subst w1.
    pose proof (P001_tick_returned h net now ch l w Hch Hf Hret) as Hk.
    rewrite (P001_tick_spec h net now ch l w Hch Hf Hk). cbn [snd].
    set (due := P001_due h (P001.nowKeyJst h now)).
    destruct (flagged_all_accepted due net l _ Hnet) as [-> ->].
    unfold afterTick. destruct (existsb due l) eqn:Ex.
    + apply (P001_tick_nothing_due h again later ch (map jsonEvent (markDue due l)));
        [exact Hch | reflexivity | |].
      * rewrite forallb_forall in *. intros e He.
        apply in_map_iff in He. destruct He as (e1 & <- & He1).
        unfold markDue in He1. apply in_map_iff in He1. destruct He1 as (e0 & <- & He0).
        specialize (Hk e0 He0). destruct (due e0); [reflexivity |].
        destruct e0; exact Hk.
      * rewrite Hkey. apply marked_not_due; [intros [? ? ? ?] | intros [? ? ? ?]]; reflexivity.
    + pose proof (existsb_none _ _ Ex) as Hnone.
      destruct (nothing_due due net l Hnone 0%nat) as (_ & _ & ->). cbn [map].
      apply (P001_tick_nothing_due h again later ch l);
        [exact Hch | exact Hf | exact Hk | rewrite Hkey; exact Hnone].
  - intros Hkey w1. subst w1.
    rewrite (P000b_tick_spec h net now ch l w Hch Hf). cbn [fst snd].
    split; [reflexivity |].
    set (due := P000b_due h (P000b.nowKeyJst h now)).
    destruct (flagged_all_accepted due net l _ Hnet) as [-> ->].
    unfold afterTick. destruct (existsb due l) eqn:Ex.
    + apply (P000b_tick_nothing_due h again later ch (map jsonEvent (markDue due l)));
        [exact Hch | reflexivity |].
      rewrite Hkey. apply marked_not_due; [intros [? ? ? ?] | intros [? ? ? ?]]; reflexivity.
    + pose proof (existsb_none _ _ Ex) as Hnone.
      destruct (nothing_due due net l Hnone 0%nat) as (_ & _ & ->). cbn [map].
      apply (P000b_tick_nothing_due h again later ch l);
        [exact Hch | exact Hf | rewrite Hkey; exact Hnone].
Qed.

Lemma tick_again_in_the_same_minute_does_nothing_witness :
  (let w1 := snd (P001.tick tokyoHost (fun _ => true) halfPastNine twoDue) in
   P001.tick tokyoHost (fun _ => false) (halfPastNine + 30000) w1 = (Returned tt, w1))
  /\ (let w1 := snd (P000b.tick tokyoHost (fun _ => true) halfPastNine twoDue) in
      fst (P000b.tick tokyoHost (fun _ => true) halfPastNine twoDue) = Returned tt
      /\ P000b.tick tokyoHost (fun _ => false) (halfPastNine + 30000) w1 = (Returned tt, w1)).
Proof.
  destruct (tick_again_in_the_same_minute_does_nothing tokyoHost (fun _ => true)
              (fun _ => false) halfPastNine (halfPastNine + 30000) "C0123456789"
              [standup; retro] twoDue eq_refl eq_refl (fun _ _ => eq_refl)) as [H1 H2].
  split; [exact (H1 eq_refl eq_refl) | exact (H2 eq_refl)].
Defined.

(** *** A file that holds no array *)

Lemma decimal_from_keeps_digit (fuel : nat) :
  forall (n : Z) (acc : string),
    (exists d r, 0 <= d <= 9 /\ acc = String (digitChar d) r) ->
    exists d r, 0 <= d <= 9 /\ decimal_from fuel n acc = String (digitChar d) r.
Proof.
  induction fuel as [| f IH]; intros n acc Hacc; cbn [decimal_from]; [exact Hacc |].
  assert (Hd : 0 <= n mod 10 <= 9) by (Z.div_mod_to_equations; lia).
  destruct (n / 10 =? 0); [eauto |]. apply IH. eauto.
Qed.

(** A number in decimal starts with a digit. *)
Lemma decimal_starts_with_digit (n : Z) :
  exists d r, 0 <= d <= 9 /\ decimal n = String (digitChar d) r.
Proof.
  unfold decimal. cbn [decimal_from].
  assert (Hd : 0 <= n mod 10 <= 9) by (Z.div_mod_to_equations; lia).
  destruct (n / 10 =? 0); [eauto |]. apply decimal_from_keeps_digit. eauto.
Qed.

(** No key of a time is the key of an invalid date. *)
Lemma minuteKey_valid (offset t : Z) :
  String.eqb P000b.invalidKey (minuteKey offset t) = false.
Proof.
  apply String.eqb_neq. unfold minuteKey. cbv zeta.
  destruct (civil_from_days ((t + offset) / msPerDay)) as [[y m] d].
  unfold yearText.
  destruct (decimal_starts_with_digit (if y <=? 0 then 1 - y else y)) as (c & r & Hc & E).
  rewrite E. cbn [append]. unfold P000b.invalidKey. intros K. injection K as K _.
  assert (c = 0 \/ c = 1 \/ c = 2 \/ c = 3 \/ c = 4 \/ c = 5 \/ c = 6 \/ c = 7 \/ c = 8
          \/ c = 9) as C by lia.
  repeat (destruct C as [-> | C]; [discriminate K |]). subst. discriminate K.
Qed.

Lemma P000b_scanText_skips (net : nat -> bool) (channel nowKey : string) :
  String.eqb P000b.invalidKey nowKey = false ->
  forall (chars : nat) (changed : bool) (w : world),
    P000b.scanText net channel nowKey chars changed w = (Returned changed, w).
Proof.
  intros Hkey. induction chars as [| n IH]; intros changed w; [reflexivity |].
  cbn [P000b.scanText]. rewrite Hkey. apply IH.
Qed.

(** X28.  When events.json holds valid JSON that is no array, the
    tick of the second draft of part_000, which does not test for an array,
    walks a string character by character and finds nothing due (no
    character has an instant), so it returns without posting or writing; on
    an object, a number, a boolean or null the loop throws a TypeError, which
    nothing catches.  The file is left as it is in both cases. *)
Theorem P000b_tick_on_a_file_without_array
    (h : host) (net : nat -> bool) (now : Z) (ch : string) (other : option nat) (w : world) :
  channelOf h = Some ch ->
  file w = Some (NonArray other) ->
  P000b.tick h net now w
  = (match other with
     | Some _ => Returned tt
     | None => Threw TypeError
     end, w).
Proof.
  intros Hch Hf. unfold P000b.tick.
  apply channelOf_some in Hch. destruct Hch as (Hch & c & r & ->). rewrite Hch.
  unfold bind at 1. unfold P000b.loadEvents. rewrite Hf.
  destruct other as [chars |]; [| reflexivity].
  unfold bind. rewrite P000b_scanText_skips; [reflexivity |].
  apply minuteKey_valid.
Qed.

Lemma P000b_tick_on_a_file_without_array_witness :
  P000b.tick tokyoHost (fun _ => true) halfPastNine (mkWorld (Some (NonArray (Some 5%nat))) [] [])
  = (Returned tt, mkWorld (Some (NonArray (Some 5%nat))) [] [])
  /\ P000b.tick tokyoHost (fun _ => true) halfPastNine (mkWorld (Some (NonArray None)) [] [])
     = (Threw TypeError, mkWorld (Some (NonArray None)) [] []).
Proof.
  split.
  - exact (P000b_tick_on_a_file_without_array tokyoHost (fun _ => true) halfPastNine
             "C0123456789" (Some 5%nat) (mkWorld (Some (NonArray (Some 5%nat))) [] [])
             eq_refl eq_refl).
  - exact (P000b_tick_on_a_file_without_array tokyoHost (fun _ => true) halfPastNine
             "C0123456789" None (mkWorld (Some (NonArray None)) [] []) eq_refl eq_refl).
Defined.

(** *** A tick that throws *)

(** X7.  A pending record whose instant is not a valid date (the add
    command of part_001 stores one for a text like 2026-13-01) makes the
    tick of part_001 throw when the loop reaches it.  The reminders of the
    due records before it have been posted by then, but the file is not
    written: the flags raised in that pass are lost, the records after it
    are not looked at, and the next tick in the same minute posts the same
    reminders once more. *)
Theorem P001_tick_stopped_by_invalid_instant_saves_nothing
    (h : host) (net again : nat -> bool) (now : Z) (ch : string)
    (l1 l2 : list event) (bad : event) (w : world) :
  channelOf h = Some ch ->
  file w = Some (Events (l1 ++ bad :: l2)) ->
  forallb (fun e => notified e || P001_keyed h e) l1 = true ->
  notified bad = false -> P001_keyed h bad = false ->
  let posts := map (P001_reminder h ch) (filter (P001_due h (P001.nowKeyJst h now)) l1) in
  let w1 := mkWorld (file w) (journal w) (outbox w ++ posts) in
  P001.tick h net now w = (Threw RangeError, w1)
  /\ P001.tick h again now w1
     = (Threw RangeError, mkWorld (file w) (journal w) ((outbox w ++ posts) ++ posts)).
Proof.
  intros Hch Hf Hk Hn Hbad posts w1.
  assert (Hrun : forall (n : nat -> bool) (v : world),
             file v = Some (Events (l1 ++ bad :: l2)) ->
             P001.tick h n now v
             = (Threw RangeError, mkWorld (file v) (journal v) (outbox v ++ posts))).
  { intros n v Hv. unfold P001.tick.
    rewrite (bind_returned _ _ _ _ _ (P001_loadEvents_events v _ Hv)).
    rewrite (bind_threw _ _ _ _ _
               (P001_scan_aborts h n _ ch bad l2 Hch Hn Hbad l1 false v Hk)).
    reflexivity. }
  split; [apply Hrun; exact Hf |].
  rewrite (Hrun again w1 Hf). reflexivity.
Qed.

Lemma P001_tick_stopped_by_invalid_instant_saves_nothing_witness :
  let bad := mkEvent (VNumber (ofZ 2)) "2026-13-01T10:00:00+09:00" "x" false in
  let w := mkWorld (Some (Events [standup; bad; retro])) [] [] in
  let posts := [("C0123456789", "⏰ リマインド" ++ nl ++ "2026-01-12 09:30  Standup")] in
  P001.tick tokyoHost (fun _ => true) halfPastNine w
  = (Threw RangeError, mkWorld (file w) (journal w) (outbox w ++ posts))
  /\ P001.tick tokyoHost (fun _ => true) halfPastNine
       (mkWorld (file w) (journal w) (outbox w ++ posts))
     = (Threw RangeError, mkWorld (file w) (journal w) ((outbox w ++ posts) ++ posts)).
Proof.
  exact (P001_tick_stopped_by_invalid_instant_saves_nothing tokyoHost (fun _ => true)
           (fun _ => true) halfPastNine "C0123456789" [standup] [retro]
           (mkEvent (VNumber (ofZ 2)) "2026-13-01T10:00:00+09:00" "x" false)
           (mkWorld (Some (Events [standup;
              mkEvent (VNumber (ofZ 2)) "2026-13-01T10:00:00+09:00" "x" false; retro])) [] [])
           eq_refl eq_refl eq_refl eq_refl eq_refl).
Defined.

End TickMore.

(** ** The ids that [nextId] gives *)

Section Ids.

Lemma succ_same (a b : num) :
  num_leb a b = true -> num_leb b a = true -> succ a = succ b.
Proof.
  destruct a as [| | | p], b as [| | | q]; cbn [num_leb]; try discriminate; auto.
  intros H1 H2. apply Qle_bool_iff in H1, H2. unfold succ.
  apply toDouble_Qeq. rewrite (Qle_antisym _ _ H1 H2). reflexivity.
Qed.

Lemma greatestId_le (l : list event) (m1 m2 : num) :
  greatestId l m1 -> greatestId l m2 -> num_leb m1 m2 = true.
Proof.
  intros (Hin & H0 & _) (_ & H0' & Hub).
  destruct Hin as [-> | (e & He & <-)]; [exact H0' |].
  apply Hub; [exact He |].
  unfold numericId. apply negb_true_iff. eapply num_leb_notNaN_r; eauto.
Qed.

(** The two loops compute the same number. *)
Lemma nextId_agree (l : list event) : P000a.nextId l = P001.nextId l.
Proof.
  destruct (P001_nextId_greatest l) as (m1 & G1 & ->).
  destruct (P000a_nextId_greatest l) as (m2 & G2 & ->).
  apply succ_same; eapply greatestId_le; eauto.
Qed.

(** One more than a number between -(2^53 - 1) and 2^53 - 1 is a float
    within 1/2 of the sum, so it is greater than the number and than
    everything below it. *)
Lemma succ_above (n m : num) :
  num_leb n m = true ->
  num_leb (ofZ (- maxSafeInteger)) m = true -> num_leb m (ofZ maxSafeInteger) = true ->
  num_ltb n (succ m) = true /\ exists r, succ m = Fin r.
Proof.
  intros Hn Hlo Hhi.
  destruct m as [| | | p]; cbn [num_leb] in Hlo, Hhi; try discriminate.
  apply Qle_bool_iff in Hlo, Hhi. unfold maxSafeInteger, inject_Z in Hlo, Hhi.
  cbn [Z.opp] in Hlo.
  destruct (toDouble_near (p + 1)) as (r & Hr & Hnear).
  { change (inject_Z (2 ^ 53)) with (9007199254740992 # 1). split; lra. }
  unfold succ. rewrite Hr. split; [| eauto].
  destruct n as [| | | q]; cbn [num_leb] in Hn; try discriminate; [reflexivity |].
  apply Qle_bool_iff in Hn.
  assert (Hlt : (q < r)%Q) by lra.
  unfold num_ltb. cbn [num_leb num_eqb]. apply andb_true_iff. split.
  - apply Qle_bool_iff, Qlt_le_weak, Hlt.
  - apply negb_true_iff. destruct (Qeq_bool q r) eqn:E; [| reflexivity].
    apply Qeq_bool_iff in E. lra.
Qed.

(** The greatest id present is no more than 2^53 - 1 when every numeric id
    is. *)
Lemma greatestId_safe (l : list event) (m : num) :
  (forall x, In x l -> numericId x = true ->
             num_leb (Number (id x)) (ofZ maxSafeInteger) = true) ->
  greatestId l m ->
  num_leb (ofZ (- maxSafeInteger)) m = true /\ num_leb m (ofZ maxSafeInteger) = true.
Proof.
  intros Hsafe (Hin & H0 & _). split.
  - eapply num_leb_trans; [| exact H0]. reflexivity.
  - destruct Hin as [-> | (x & Hx & <-)]; [reflexivity |].
    apply Hsafe; [exact Hx |].
    unfold numericId. apply negb_true_iff. eapply num_leb_notNaN_r; eauto.
Qed.

Lemma nextId_above (l : list event) (e : event) :
  (forall x, In x l -> numericId x = true ->
             num_leb (Number (id x)) (ofZ maxSafeInteger) = true) ->
  In e l -> numericId e = true ->
  num_ltb (Number (id e)) (P001.nextId l) = true /\ exists r, P001.nextId l = Fin r.
Proof.
  intros Hsafe He Hnum.
  destruct (P001_nextId_greatest l) as (m & G & ->).
  destruct (greatestId_safe l m Hsafe G) as [Hlo Hhi].
  apply succ_above; try assumption.
  destruct G as (_ & _ & Hub). apply Hub; assumption.
Qed.

Lemma nextId_finite (l : list event) :
  (forall x, In x l -> numericId x = true ->
             num_leb (Number (id x)) (ofZ maxSafeInteger) = true) ->
  exists r, P001.nextId l = Fin r.
Proof.
  intros Hsafe.
  destruct (P001_nextId_greatest l) as (m & G & ->).
  destruct (greatestId_safe l m Hsafe G) as [Hlo Hhi].
  destruct (succ_above m m (num_leb_refl m (num_leb_notNaN_r _ _ Hlo)) Hlo Hhi) as [_ H].
  exact H.
Qed.

(** X11.  When no id present exceeds 2^53 - 1, the id that [nextId] of
    part_001 and of the first draft of part_000 gives is strictly greater
    than the id of every record present whose id is a number (after
    coercion), so it is the id of none of them: ids that were unique stay
    unique when a record is added. *)
Theorem nextId_is_above_every_id_present (l : list event) (e : event) :
  (forall x, In x l -> numericId x = true ->
             num_leb (Number (id x)) (ofZ maxSafeInteger) = true) ->
  In e l -> numericId e = true ->
  num_ltb (Number (id e)) (P001.nextId l) = true
  /\ num_ltb (Number (id e)) (P000a.nextId l) = true
  /\ num_eqb (Number (id e)) (P001.nextId l) = false
  /\ num_eqb (Number (id e)) (P000a.nextId l) = false.
Proof.
  intros Hsafe He Hnum. rewrite nextId_agree.
  destruct (nextId_above l e Hsafe He Hnum) as [H _].
  unfold num_ltb in *. apply andb_prop in H. destruct H as [H1 H2].
  apply negb_true_iff in H2. rewrite H1, H2. repeat split.
Qed.

Lemma nextId_is_above_every_id_present_witness :
  num_ltb (Number (id retro)) (P001.nextId [standup; retro]) = true
  /\ num_ltb (Number (id retro)) (P000a.nextId [standup; retro]) = true
  /\ num_eqb (Number (id retro)) (P001.nextId [standup; retro]) = false
  /\ num_eqb (Number (id retro)) (P000a.nextId [standup; retro]) = false.
Proof.
  apply (nextId_is_above_every_id_present [standup; retro] retro).
  - intros x [<- | [<- | []]] _; reflexivity.
  - right. left. reflexivity.
  - reflexivity.
Defined.

(** The bound is needed: 2^53 + 1 is no float, and one more than 2^53 is
    2^53 again.  A record with that id gets a second record with the same id
    beside it. *)
Lemma nextId_repeats_the_id_two_to_the_53 :
  let big := mkEvent (VNumber (ofZ (2 ^ 53))) "2026-01-12T09:30:00+09:00" "Standup" false in
  P001.nextId [big] = ofZ (2 ^ 53)
  /\ P000a.nextId [big] = ofZ (2 ^ 53)
  /\ P000b.nextId [big] = ofZ (2 ^ 53).
Proof. repeat split. Qed.

(** *** The second draft of part_000 *)

Lemma fold_max_numbers (l : list event) :
  (forall e, In e l -> exists q, Number (id e) = Fin q) ->
  forall m, isNaN m = false ->
    let r := fold_left (fun m e => Math_max m (Number (id e))) l m in
    num_leb m r = true
    /\ (forall e, In e l -> num_leb (Number (id e)) r = true)
    /\ (r = m \/ exists e, In e l /\ r = Number (id e)).
Proof.
  induction l as [| e l IH]; intros Hl m Hm; cbn [fold_left].
  - split; [apply num_leb_refl; exact Hm |]. split; [intros e [] | auto].
  - destruct (Hl e (or_introl eq_refl)) as (q & Hq).
    assert (He : isNaN (Number (id e)) = false) by (rewrite Hq; reflexivity).
    destruct (Math_max_spec m _ Hm He) as (Hmax & H1 & H2).
    assert (Hm' : isNaN (Math_max m (Number (id e))) = false)
      by (eapply num_leb_notNaN_r; eauto).
    destruct (IH (fun x Hx => Hl x (or_intror Hx)) _ Hm') as (L1 & L2 & L3).
    split; [eapply num_leb_trans; eauto |]. split.
    + intros x [<- | Hx]; [eapply num_leb_trans; eauto | apply L2; exact Hx].
    + destruct L3 as [-> | (x & Hx & ->)].
      * destruct Hmax as [-> | ->]; [auto | right; exists e; cbn; auto].
      * right. exists x. cbn. auto.
Qed.

Lemma between_finite (n : num) :
  num_leb (ofZ (- maxSafeInteger)) n = true -> num_leb n (ofZ maxSafeInteger) = true ->
  exists q, n = Fin q.
Proof. destruct n; cbn [num_leb ofZ]; try discriminate. eauto. Qed.

(** X12.  When the id of every record coerces to a number between
    -(2^53 - 1) and 2^53 - 1, [nextId] of the second draft of part_000 is a
    finite number too, strictly greater than each of them (1 on the empty
    collection). *)
Theorem P000b_nextId_above_numeric_ids (l : list event) :
  (forall e, In e l ->
     num_leb (ofZ (- maxSafeInteger)) (Number (id e)) = true
     /\ num_leb (Number (id e)) (ofZ maxSafeInteger) = true) ->
  (exists q, P000b.nextId l = Fin q)
  /\ (forall e, In e l -> num_ltb (Number (id e)) (P000b.nextId l) = true).
Proof.
  intros Hsafe.
  assert (Hl : forall e, In e l -> exists q, Number (id e) = Fin q).
  { intros e He. destruct (Hsafe e He). apply between_finite; assumption. }
  destruct l as [| e0 l0] eqn:El; [split; [eexists; reflexivity | intros e []] |].
  rewrite <- El in *. assert (In e0 l) as Hin0 by (rewrite El; cbn; auto).
  destruct (fold_max_numbers l Hl NegInf eq_refl) as (_ & Hub & Hr).
  assert (En : P000b.nextId l
               = succ (fold_left (fun m e => Math_max m (Number (id e))) l NegInf))
    by (rewrite El; reflexivity).
  rewrite En. set (r := fold_left _ l NegInf) in *.
  assert (Hsafe_r : num_leb (ofZ (- maxSafeInteger)) r = true
                    /\ num_leb r (ofZ maxSafeInteger) = true).
  { destruct Hr as [Hr | (x & Hx & Hr)].
    - pose proof (Hub e0 Hin0) as H0. destruct (Hl e0 Hin0) as (q0 & Hq0).
      rewrite Hr, Hq0 in H0. discriminate.
    - rewrite Hr. apply Hsafe. exact Hx. }
  destruct Hsafe_r as [Hlo Hhi].
  split.
  - destruct (succ_above r r (num_leb_refl r (num_leb_notNaN_r _ _ Hlo)) Hlo Hhi)
      as [_ Hfin]. exact Hfin.
  - intros e He. apply succ_above; [apply Hub; exact He | exact Hlo | exact Hhi].
Qed.

Lemma P000b_nextId_above_numeric_ids_witness :
  (exists q, P000b.nextId [standup; retro] = Fin q)
  /\ (forall e, In e [standup; retro] ->
                num_ltb (Number (id e)) (P000b.nextId [standup; retro]) = true).
Proof.
  apply (P000b_nextId_above_numeric_ids [standup; retro]).
  intros e [<- | [<- | []]]; split; reflexivity.
Defined.

End Ids.

(** ** What the commands do to the world *)

Section Commands.

Lemma P001_loadEvents_run (w : world) :
  P001.loadEvents w = (Returned (stored w), ensured w).
Proof.
  unfold P001.loadEvents, P001.ensureDataFile, bind, writeFile, stored, ensured, creation.
  destruct w as [[[raw | raw | es] |] j o]; cbn [file journal outbox];
    rewrite ?app_nil_r; reflexivity.
Qed.

Lemma P001_save_run {A} (l : list event) (k : M A) (w : world) :
  bind (P001.saveEvents l) (fun _ => k) (ensured w) = k (savedOver w (map jsonEvent l)).
Proof.
  unfold bind, P001.saveEvents, writeFile, ensured, savedOver. cbn [journal outbox].
  rewrite <- app_assoc. reflexivity.
Qed.

Lemma stored_savedOver (w : world) (l : list event) : stored (savedOver w l) = l.
Proof. reflexivity. Qed.

Lemma creation_savedOver (w : world) (l : list event) : creation (savedOver w l) = [].
Proof. reflexivity. Qed.

(** *** add *)

Lemma P001_add_run (h : host) (text dateStr timeStr word : string) (more : list string)
    (w : world) :
  split_ws (trim text) = "add" :: dateStr :: timeStr :: word :: more ->
  isDateText dateStr = true -> isTimeText timeStr = true ->
  let title := join " " (word :: more) in
  let isoJst := P001.parseJstToIso dateStr timeStr in
  let n := P001.nextId (stored w) in
  P001.command h text w
  = (match P001.formatJst h isoJst with
     | Returned k =>
       Returned ("登録しました ✅ ID=" ++ Number_toString n ++ nl ++ k ++ "  " ++ title)
     | Threw err => Threw err
     end,
     savedOver w (map jsonEvent (stored w)
                  ++ [mkEvent (jsonValue (VNumber n)) isoJst title false])).
Proof.
  intros Htok Hd Ht title isoJst n.
  unfold P001.command.
  rewrite (tokens_nonempty _ _ _ _ Htok), Htok.
  cbn [nth List.length skipn]. rewrite String.eqb_refl.
  replace (S (S (S (S (List.length more)))) <? 4)%nat with false
    by (symmetry; apply Nat.ltb_ge; lia).
  rewrite Hd, Ht. cbn [negb orb].
  rewrite (bind_returned _ _ _ _ _ (P001_loadEvents_run w)).
  rewrite P001_save_run. rewrite map_app. cbn [map].
  fold title isoJst n. unfold bind, lift.
  destruct (P001.formatJst h isoJst); reflexivity.
Qed.

Lemma P000a_add_run (h : host) (text dateStr timeStr word : string) (more : list string)
    (w : world) :
  split_ws (trim text) = "add" :: dateStr :: timeStr :: word :: more ->
  isDateText dateStr = true -> isTimeText timeStr = true ->
  P000a.command h text w = P001.command h text w.
Proof.
  intros Htok Hd Ht.
  rewrite (P001_add_run h text dateStr timeStr word more w Htok Hd Ht).
  unfold P000a.command.
  rewrite (tokens_nonempty _ _ _ _ Htok), Htok.
  cbn [hd tl nth List.length skipn]. rewrite String.eqb_refl.
  replace (S (S (S (List.length more))) <? 3)%nat with false
    by (symmetry; apply Nat.ltb_ge; lia).
  rewrite Hd, Ht. cbn [negb orb].
  rewrite (bind_returned _ _ _ _ _ (P001_loadEvents_run w)).
  rewrite P001_save_run. rewrite map_app. cbn [map].
  rewrite nextId_agree. unfold bind, lift.
  destruct (P001.formatJst h _); reflexivity.
Qed.

(** X9.  An add command whose second and third words have the shapes of
    a date and of a time appends exactly one record to the records of the
    store (none when the file is missing or unreadable), which it keeps in
    their order: the new record is pending, its id is [nextId] of the records
    that were there, its instant is [DATE]T[TIME]:00+09:00 and its title is
    the remaining words joined by single spaces.  The collection is written
    by one save.  The reply confirms with the formatted instant; when the
    instant is not a valid date the save has happened all the same and the
    call throws instead of replying.  Part_001 and the first draft of
    part_000 do the same. *)
Theorem add_appends_one_pending_record
    (h : host) (text dateStr timeStr word : string) (more : list string) (w : world) :
  split_ws (trim text) = "add" :: dateStr :: timeStr :: word :: more ->
  isDateText dateStr = true -> isTimeText timeStr = true ->
  let title := join " " (word :: more) in
  let isoJst := P001.parseJstToIso dateStr timeStr in
  let n := P001.nextId (stored w) in
  let records := (map jsonEvent (stored w)
                  ++ [mkEvent (jsonValue (VNumber n)) isoJst title false])%list in
  let reply :=
    match P001.formatJst h isoJst with
    | Returned k =>
      Returned ("登録しました ✅ ID=" ++ Number_toString n ++ nl ++ k ++ "  " ++ title)
    | Threw err => Threw err
    end in
  let w' := mkWorld (Some (Events records))
                    (journal w ++ creation w ++ [Saved records]) (outbox w) in
  P001.command h text w = (reply, w') /\ P000a.command h text w = (reply, w').
Proof.
  intros Htok Hd Ht title isoJst n records reply w'.
  rewrite (P000a_add_run h text dateStr timeStr word more w Htok Hd Ht).
  rewrite (P001_add_run h text dateStr timeStr word more w Htok Hd Ht).
  split; reflexivity.
Qed.

Lemma add_appends_one_pending_record_witness :
  let records := [standup; mkEvent (VNumber (ofZ 2)) "2026-02-30T10:00:00+09:00"
                             "Sprint review" false] in
  let reply := Returned ("登録しました ✅ ID=2" ++ nl ++ "2026-03-02 10:00  Sprint review") in
  let w' := mkWorld (Some (Events records)) [Saved records] [] in
  P001.command tokyoHost "add 2026-02-30  10:00 Sprint   review " oneEvent = (reply, w')
  /\ P000a.command tokyoHost "add 2026-02-30  10:00 Sprint   review " oneEvent = (reply, w').
Proof.
  exact (add_appends_one_pending_record tokyoHost "add 2026-02-30  10:00 Sprint   review "
           "2026-02-30" "10:00" "Sprint" ["review"] oneEvent eq_refl eq_refl eq_refl).
Defined.

Lemma hd_nth0 (l : list string) : nth 0 l "" = hd "" l.
Proof. destruct l; reflexivity. Qed.

(** X10.  An add command with fewer than three words after [add], or
    whose second word has not the shape of a date or whose third has not the
    shape of a time, is answered with the usage text and touches nothing: the
    file is neither read nor created nor written, and nothing is posted. *)
Theorem add_of_the_wrong_shape_touches_nothing (h : host) (text : string) (w : world) :
  let tokens := split_ws (trim text) in
  hd "" tokens = "add" ->
  (List.length tokens < 4)%nat
  \/ isDateText (nth 1 tokens "") = false \/ isTimeText (nth 2 tokens "") = false ->
  let reply :=
    if (List.length tokens <? 4)%nat
    then "❌ 形式が違います。" ++ nl ++ P001.helpText
    else "❌ 日付/時刻の形式が違います（YYYY-MM-DD / HH:mm）。" ++ nl ++ P001.helpText in
  P001.command h text w = (Returned reply, w)
  /\ P000a.command h text w = (Returned reply, w).
Proof.
  intros tokens Hsub Hbad reply. subst reply.
  assert (Hne : String.eqb (trim text) "" = false).
  { destruct (String.eqb (trim text) "") eqn:E; [| reflexivity].
    apply String.eqb_eq in E. unfold tokens in Hsub. rewrite E in Hsub. discriminate. }
  unfold P001.command, P000a.command. rewrite Hne. fold tokens.
  rewrite hd_nth0, Hsub. rewrite String.eqb_refl.
  destruct tokens as [| sub rest] eqn:Etok; [discriminate |].
  cbn [tl List.length nth].
  replace (S (List.length rest) <? 4)%nat with (List.length rest <? 3)%nat
    by (destruct (Nat.ltb_spec (List.length rest) 3), (Nat.ltb_spec (S (List.length rest)) 4);
        reflexivity || lia).
  destruct (List.length rest <? 3)%nat eqn:El; [split; reflexivity |].
  apply Nat.ltb_ge in El. cbn [List.length] in Hbad.
  destruct Hbad as [Hbad | Hbad]; [lia |].
  assert (Hor : negb (isDateText (nth 0 rest "")) || negb (isTimeText (nth 1 rest "")) = true).
  { cbn [nth] in Hbad. destruct Hbad as [-> | ->]; [reflexivity | apply orb_true_r]. }
  rewrite Hor. split; reflexivity.
Qed.

Lemma add_of_the_wrong_shape_touches_nothing_witness :
  P001.command tokyoHost "add 2026-1-12 9:30 Standup" (mkWorld None [] [])
  = (Returned ("❌ 日付/時刻の形式が違います（YYYY-MM-DD / HH:mm）。" ++ nl ++ P001.helpText),
     mkWorld None [] [])
  /\ P000a.command tokyoHost "add 2026-1-12 9:30 Standup" (mkWorld None [] [])
     = (Returned ("❌ 日付/時刻の形式が違います（YYYY-MM-DD / HH:mm）。" ++ nl ++ P001.helpText),
        mkWorld None [] []).
Proof.
  exact (add_of_the_wrong_shape_touches_nothing tokyoHost "add 2026-1-12 9:30 Standup"
           (mkWorld None [] []) eq_refl (or_intror (or_introl eq_refl))).
Defined.

(** *** remove *)

Lemma P001_remove_run (h : host) (text verb idStr : string) (more : list string)
    (w : world) :
  split_ws (trim text) = verb :: idStr :: more ->
  verb = "remove" \/ verb = "delete" ->
  isNaN (Number_of_string idStr) = false ->
  let n := Number_of_string idStr in
  P001.command h text w
  = (Returned (if (List.length (withoutId n (stored w)) =? List.length (stored w))%nat
               then "⚠️ ID=" ++ Number_toString n ++ " は見つかりませんでした。"
               else "削除しました ✅ ID=" ++ Number_toString n),
     savedOver w (map jsonEvent (withoutId n (stored w)))).
Proof.
  intros Htok Hsub Hn n.
  unfold P001.command.
  rewrite (tokens_nonempty _ _ _ _ Htok), Htok.
  cbn [nth List.length].
  assert (Hadd : String.eqb verb "add" = false) by (destruct Hsub; subst; reflexivity).
  assert (Hlist : String.eqb verb "list" = false) by (destruct Hsub; subst; reflexivity).
  assert (Hrm : String.eqb verb "remove" || String.eqb verb "delete" = true)
    by (destruct Hsub; subst; reflexivity).
  rewrite Hadd, Hlist, Hrm.
  replace (S (S (List.length more)) <? 2)%nat with false
    by (symmetry; apply Nat.ltb_ge; lia).
  rewrite Hn.
  rewrite (bind_returned _ _ _ _ _ (P001_loadEvents_run w)).
  rewrite P001_save_run.
  fold n. fold (withoutId n (stored w)).
  destruct (_ =? _)%nat; reflexivity.
Qed.

Lemma map_fixed {A} (f : A -> A) (l : list A) :
  map f l = l -> forall x, In x l -> f x = x.
Proof.
  induction l as [| a l IH]; intros H x Hx; [destruct Hx |].
  cbn [map] in H. injection H as Ha Hl.
  destruct Hx as [<- | Hx]; [exact Ha | apply IH; assumption].
Qed.

Lemma map_fixed_all {A} (f : A -> A) (l : list A) :
  (forall x, In x l -> f x = x) -> map f l = l.
Proof.
  induction l as [| a l IH]; intros H; [reflexivity |].
  cbn [map]. rewrite (H a (or_introl eq_refl)), IH; [reflexivity |].
  intros x Hx. apply H. right. exact Hx.
Qed.

Lemma withoutId_json (n : num) (l : list event) :
  map jsonEvent l = l -> map jsonEvent (withoutId n l) = withoutId n l.
Proof.
  intros H. apply map_fixed_all. intros x Hx.
  apply (map_fixed _ _ H). unfold withoutId in Hx. apply filter_In in Hx. tauto.
Qed.

Lemma withoutId_again (n : num) (l : list event) :
  withoutId n (withoutId n l) = withoutId n l.
Proof.
  apply filter_all. intros e He. unfold withoutId in He. apply filter_In in He. tauto.
Qed.

(** X13.  After [remove ID] no record of the store has that id
    (coerced to a number), so giving the same command once more answers that
    the id was not found and leaves the records as they are; the file is
    written again all the same.  The store is one that a JSON file can hold
    (reading it back changes no id). *)
Theorem remove_again_finds_nothing (h : host) (text verb idStr : string)
    (more : list string) (l : list event) (w : world) :
  split_ws (trim text) = verb :: idStr :: more ->
  verb = "remove" \/ verb = "delete" ->
  isNaN (Number_of_string idStr) = false ->
  file w = Some (Events l) ->
  map jsonEvent l = l ->
  let n := Number_of_string idStr in
  let w1 := snd (P001.command h text w) in
  stored w1 = withoutId n l
  /\ (forall e, In e (stored w1) -> num_eqb (Number (id e)) n = false)
  /\ P001.command h text w1
     = (Returned ("⚠️ ID=" ++ Number_toString n ++ " は見つかりませんでした。"),
        mkWorld (file w1) (journal w1 ++ [Saved (stored w1)]) (outbox w1)).
Proof.
  intros Htok Hsub Hn Hf Hclean n w1. subst w1.
  rewrite (P001_remove_run h text verb idStr more w Htok Hsub Hn). cbn [snd]. fold n.
  assert (Hst : stored w = l) by (unfold stored; rewrite Hf; reflexivity).
  rewrite Hst, (withoutId_json n l Hclean).
  split; [reflexivity |]. split.
  - rewrite stored_savedOver. intros e He.
    unfold withoutId in He. apply filter_In in He. destruct He as [_ He].
    apply negb_true_iff in He. exact He.
  - rewrite (P001_remove_run h text verb idStr more _ Htok Hsub Hn). fold n.
    rewrite !stored_savedOver, withoutId_again, Nat.eqb_refl.
    rewrite (withoutId_json n l Hclean).
    unfold savedOver at 1. rewrite creation_savedOver. reflexivity.
Qed.

Lemma remove_again_finds_nothing_witness :
  let w1 := snd (P001.command tokyoHost "remove 1" twoDue) in
  stored w1 = withoutId (Number_of_string "1") [standup; retro]
  /\ (forall e, In e (stored w1) -> num_eqb (Number (id e)) (Number_of_string "1") = false)
  /\ P001.command tokyoHost "remove 1" w1
     = (Returned ("⚠️ ID=" ++ Number_toString (Number_of_string "1")
                  ++ " は見つかりませんでした。"),
        mkWorld (file w1) (journal w1 ++ [Saved (stored w1)]) (outbox w1)).
Proof.
  exact (remove_again_finds_nothing tokyoHost "remove 1" "remove" "1" [] [standup; retro]
           twoDue eq_refl (or_introl eq_refl) eq_refl eq_refl eq_refl).
Defined.

(** X15.  When the file is unparsable or holds something that is not
    an array, part_001 reads it as the empty collection, and the first
    command that saves writes over it: [remove] with any numeric id answers
    that the id was not found and leaves the empty array in the file; a
    well-formed [add] leaves the array of the one new record, with id 1.
    What the file held is gone. *)
Theorem P001_first_save_replaces_unreadable_file
    (h : host) (raw : string) (other : option nat) (w : world) :
  file w = Some (Unparsable raw) \/ file w = Some (NonArray other) ->
  (forall text verb idStr more,
      split_ws (trim text) = verb :: idStr :: more ->
      verb = "remove" \/ verb = "delete" ->
      isNaN (Number_of_string idStr) = false ->
      P001.command h text w
      = (Returned ("⚠️ ID=" ++ Number_toString (Number_of_string idStr)
                   ++ " は見つかりませんでした。"),
         mkWorld (Some (Events [])) (journal w ++ [Saved []]) (outbox w)))
  /\ (forall text dateStr timeStr word more,
         split_ws (trim text) = "add" :: dateStr :: timeStr :: word :: more ->
         isDateText dateStr = true -> isTimeText timeStr = true ->
         let only := [mkEvent (VNumber (ofZ 1)) (P001.parseJstToIso dateStr timeStr)
                              (join " " (word :: more)) false] in
         snd (P001.command h text w)
         = mkWorld (Some (Events only)) (journal w ++ [Saved only]) (outbox w)).
Proof.
  intros Hf.
  assert (Hst : stored w = []) by (unfold stored; destruct Hf as [-> | ->]; reflexivity).
  assert (Hcr : creation w = []) by (unfold creation; destruct Hf as [-> | ->]; reflexivity).
  split.
  - intros text verb idStr more Htok Hsub Hn.
    rewrite (P001_remove_run h text verb idStr more w Htok Hsub Hn).
    rewrite Hst. unfold savedOver. rewrite Hcr. reflexivity.
  - intros text dateStr timeStr word more Htok Hd Ht only.
    rewrite (P001_add_run h text dateStr timeStr word more w Htok Hd Ht).
    rewrite Hst. unfold savedOver. rewrite Hcr. reflexivity.
Qed.

Lemma P001_first_save_replaces_unreadable_file_witness :
  P001.command tokyoHost "remove 7" (mkWorld (Some (Unparsable "[{oops")) [] [])
  = (Returned ("⚠️ ID=" ++ Number_toString (Number_of_string "7")
               ++ " は見つかりませんでした。"),
     mkWorld (Some (Events [])) [Saved []] []).
Proof.
  exact (proj1 (P001_first_save_replaces_unreadable_file tokyoHost "[{oops" None
                  (mkWorld (Some (Unparsable "[{oops")) [] []) (or_introl eq_refl))
           "remove 7" "remove" "7" [] eq_refl (or_introl eq_refl) eq_refl).
Defined.

(** X14.  Adding an event and then removing the id that the add
    command assigned gives back the records that were there before, in their
    order.  The store is one that a JSON file can hold, and no id in it
    exceeds 2^53 - 1. *)
Theorem add_then_remove_restores_the_records
    (h : host) (addText dateStr timeStr word : string) (more : list string)
    (removeText verb idStr : string) (rest : list string)
    (l : list event) (w : world) :
  file w = Some (Events l) ->
  map jsonEvent l = l ->
  (forall x, In x l -> numericId x = true ->
             num_leb (Number (id x)) (ofZ maxSafeInteger) = true) ->
  split_ws (trim addText) = "add" :: dateStr :: timeStr :: word :: more ->
  isDateText dateStr = true -> isTimeText timeStr = true ->
  split_ws (trim removeText) = verb :: idStr :: rest ->
  verb = "remove" \/ verb = "delete" ->
  Number_of_string idStr = P001.nextId l ->
  let w1 := snd (P001.command h addText w) in
  P001.command h removeText w1
  = (Returned ("削除しました ✅ ID=" ++ Number_toString (P001.nextId l)),
     mkWorld (Some (Events l)) (journal w1 ++ [Saved l]) (outbox w)).
Proof.
  intros Hf Hclean Hsafe Hatok Hd Ht Hrtok Hsub Hid w1. subst w1.
  destruct (nextId_finite l Hsafe) as (q & Hq).
  assert (Hst : stored w = l) by (unfold stored; rewrite Hf; reflexivity).
  assert (Hn : isNaN (Number_of_string idStr) = false) by (rewrite Hid, Hq; reflexivity).
  rewrite (P001_add_run h addText dateStr timeStr word more w Hatok Hd Ht). cbn [snd].
  rewrite (P001_remove_run h removeText verb idStr rest _ Hrtok Hsub Hn).
  rewrite Hst, Hclean, Hid.
  assert (Hkeep : withoutId (P001.nextId l)
                    (l ++ [mkEvent (jsonValue (VNumber (P001.nextId l)))
                             (P001.parseJstToIso dateStr timeStr)
                             (join " " (word :: more)) false]) = l).
  { unfold withoutId. rewrite filter_app. cbn [filter].
    replace (negb (num_eqb (Number (id _)) (P001.nextId l))) with false.
    - rewrite app_nil_r. apply filter_all. intros e He. apply negb_true_iff.
      destruct (numericId e) eqn:En.
      + destruct (nextId_above l e Hsafe He En) as [H _].
        unfold num_ltb in H. apply andb_prop in H. destruct H as [_ H].
        apply negb_true_iff in H. exact H.
      + unfold numericId in En. apply negb_false_iff in En.
        destruct (Number (id e)); try discriminate. reflexivity.
    - symmetry. apply negb_false_iff. rewrite Hq. cbn [id jsonValue Number num_eqb].
      apply Qeq_bool_iff. reflexivity. }
  rewrite !stored_savedOver, Hkeep.
  rewrite length_app. cbn [List.length].
  replace (List.length l =? List.length l + 1)%nat with false
    by (symmetry; apply Nat.eqb_neq; lia).
  rewrite Hclean. unfold savedOver at 1. rewrite creation_savedOver. reflexivity.
Qed.

Lemma add_then_remove_restores_the_records_witness :
  let w1 := snd (P001.command tokyoHost "add 2026-01-13 10:00 Retro" oneEvent) in
  P001.command tokyoHost "remove 2" w1
  = (Returned ("削除しました ✅ ID=" ++ Number_toString (P001.nextId [standup])),
     mkWorld (Some (Events [standup])) (journal w1 ++ [Saved [standup]]) (outbox oneEvent)).
Proof.
  apply (add_then_remove_restores_the_records tokyoHost "add 2026-01-13 10:00 Retro"
           "2026-01-13" "10:00" "Retro" [] "remove 2" "remove" "2" [] [standup] oneEvent);
    try reflexivity.
  - intros x [<- | []] _. reflexivity.
  - left. reflexivity.
Defined.

(** The bound is needed: with a record of id 2^53 in the store the add
    command assigns 2^53 once more, and removing that id takes both records
    away. *)
Lemma add_then_remove_takes_the_record_of_the_same_id :
  let big := mkEvent (VNumber (ofZ (2 ^ 53))) "2026-01-12T09:30:00+09:00" "Standup" false in
  let w := mkWorld (Some (Events [big])) [] [] in
  let w1 := snd (P001.command tokyoHost "add 2026-01-13 10:00 Retro" w) in
  stored w1 = [big; mkEvent (VNumber (ofZ (2 ^ 53))) "2026-01-13T10:00:00+09:00" "Retro" false]
  /\ P001.command tokyoHost "remove 9007199254740992" w1
     = (Returned "削除しました ✅ ID=9007199254740992",
        mkWorld (Some (Events [])) (journal w1 ++ [Saved []]) []).
Proof. split; reflexivity. Qed.

End Commands.

(** ** The add command of the second draft of part_000 *)

Section SecondDraft.

(** A field of two digits read by [Number] and written back by
    [String(..).padStart(2, "0")] is the same two digits. *)
Lemma two_digit_field (a b : ascii) :
  isDigit a = true -> isDigit b = true ->
  let n := Number_of_string (String a (String b "")) in
  isInteger n = true /\ num_ltb n (ofZ 0) = false
  /\ padStart2 (Number_toString n) = String a (String b "").
Proof.
  intros Ha Hb. digit_cases Ha; digit_cases Hb; repeat split.
Qed.

Lemma parseAddArgs_valid (text isoJst title : string) :
  P000b.parseAddArgs text = Some (isoJst, title) -> exists t, Date_parse isoJst = Some t.
Proof.
  unfold P000b.parseAddArgs.
  repeat match goal with
         | |- (if ?c then _ else _) = _ -> _ => destruct c; [discriminate |]
         end.
  match goal with
  | |- match Date_parse ?s with _ => _ end = _ -> _ =>
    destruct (Date_parse s) as [t |] eqn:Ep; [| discriminate]
  end.
  intros E. injection E as <- _. exists t. exact Ep.
Qed.

(** X18.  Whatever [parseAddArgs] accepts is a date text, a time of
    day with hour 00-23 and minute 00-59, and a title that is not empty; the
    instant it returns is [DATE]T[TIME]:00+09:00 with the two texts as they
    were typed (reading the hour and the minute as numbers and padding them
    back changes nothing), and that instant makes a valid [Date]. *)
Theorem parseAddArgs_accepts_only_a_valid_instant (text isoJst title : string) :
  P000b.parseAddArgs text = Some (isoJst, title) ->
  exists dateStr timeStr rest,
    split_ws (trim text) = dateStr :: timeStr :: rest
    /\ isDateText dateStr = true /\ isClockTime timeStr = true
    /\ isoJst = P001.parseJstToIso dateStr timeStr
    /\ title = trim (join " " rest) /\ title <> ""
    /\ exists t, Date_parse isoJst = Some t.
Proof.
  unfold P000b.parseAddArgs.
  destruct (split_ws (trim text)) as [| dateStr [| timeStr rest]];
    cbn [List.length nth skipn]; try discriminate.
  destruct (_ <? 3)%nat; [discriminate |].
  destruct (String.eqb (trim (join " " rest)) "") eqn:Etitle; [discriminate |].
  destruct (isDateText dateStr) eqn:Ed; [| discriminate].
  destruct (isTimeText timeStr) eqn:Et; [| discriminate].
  cbn [negb].
  destruct (isTimeText_shape _ Et) as (a & b & c & d & -> & Ha & Hb & Hc & Hd).
  cbn [substring].
  destruct (two_digit_field a b Ha Hb) as (Hi1 & Hn1 & Hp1).
  destruct (two_digit_field c d Hc Hd) as (Hi2 & Hn2 & Hp2).
  rewrite Hi1, Hn1, Hi2, Hn2, Hp1, Hp2. cbn [negb orb].
  rewrite (Number_two_digits a b Ha Hb), (Number_two_digits c d Hc Hd), !ofZ_ltb.
  destruct (23 <? 10 * digitVal a + digitVal b) eqn:Eh; [discriminate |].
  destruct (59 <? 10 * digitVal c + digitVal d) eqn:Em; [discriminate |].
  apply Z.ltb_ge in Eh, Em.
  match goal with
  | |- match Date_parse ?s with _ => _ end = _ -> _ =>
    destruct (Date_parse s) as [t |] eqn:Ep; [| discriminate]
  end.
  intros E. injection E as <- <-.
  exists dateStr, (String a (String b (String ":" (String c (String d ""))))), rest.
  split; [reflexivity |]. split; [exact Ed |]. split.
  { unfold isClockTime. rewrite Et, (clockFields_digits a b c d Ha Hb Hc Hd).
    apply andb_true_iff. split; [reflexivity |].
    apply andb_true_iff. split; apply Z.leb_le; assumption. }
  split.
  { unfold P001.parseJstToIso. f_equal. }
  split; [reflexivity |]. split.
  { intros H. rewrite H in Etitle. discriminate. }
  exists t. exact Ep.
Qed.

Lemma parseAddArgs_accepts_only_a_valid_instant_witness :
  exists dateStr timeStr rest,
    split_ws (trim " 2026-01-12   09:30  Sprint  review ") = dateStr :: timeStr :: rest
    /\ isDateText dateStr = true /\ isClockTime timeStr = true
    /\ "2026-01-12T09:30:00+09:00" = P001.parseJstToIso dateStr timeStr
    /\ "Sprint review" = trim (join " " rest) /\ "Sprint review" <> ""
    /\ exists t, Date_parse "2026-01-12T09:30:00+09:00" = Some t.
Proof.
  exact (parseAddArgs_accepts_only_a_valid_instant " 2026-01-12   09:30  Sprint  review "
           "2026-01-12T09:30:00+09:00" "Sprint review" eq_refl).
Defined.

(** *** The store is kept in the order of time *)

Lemma P000b_loadEvents_seq (w : world) :
  (forall raw, file w <> Some (NonArray raw)) ->
  P000b.loadEvents w = (Returned (P000b.Seq (stored w)), w).
Proof.
  intros H. unfold P000b.loadEvents, stored.
  destruct (file w) as [[raw | other | l] |]; try reflexivity.
  exfalso. apply (H other). reflexivity.
Qed.

Lemma sorted_map {A B} (R : A -> A -> Prop) (R' : B -> B -> Prop) (f : A -> B) (l : list A) :
  (forall a b, R a b -> R' (f a) (f b)) ->
  StronglySorted R l -> StronglySorted R' (map f l).
Proof.
  intros Hf H. induction H as [| a l Hl IH Ha]; cbn [map]; constructor; [exact IH |].
  apply Forall_forall. intros y Hy. apply in_map_iff in Hy. destruct Hy as (x & <- & Hx).
  apply Hf. rewrite Forall_forall in Ha. apply Ha. exact Hx.
Qed.

(** X19.  The add command of the second draft of part_000 sorts the
    collection by instant before it saves it: when the instant of every
    record present makes a valid date, the file it leaves holds exactly the
    records that were there and the new one, in the order of time, written
    by one save; the new record is pending and carries [nextId] of the
    records that were there.  A missing or unparsable file counts as the
    empty collection and is not created before the save. *)
Theorem P000b_add_keeps_the_store_in_time_order
    (h : host) (text instant title : string) (w : world) :
  hd "" (split_ws (trim text)) = "add" ->
  P000b.parseAddArgs (trim (join " " (tl (split_ws (trim text))))) = Some (instant, title) ->
  (forall raw, file w <> Some (NonArray raw)) ->
  Forall (fun e => Date_parse (isoJst e) <> None) (stored w) ->
  let n := P000b.nextId (stored w) in
  let new := mkEvent (VNumber n) instant title false in
  exists records,
    P000b.command h text w
    = (Returned ("登録しました ✅  ID=" ++ Number_toString n ++ nl
                 ++ P000b.formatJst h instant ++ "  " ++ title),
       mkWorld (Some (Events records)) (journal w ++ [Saved records]) (outbox w))
    /\ Permutation (map jsonEvent (stored w ++ [new])) records
    /\ StronglySorted notLater records.
Proof.
  intros Hsub Hparse Hfile Hvalid n new.
  exists (map jsonEvent (P001.sort P000b.precedes (stored w ++ [new]))).
  split; [| split].
  - assert (Hne : String.eqb (trim text) "" = false).
    { destruct (String.eqb (trim text) "") eqn:E; [| reflexivity].
      apply String.eqb_eq in E. rewrite E in Hsub. discriminate. }
    unfold P000b.command. rewrite Hne, Hsub, String.eqb_refl, Hparse.
    rewrite (bind_returned _ _ _ _ _ (P000b_loadEvents_seq w Hfile)).
    cbn [P000b.asArray]. rewrite bind_ret.
    unfold bind, P000b.saveEvents, writeFile, ret. reflexivity.
  - apply Permutation_map. apply sort_perm.
  - apply sorted_map with (R := notLater); [intros a b H; exact H |].
    apply sort_sorted with (P := fun e => Date_parse (isoJst e) <> None).
    + intros a b Ha Hb. apply (P000b_precedes_valid a b Ha Hb).
    + intros a b Ha Hb. apply (P000b_precedes_valid a b Ha Hb).
    + intros a b c. apply notLater_trans.
    + apply Forall_app. split; [exact Hvalid |].
      constructor; [| constructor]. unfold new. cbn [isoJst].
      destruct (parseAddArgs_valid _ _ _ Hparse) as (t & Ht). congruence.
Qed.

Lemma P000b_add_keeps_the_store_in_time_order_witness :
  let n := P000b.nextId (stored outOfOrder) in
  let new := mkEvent (VNumber n) "2026-02-01T08:00:00+09:00" "Kickoff" false in
  exists records,
    P000b.command tokyoHost "add 2026-02-01 08:00 Kickoff" outOfOrder
    = (Returned ("登録しました ✅  ID=" ++ Number_toString n ++ nl
                 ++ P000b.formatJst tokyoHost "2026-02-01T08:00:00+09:00" ++ "  " ++ "Kickoff"),
       mkWorld (Some (Events records)) (journal outOfOrder ++ [Saved records])
               (outbox outOfOrder))
    /\ Permutation (map jsonEvent (stored outOfOrder ++ [new])) records
    /\ StronglySorted notLater records.
Proof.
  apply (P000b_add_keeps_the_store_in_time_order tokyoHost "add 2026-02-01 08:00 Kickoff"
           "2026-02-01T08:00:00+09:00" "Kickoff" outOfOrder eq_refl eq_refl).
  - intros raw. discriminate.
  - repeat constructor; discriminate.
Defined.

End SecondDraft.

(** ** What no command does *)

Section Effects.

Lemma effect_ret {A} (a : A) : effectWithin 0 (ret a).
Proof.
  intros w. split; [reflexivity |]. exists []. rewrite app_nil_r. split; [reflexivity | cbn; lia].
Qed.

Lemma effect_throw {A} (e : error) : effectWithin 0 (@throw A e).
Proof.
  intros w. split; [reflexivity |]. exists []. rewrite app_nil_r. split; [reflexivity | cbn; lia].
Qed.

Lemma effect_lift {A} (o : outcome A) : effectWithin 0 (lift o).
Proof.
  intros w. split; [reflexivity |]. exists []. rewrite app_nil_r. split; [reflexivity | cbn; lia].
Qed.

Lemma effect_bind {A B} (a b n : nat) (m : M A) (k : A -> M B) :
  effectWithin a m -> (forall x, effectWithin b (k x)) -> (a + b <= n)%nat ->
  effectWithin n (bind m k).
Proof.
  intros Hm Hk Hn w. unfold bind.
  destruct (Hm w) as (Ho & ws & Hj & Hl).
  destruct (m w) as [[x | err] w1]; cbn [snd] in *.
  - destruct (Hk x w1) as (Ho' & ws' & Hj' & Hl').
    split; [congruence |]. exists (ws ++ ws')%list.
    rewrite Hj', Hj, <- app_assoc. split; [reflexivity |].
    rewrite filter_app, length_app. lia.
  - split; [exact Ho |]. exists ws. split; [exact Hj | lia].
Qed.

Lemma effect_more {A} (a n : nat) (m : M A) :
  effectWithin a m -> (a <= n)%nat -> effectWithin n m.
Proof.
  intros Hm Hn w. destruct (Hm w) as (Ho & ws & Hj & Hl).
  split; [exact Ho |]. exists ws. split; [exact Hj | lia].
Qed.

Lemma effect_P001_loadEvents : effectWithin 0 P001.loadEvents.
Proof.
  intros w. rewrite P001_loadEvents_run. cbn [snd]. split; [reflexivity |].
  exists (creation w). split; [reflexivity |].
  unfold creation. destruct (file w); cbn; lia.
Qed.

Lemma effect_saveEvents (l : list event) :
  effectWithin 1 (P001.saveEvents l) /\ effectWithin 1 (P000b.saveEvents l).
Proof.
  split; intros w; (split; [reflexivity |]); eexists; (split; [reflexivity | cbn; lia]).
Qed.

Lemma effect_P000b_loadEvents : effectWithin 0 P000b.loadEvents.
Proof.
  intros w. unfold P000b.loadEvents.
  destruct (file w) as [[raw | [n |] | l] |]; cbn [snd];
    (split; [reflexivity |]); exists []; rewrite app_nil_r; (split; [reflexivity | cbn; lia]).
Qed.

Lemma effect_asArray (v : P000b.loaded) : effectWithin 0 (P000b.asArray v).
Proof. destruct v; [apply effect_ret | apply effect_throw | apply effect_throw]. Qed.

Ltac effect_step :=
  match goal with
  | |- effectWithin _ (if ?c then _ else _) => destruct c
  | |- effectWithin _ (match ?x with _ => _ end) => destruct x
  | |- effectWithin _ (ret _) => apply (effect_more 0); [apply effect_ret | lia]
  | |- effectWithin _ (bind P001.loadEvents _) =>
    apply (effect_bind 0 1); [apply effect_P001_loadEvents | intros ? | lia]
  | |- effectWithin _ (bind P000b.loadEvents _) =>
    apply (effect_bind 0 1); [apply effect_P000b_loadEvents | intros ? | lia]
  | |- effectWithin _ (bind (P000b.asArray _) _) =>
    apply (effect_bind 0 1); [apply effect_asArray | intros ? | lia]
  | |- effectWithin _ (bind (P001.saveEvents _) _) =>
    apply (effect_bind 1 0); [apply effect_saveEvents | intros ? | lia]
  | |- effectWithin _ (bind (P000b.saveEvents _) _) =>
    apply (effect_bind 1 0); [apply effect_saveEvents | intros ? | lia]
  | |- effectWithin ?n (bind (lift _) _) =>
    apply (effect_bind 0 n); [apply effect_lift | intros ? | lia]
  end.

(** X16.  Whatever its text and whatever the store holds, a command
    never posts a message, and it writes the events file by at most one
    [saveEvents] (besides the creation of a missing file in the first two
    drafts), also when it throws.  This holds for the command handler of each
    of the three drafts. *)
Theorem commands_never_post_and_save_at_most_once (h : host) (text : string) :
  effectWithin 1 (P001.command h text)
  /\ effectWithin 1 (P000a.command h text)
  /\ effectWithin 1 (P000b.command h text).
Proof.
  split; [| split].
  - unfold P001.command. cbv zeta. repeat effect_step.
  - unfold P000a.command. cbv zeta. repeat effect_step.
  - unfold P000b.command. cbv zeta. repeat effect_step.
Qed.

End Effects.

(** ** From the add command to the reminder *)

Section EndToEnd.

(** The digits of a date of the calendar and of a time of day, with the
    ranges of the fields and the instant they make. *)
Lemma calendar_fields (dateStr timeStr : string) :
  isCalendarDate dateStr = true -> isClockTime timeStr = true ->
  exists y mo d hh mm,
    1000 <= y <= 9999 /\ 1 <= mo <= 12 /\ 1 <= d <= daysInMonth y mo
    /\ 0 <= hh <= 23 /\ 0 <= mm <= 59
    /\ dateStr ++ " " ++ timeStr
       = yearText y ++ "-" ++ twoDigits mo ++ "-" ++ twoDigits d ++ " "
           ++ twoDigits hh ++ ":" ++ twoDigits mm
    /\ Date_parse (P001.parseJstToIso dateStr timeStr)
       = Some (days_from_civil y mo d * msPerDay
               + hh * msPerHour + mm * msPerMinute - 9 * msPerHour).
Proof.
  intros Hdate Htime.
  destruct (Date_parse_calendar dateStr timeStr Hdate Htime)
    as (y & mo & d & hh & mm & Edf & Ecf & Hmo & Hd & Hh & Hm & Hp).
  exists y, mo, d, hh, mm.
  unfold isCalendarDate in Hdate. apply andb_prop in Hdate. destruct Hdate as [Hds Hdr].
  unfold isClockTime in Htime. apply andb_prop in Htime. destruct Htime as [Hts _].
  rewrite Edf in Hdr. rewrite !andb_true_iff, !Z.leb_le in Hdr.
  destruct Hdr as ((((Hy & _) & _) & _) & _).
  destruct (isDateText_shape _ Hds)
    as (y1 & y2 & y3 & y4 & m1 & m2 & d1 & d2 & -> & H1 & H2 & H3 & H4 & H5 & H6 & H7 & H8).
  destruct (isTimeText_shape _ Hts) as (a & b & c & e & -> & Ha & Hb & Hc & He).
  rewrite (dateFields_digits _ _ _ _ _ _ _ _ H1 H2 H3 H4 H5 H6 H7 H8) in Edf.
  rewrite (clockFields_digits _ _ _ _ Ha Hb Hc He) in Ecf.
  assert (Ey : 100 * (10 * digitVal y1 + digitVal y2) + (10 * digitVal y3 + digitVal y4) = y)
    by congruence.
  assert (Emo : 10 * digitVal m1 + digitVal m2 = mo) by congruence.
  assert (Ed : 10 * digitVal d1 + digitVal d2 = d) by congruence.
  assert (Eh : 10 * digitVal a + digitVal b = hh) by congruence.
  assert (Em : 10 * digitVal c + digitVal e = mm) by congruence.
  clear Edf Ecf.
  pose proof (digitVal_range y1 H1). pose proof (digitVal_range y2 H2).
  pose proof (digitVal_range y3 H3). pose proof (digitVal_range y4 H4).
  pose proof (digitVal_range a Ha). pose proof (digitVal_range b Hb).
  pose proof (digitVal_range c Hc). pose proof (digitVal_range e He).
  repeat (split; [lia |]). split; [| exact Hp].
  unfold yearText. replace (y <=? 0) with false by (symmetry; apply Z.leb_gt; lia).
  rewrite <- Ey, <- Emo, <- Ed, <- Eh, <- Em.
  rewrite decimal_four_digits by (try assumption; lia).
  rewrite !twoDigits_digits by assumption. reflexivity.
Qed.

Lemma calendar_day_range (y mo d : Z) :
  1000 <= y <= 9999 -> 1 <= mo <= 12 -> 1 <= d <= 31 ->
  days_from_civil 1000 1 1 <= days_from_civil y mo d < days_from_civil 10000 1 1.
Proof.
  intros Hy Hmo Hd.
  change (days_from_civil 1000 1 1) with (-354285).
  change (days_from_civil 10000 1 1) with 2932897.
  unfold days_from_civil.
  destruct (mo <=? 2) eqn:E; [apply Z.leb_le in E | apply Z.leb_gt in E];
    Z.div_mod_to_equations; lia.
Qed.

Lemma daysInMonth_le (y mo : Z) : daysInMonth y mo <= 31.
Proof.
  unfold daysInMonth.
  repeat match goal with |- context [if ?c then _ else _] => destruct c end; lia.
Qed.

(** An instant built from a date of the calendar and a time of day lies in
    a year of four digits, and [formatJst] prints it as the two texts when
    the zone database has Asia/Tokyo at +09:00 at that instant. *)
Lemma calendar_instant (h : host) (dateStr timeStr : string) (t : Z) :
  isCalendarDate dateStr = true -> isClockTime timeStr = true ->
  Date_parse (P001.parseJstToIso dateStr timeStr) = Some t ->
  zoneOffset h P001.TZ t = 9 * msPerHour ->
  fourDigitYear (t + 9 * msPerHour) = true
  /\ P001.formatJst h (P001.parseJstToIso dateStr timeStr)
     = Returned (dateStr ++ " " ++ timeStr).
Proof.
  intros Hdate Htime Ht Hz.
  destruct (calendar_fields dateStr timeStr Hdate Htime)
    as (y & mo & d & hh & mm & Hy & Hmo & Hd & Hh & Hm & Etext & Hp).
  assert (Et : t = days_from_civil y mo d * msPerDay
                   + hh * msPerHour + mm * msPerMinute - 9 * msPerHour) by congruence.
  pose proof (daysInMonth_le y mo) as Hdim.
  pose proof (calendar_day_range y mo d Hy Hmo ltac:(lia)) as Hr.
  split.
  - rewrite Et. unfold fourDigitYear. apply andb_true_iff. rewrite Z.leb_le, Z.ltb_lt.
    unfold msPerDay, msPerHour, msPerMinute. lia.
  - unfold P001.formatJst. rewrite Ht, Hz, Etext, Et.
    rewrite <- days_from_civil_day.
    rewrite minuteKey_of_fields by lia. reflexivity.
Qed.

(** X1.  An event added with a date of the calendar and a time of
    day is reminded of when its minute comes: after the add command of
    part_001, a tick at any time [now] of the minute that starts at the
    instant (in Japan: at DATE TIME) posts the message
    "⏰ リマインド", a line break, "DATE TIME  title" to the configured
    channel.  The zone database has Asia/Tokyo at +09:00 at the instant and
    at [now], and no pending record of the store makes [formatJst] throw. *)
Theorem added_event_is_reminded_in_its_minute
    (h : host) (net : nat -> bool) (ch text dateStr timeStr word : string)
    (more : list string) (l : list event) (w : world) (t now : Z) :
  channelOf h = Some ch ->
  file w = Some (Events l) ->
  forallb (fun e => notified e || P001_keyed h e) l = true ->
  split_ws (trim text) = "add" :: dateStr :: timeStr :: word :: more ->
  isCalendarDate dateStr = true -> isClockTime timeStr = true ->
  Date_parse (P001.parseJstToIso dateStr timeStr) = Some t ->
  zoneOffset h P001.TZ t = 9 * msPerHour ->
  zoneOffset h P001.TZ now = 9 * msPerHour ->
  inMinuteOf t now = true ->
  let w1 := snd (P001.command h text w) in
  exists w2,
    P001.tick h net now w1 = (Returned tt, w2)
    /\ In (ch, "⏰ リマインド" ++ nl ++ (dateStr ++ " " ++ timeStr) ++ "  "
               ++ join " " (word :: more))
          (outbox w2).
Proof.
  intros Hch Hf Hl Htok Hdate Htime Hp Zt Zn Hnow w1. subst w1.
  destruct (calendar_instant h dateStr timeStr t Hdate Htime Hp Zt) as (Hyear & Hkey).
  assert (Hds : isDateText dateStr = true)
    by (unfold isCalendarDate in Hdate; apply andb_prop in Hdate; tauto).
  assert (Hts : isTimeText timeStr = true)
    by (unfold isClockTime in Htime; apply andb_prop in Htime; tauto).
  rewrite (P001_add_run h text dateStr timeStr word more w Htok Hds Hts). cbn [snd].
  assert (Hst : stored w = l) by (unfold stored; rewrite Hf; reflexivity).
  rewrite Hst.
  set (new := mkEvent _ (P001.parseJstToIso dateStr timeStr) (join " " (word :: more)) false).
  assert (Hn : fourDigitYear (now + 9 * msPerHour) = true).
  { pose proof (Date_parse_whole_minute _ _ Hp) as Hm.
    unfold fourDigitYear, inMinuteOf in *.
    change (days_from_civil 1000 1 1) with (-354285) in *.
    change (days_from_civil 10000 1 1) with 2932897 in *.
    rewrite andb_true_iff, Z.leb_le, Z.ltb_lt in *.
    unfold msPerDay, msPerHour, msPerMinute in *. Z.div_mod_to_equations; lia. }
  assert (Hk : forallb (fun e => notified e || P001_keyed h e)
                       (map jsonEvent l ++ [new]) = true).
  { rewrite forallb_app. apply andb_true_iff. split.
    - rewrite forallb_forall in *. intros e He. apply in_map_iff in He.
      destruct He as (e0 & <- & He0). specialize (Hl e0 He0). destruct e0; exact Hl.
    - cbn [forallb]. unfold P001_keyed, new. cbn [notified isoJst orb].
      rewrite Hkey. reflexivity. }
  rewrite (P001_tick_spec h net now ch _ (savedOver w (map jsonEvent l ++ [new]))
             Hch eq_refl Hk).
  eexists. split; [reflexivity |].
  assert (Hin : In (P001_reminder h ch new)
                   (map (P001_reminder h ch)
                        (filter (P001_due h (P001.nowKeyJst h now))
                                (map jsonEvent l ++ [new])))).
  { apply in_map. apply filter_In. split; [apply in_or_app; right; left; reflexivity |].
    rewrite (P001_due_in_its_minute h new t now Hp eq_refl Zt Zn Hyear Hn). exact Hnow. }
  assert (Hmsg : P001_reminder h ch new
                 = (ch, "⏰ リマインド" ++ nl ++ (dateStr ++ " " ++ timeStr) ++ "  "
                        ++ join " " (word :: more))).
  { unfold P001_reminder, P001_key, new. cbn [isoJst title]. rewrite Hkey. reflexivity. }
  rewrite <- Hmsg. unfold afterTick.
  destruct (anyAccepted _ _ _ _); cbn [outbox]; apply in_or_app; right; exact Hin.
Qed.

Lemma added_event_is_reminded_in_its_minute_witness :
  let w1 := snd (P001.command tokyoHost "add 2026-01-12 09:30 Daily sync" oneEvent) in
  exists w2,
    P001.tick tokyoHost (fun _ => false) (halfPastNine + 45000) w1 = (Returned tt, w2)
    /\ In ("C0123456789", "⏰ リマインド" ++ nl ++ ("2026-01-12" ++ " " ++ "09:30") ++ "  "
                          ++ join " " ["Daily"; "sync"])
          (outbox w2).
Proof.
  exact (added_event_is_reminded_in_its_minute tokyoHost (fun _ => false) "C0123456789"
           "add 2026-01-12 09:30 Daily sync" "2026-01-12" "09:30" "Daily" ["sync"]
           [standup] oneEvent halfPastNine (halfPastNine + 45000)
           eq_refl eq_refl eq_refl eq_refl eq_refl eq_refl eq_refl eq_refl eq_refl eq_refl).
Defined.

End EndToEnd.

(** ** The list command and a record without a valid instant *)

Section ListMore.

Lemma P001_listLines_throws (h : host) (l : list event) :
  existsb (fun e => negb (P001_keyed h e)) l = true ->
  P001.listLines h l = Threw RangeError.
Proof.
  induction l as [| e l IH]; [discriminate |].
  cbn [existsb P001.listLines]. unfold P001.listLine, P001_keyed.
  destruct (P001.formatJst h (isoJst e)) as [k | err] eqn:Ek.
  - cbn [negb orb]. intros H. rewrite (IH H). reflexivity.
  - intros _. apply P001_formatJst_throws in Ek. subst err. reflexivity.
Qed.

(** X17.  The list command of part_001 formats the instant of each
    record it shows.  When one of the first 50 records, in the order of the
    stored texts, has an instant that is not a valid date, the command throws
    a RangeError instead of replying, whatever the other records are; the
    store is left as it is.  The add command of the same draft can store such
    a record. *)
Theorem P001_list_stopped_by_invalid_instant (h : host) (text : string) (w : world) :
  hd "" (split_ws (trim text)) = "list" ->
  existsb (fun e => negb (P001_keyed h e))
          (firstn 50 (P001.sort P001.precedes (stored w))) = true ->
  P001.command h text w = (Threw RangeError, w)
  /\ P000a.command h text w = (Threw RangeError, w).
Proof.
  intros Hsub Hbad.
  destruct (list_subcommand text Hsub) as [Hne Hnth].
  assert (Hw : ensured w = w).
  { unfold ensured, creation, stored in *. destruct w as [[c |] j o]; cbn [file] in *.
    - cbn [journal outbox]. rewrite app_nil_r. reflexivity.
    - discriminate. }
  assert (Hlen : (List.length (P001.sort P001.precedes (stored w)) =? 0)%nat = false).
  { destruct (P001.sort P001.precedes (stored w)); [discriminate | reflexivity]. }
  split.
  - unfold P001.command. rewrite Hne, Hnth.
    change (String.eqb "list" "add") with false.
    change (String.eqb "list" "list") with true. cbv iota.
    rewrite (bind_returned _ _ _ _ _ (P001_loadEvents_run w)), Hw, Hlen.
    unfold bind, lift. rewrite (P001_listLines_throws h _ Hbad). reflexivity.
  - unfold P000a.command. rewrite Hne, Hsub.
    change (String.eqb "list" "add") with false.
    change (String.eqb "list" "list") with true. cbv iota.
    rewrite (bind_returned _ _ _ _ _ (P001_loadEvents_run w)), Hw, Hlen.
    unfold bind, lift. rewrite (P001_listLines_throws h _ Hbad). reflexivity.
Qed.

Lemma P001_list_stopped_by_invalid_instant_witness :
  let bad := mkEvent (VNumber (ofZ 2)) "2026-13-01T10:00:00+09:00" "x" false in
  let w := mkWorld (Some (Events [standup; bad])) [] [] in
  P001.command tokyoHost " list " w = (Threw RangeError, w)
  /\ P000a.command tokyoHost " list " w = (Threw RangeError, w).
Proof.
  exact (P001_list_stopped_by_invalid_instant tokyoHost " list "
           (mkWorld (Some (Events [standup;
              mkEvent (VNumber (ofZ 2)) "2026-13-01T10:00:00+09:00" "x" false])) [] [])
           eq_refl eq_refl).
Defined.

End ListMore.

(** ** src/index.js: the spreadsheet job *)

Section JobClock.

Lemma padDigits_four (y : Z) : 1000 <= y <= 9999 -> Index.padDigits 4 y = decimal y.
Proof.
  intros H. rewrite decimal_four by assumption. cbn [Index.padDigits append].
  replace (y / 10 / 10 / 10 mod 10) with (y / 1000) by (Z.div_mod_to_equations; lia).
  replace (y / 10 / 10 mod 10) with (y / 100 mod 10) by (Z.div_mod_to_equations; lia).
  reflexivity.
Qed.

Lemma TimeClip_four_digit_year (t : Z) :
  fourDigitYear t = true -> Index.TimeClip t = Some t.
Proof.
  unfold fourDigitYear, Index.TimeClip, Index.maxTime.
  change (days_from_civil 1000 1 1) with (-354285).
  change (days_from_civil 10000 1 1) with 2932897. unfold msPerDay.
  rewrite andb_true_iff, Z.leb_le, Z.ltb_lt. intros [H1 H2].
  replace (Z.abs t <=? 8640000000000000) with true by (symmetry; apply Z.leb_le; lia).
  reflexivity.
Qed.

(** The first ten characters of [toISOString] in a year of four digits. *)
Lemma isoDay_four_digit_year (t : Z) :
  fourDigitYear t = true ->
  isoDay (Some t)
  = Returned (let '(y, m, d) := civil_from_days (t / msPerDay) in
              decimal y ++ "-" ++ twoDigits m ++ "-" ++ twoDigits d).
Proof.
  intros Ht. unfold isoDay, Index.toISOString.
  pose proof (civil_year_range _ (fourDigitYear_days _ Ht)) as Hy.
  destruct (civil_from_days (t / msPerDay)) as [[y m] d].
  replace ((0 <=? y) && (y <=? 9999)) with true
    by (symmetry; apply andb_true_iff; rewrite !Z.leb_le; lia).
  rewrite padDigits_four by assumption.
  destruct (fourDigits_length y Hy) as (c1 & c2 & c3 & c4 & ->).
  unfold twoDigits. reflexivity.
Qed.

(** X20.  On a process that runs in UTC, the date and the time the
    job compares the rows with are the date and the time in Japan: [nowDate],
    a space and [nowTime] make the very key [nowKeyJst] of the bot gives for
    the same instant (years 1000 to 9999).  The shift of nine hours in
    [getNowJst] is what makes the UTC fields read as Japan's. *)
Theorem job_reads_the_clock_of_japan_on_a_utc_process
    (z : Index.zone) (h : host) (clock : Z) :
  Index.offsetAt z (clock + 9 * msPerHour) = 0 ->
  zoneOffset h P001.TZ clock = 9 * msPerHour ->
  fourDigitYear (clock + 9 * msPerHour) = true ->
  exists nowDate,
    isoDay (Index.getNowJst clock) = Returned nowDate
    /\ nowDate ++ " " ++ substring 0 5 (Index.toTimeString z (Index.getNowJst clock))
       = P001.nowKeyJst h clock.
Proof.
  intros Hoff Hz Hy. unfold Index.getNowJst.
  change (9 * 60 * 60 * 1000) with (9 * msPerHour).
  rewrite (TimeClip_four_digit_year _ Hy), (isoDay_four_digit_year _ Hy).
  eexists. split; [reflexivity |].
  unfold Index.toTimeString, P001.nowKeyJst, minuteKey. rewrite Hoff, Hz, Z.add_0_r.
  pose proof (civil_year_range _ (fourDigitYear_days _ Hy)) as Hyr.
  destruct (civil_from_days ((clock + 9 * msPerHour) / msPerDay)) as [[y m] d].
  unfold yearText. replace (y <=? 0) with false by (symmetry; apply Z.leb_gt; lia).
  destruct (fourDigits_length y Hyr) as (c1 & c2 & c3 & c4 & ->).
  unfold twoDigits. reflexivity.
Qed.

Lemma job_reads_the_clock_of_japan_on_a_utc_process_witness :
  exists nowDate,
    isoDay (Index.getNowJst eveningBefore) = Returned nowDate
    /\ nowDate ++ " " ++ substring 0 5 (Index.toTimeString utcZone (Index.getNowJst eveningBefore))
       = P001.nowKeyJst tokyoHost eveningBefore.
Proof.
  exact (job_reads_the_clock_of_japan_on_a_utc_process utcZone tokyoHost eveningBefore
           eq_refl eq_refl eq_refl).
Defined.

(** X21.  On a process that does not run in UTC the time of the job is
    off by the offset of the process: with the process at offset [c] from
    UTC, [nowTime] is the time of day that Japan's clock shows [c]
    milliseconds later, because [toTimeString] adds the local offset to a time
    value that already carries the nine hours.  A process in Japan reads
    05:00 when it is 20:00 there, so no notice goes out at the right time. *)
Theorem job_time_is_moved_by_the_offset_of_the_process
    (z : Index.zone) (h : host) (clock c : Z) :
  Index.offsetAt z (clock + 9 * msPerHour) = c ->
  zoneOffset h P001.TZ (clock + c) = 9 * msPerHour ->
  Z.abs (clock + 9 * msPerHour) <= Index.maxTime ->
  fourDigitYear (clock + c + 9 * msPerHour) = true ->
  substring 0 5 (Index.toTimeString z (Index.getNowJst clock))
  = substring 11 5 (P001.nowKeyJst h (clock + c)).
Proof.
  intros Hoff Hz Hr Hy. unfold Index.getNowJst, Index.TimeClip.
  change (9 * 60 * 60 * 1000) with (9 * msPerHour).
  replace (Z.abs (clock + 9 * msPerHour) <=? Index.maxTime) with true
    by (symmetry; apply Z.leb_le; exact Hr).
  unfold Index.toTimeString, P001.nowKeyJst, minuteKey. rewrite Hoff, Hz.
  replace (clock + 9 * msPerHour + c) with (clock + c + 9 * msPerHour) by lia.
  pose proof (civil_year_range _ (fourDigitYear_days _ Hy)) as Hyr.
  destruct (civil_from_days ((clock + c + 9 * msPerHour) / msPerDay)) as [[y m] d].
  unfold yearText. replace (y <=? 0) with false by (symmetry; apply Z.leb_gt; lia).
  destruct (fourDigits_length y Hyr) as (c1 & c2 & c3 & c4 & ->).
  unfold twoDigits. reflexivity.
Qed.

Lemma job_time_is_moved_by_the_offset_of_the_process_witness :
  substring 0 5 (Index.toTimeString japanZone (Index.getNowJst eveningBefore))
  = substring 11 5 (P001.nowKeyJst tokyoHost (eveningBefore + 9 * msPerHour)).
Proof.
  exact (job_time_is_moved_by_the_offset_of_the_process japanZone tokyoHost eveningBefore
           (9 * msPerHour) eq_refl eq_refl ltac:(vm_compute; discriminate) eq_refl).
Defined.

Lemma getTomorrowDateString_run (z : Index.zone) (tv c : Z) :
  Index.offsetAt z tv = c ->
  Index.offsetAtLocal z (tv + c + msPerDay) = c ->
  Z.abs (tv + msPerDay) <= Index.maxTime ->
  Index.getTomorrowDateString z (Some tv) = isoDay (Some (tv + msPerDay)).
Proof.
  intros Hoff Hloc Hr.
  unfold Index.getTomorrowDateString, Index.setDate, Index.getDate. rewrite Hoff.
  pose proof (civil_days ((tv + c) / msPerDay)) as Hc.
  destruct (civil_from_days ((tv + c) / msPerDay)) as [[y m] d].
  destruct Hc as (Hday & _ & _).
  assert (Hlocal : (days_from_civil y m 1 + (d + 1 - 1)) * msPerDay + (tv + c) mod msPerDay
                   = tv + c + msPerDay).
  { replace (days_from_civil y m 1 + (d + 1 - 1)) with (days_from_civil y m d + 1)
      by (unfold days_from_civil; lia).
    rewrite Hday. unfold msPerDay. Z.div_mod_to_equations; lia. }
  rewrite Hlocal, Hloc.
  replace (tv + c + msPerDay - c) with (tv + msPerDay) by lia.
  unfold Index.TimeClip.
  replace (Z.abs (tv + msPerDay) <=? Index.maxTime) with true
    by (symmetry; apply Z.leb_le; exact Hr).
  reflexivity.
Qed.

(** The date can be read off its text. *)
Lemma date_fields_inj (y1 m1 d1 y2 m2 d2 : Z) :
  1000 <= y1 <= 9999 -> 1000 <= y2 <= 9999 ->
  0 <= m1 <= 99 -> 0 <= m2 <= 99 -> 0 <= d1 <= 99 -> 0 <= d2 <= 99 ->
  decimal y1 ++ "-" ++ twoDigits m1 ++ "-" ++ twoDigits d1
  = decimal y2 ++ "-" ++ twoDigits m2 ++ "-" ++ twoDigits d2 ->
  y1 = y2 /\ m1 = m2 /\ d1 = d2.
Proof.
  intros Hy1 Hy2 Hm1 Hm2 Hd1 Hd2 E.
  pose proof (fourDigits_inj y1 y2 Hy1 Hy2) as Iy.
  pose proof (twoDigits_inj m1 m2 Hm1 Hm2) as Im.
  pose proof (twoDigits_inj d1 d2 Hd1 Hd2) as Id.
  destruct (fourDigits_length y1 Hy1) as (a1 & a2 & a3 & a4 & Ey1).
  destruct (fourDigits_length y2 Hy2) as (b1 & b2 & b3 & b4 & Ey2).
  destruct (twoDigits_length m1) as (p1 & p2 & Em1).
  destruct (twoDigits_length m2) as (q1 & q2 & Em2).
  destruct (twoDigits_length d1) as (r1 & r2 & Ed1).
  destruct (twoDigits_length d2) as (s1 & s2 & Ed2).
  rewrite Ey1, Ey2, Em1, Em2, Ed1, Ed2 in *.
  cbn [append] in E.
  injection E as -> -> -> -> -> -> -> ->.
  repeat split; auto.
Qed.

Lemma tomorrow_is_not_today (tv : Z) :
  fourDigitYear tv = true -> fourDigitYear (tv + msPerDay) = true ->
  isoDay (Some (tv + msPerDay)) <> isoDay (Some tv).
Proof.
  intros H1 H2. rewrite (isoDay_four_digit_year _ H1), (isoDay_four_digit_year _ H2).
  pose proof (civil_year_range _ (fourDigitYear_days _ H1)) as Y1.
  pose proof (civil_year_range _ (fourDigitYear_days _ H2)) as Y2.
  pose proof (civil_days (tv / msPerDay)) as C1.
  pose proof (civil_days ((tv + msPerDay) / msPerDay)) as C2.
  destruct (civil_from_days (tv / msPerDay)) as [[y1 m1] d1].
  destruct (civil_from_days ((tv + msPerDay) / msPerDay)) as [[y2 m2] d2].
  destruct C1 as (D1 & M1 & X1). destruct C2 as (D2 & M2 & X2).
  intros E. injection E as E.
  apply date_fields_inj in E; try lia.
  destruct E as (-> & -> & ->).
  assert (tv / msPerDay = (tv + msPerDay) / msPerDay) by congruence.
  unfold msPerDay in *. Z.div_mod_to_equations; lia.
Qed.

(** X22.  In a zone whose offset is the same today and tomorrow,
    [getTomorrowDateString] gives the first ten characters of [toISOString]
    of the instant 24 hours later: the calendar day after the day of its
    argument, across the ends of months and years, and never the day of the
    argument itself (years 1000 to 9999). *)
Theorem getTomorrowDateString_is_the_day_24_hours_later (z : Index.zone) (tv c : Z) :
  Index.offsetAt z tv = c ->
  Index.offsetAtLocal z (tv + c + msPerDay) = c ->
  fourDigitYear tv = true -> fourDigitYear (tv + msPerDay) = true ->
  Index.getTomorrowDateString z (Some tv) = isoDay (Some (tv + msPerDay))
  /\ Index.getTomorrowDateString z (Some tv) <> isoDay (Some tv).
Proof.
  intros Hoff Hloc H1 H2.
  assert (Hr : Z.abs (tv + msPerDay) <= Index.maxTime).
  { pose proof (TimeClip_four_digit_year _ H2) as Hc. unfold Index.TimeClip in Hc.
    destruct (Z.abs (tv + msPerDay) <=? Index.maxTime) eqn:E; [| discriminate].
    apply Z.leb_le. exact E. }
  rewrite (getTomorrowDateString_run z tv c Hoff Hloc Hr).
  split; [reflexivity | apply tomorrow_is_not_today; assumption].
Qed.

Lemma getTomorrowDateString_is_the_day_24_hours_later_witness :
  Index.getTomorrowDateString japanZone (Some 1772236800000)
  = isoDay (Some (1772236800000 + msPerDay))
  /\ Index.getTomorrowDateString japanZone (Some 1772236800000) <> isoDay (Some 1772236800000).
Proof.
  exact (getTomorrowDateString_is_the_day_24_hours_later japanZone 1772236800000
           (9 * msPerHour) eq_refl eq_refl eq_refl eq_refl).
Defined.

End JobClock.

Section JobRows.

Variables (channel : option string) (nowDate nowTime tomorrowDate : string).

Lemma replace_here (done : list Index.row) (x r : Index.row) (rest : list Index.row) :
  Index.replace (List.length done) r (done ++ x :: rest) = (done ++ r :: rest)%list.
Proof.
  induction done as [| a done IH]; [reflexivity |].
  cbn [List.length app Index.replace]. rewrite IH. reflexivity.
Qed.

(** A row for which nothing is due is passed over: no post, no save. *)
Lemma visit_quiet (net disk : nat -> bool) (i : nat) (r : Index.row) (w : Index.office) :
  notices nowDate nowTime tomorrowDate r = [] ->
  Index.visit channel net disk nowDate nowTime tomorrowDate i r w = (Index.Done r, w).
Proof.
  unfold notices, dayBeforeDue, sameDayDue, Index.visit. intros H.
  destruct (Index.cellIs (Index.enabled r) "TRUE"); [| reflexivity].
  cbn [negb andb] in *.
  destruct (negb (Index.cellIs (Index.dayBeforeSent r) "TRUE")
            && Index.cellIs (Index.eventDate r) tomorrowDate
            && String.eqb nowTime "20:00"); [discriminate |].
  unfold Index.andThen, Index.done.
  destruct (negb (Index.cellIs (Index.hourBeforeSent r) "TRUE")
            && Index.cellIs (Index.eventDate r) nowDate
            && Index.cellIs (Index.eventTime r) nowTime); [discriminate | reflexivity].
Qed.

Lemma visitAll_quiet (net disk : nat -> bool) (rows : list Index.row) :
  (forall r, In r rows -> notices nowDate nowTime tomorrowDate r = []) ->
  forall (i : nat) (w : Index.office),
    Index.visitAll channel net disk nowDate nowTime tomorrowDate i rows w = (Index.Done tt, w).
Proof.
  induction rows as [| r rows IH]; intros H i w; [reflexivity |].
  cbn [Index.visitAll]. unfold Index.andThen.
  rewrite visit_quiet by (apply H; left; reflexivity).
  apply IH. intros x Hx. apply H. right. exact Hx.
Qed.

(** Rows for which nothing is due are passed over without a trace. *)
Lemma visitAll_skip (net disk : nat -> bool) (w : Index.office) :
  forall (rows : list Index.row) (i : nat) (rest : list Index.row),
    (forall q, In q rows -> notices nowDate nowTime tomorrowDate q = []) ->
    Index.visitAll channel net disk nowDate nowTime tomorrowDate i (rows ++ rest) w
    = Index.visitAll channel net disk nowDate nowTime tomorrowDate
        (List.length rows + i) rest w.
Proof.
  induction rows as [| q rows IH]; intros i rest Hq; [reflexivity |].
  cbn [app Index.visitAll List.length]. unfold Index.andThen.
  rewrite (visit_quiet net disk i q w) by (apply Hq; left; reflexivity).
  rewrite IH by (intros x Hx; apply Hq; right; exact Hx).
  f_equal. lia.
Qed.

(** One notice: the post, the flag, the save. *)
Lemma notice_accepted (net disk : nat -> bool) (text : string) (r' x : Index.row)
    (done rest : list Index.row) (w : Index.office) :
  (forall n, net n = true) -> (forall n, disk n = true) ->
  Index.sheet w = (done ++ x :: rest)%list ->
  Index.andThen (Index.postMessage net channel text) (fun _ =>
  Index.andThen (Index.save disk (List.length done) r') (fun _ => Index.done r')) w
  = (Index.Done r',
     Index.mkOffice (done ++ r' :: rest) (Index.sent w ++ [(channel, text)])
                    (Index.saved w ++ [(List.length done, r')])).
Proof.
  intros Hnet Hdisk Hs.
  unfold Index.andThen, Index.postMessage, Index.save, Index.done.
  rewrite Hnet. cbn [Index.sheet Index.sent Index.saved]. rewrite Hdisk, Hs, replace_here.
  reflexivity.
Qed.

(** A row visited while every post and every save is accepted. *)
Lemma visit_accepted (net disk : nat -> bool) (done : list Index.row) (r : Index.row)
    (rest : list Index.row) (w : Index.office) :
  (forall n, net n = true) -> (forall n, disk n = true) ->
  Index.sheet w = (done ++ r :: rest)%list ->
  exists w',
    Index.visit channel net disk nowDate nowTime tomorrowDate (List.length done) r w
    = (Index.Done (flagsSet nowDate nowTime tomorrowDate r), w')
    /\ Index.sheet w' = (done ++ flagsSet nowDate nowTime tomorrowDate r :: rest)%list
    /\ Index.sent w'
       = (Index.sent w ++ map (pair channel) (notices nowDate nowTime tomorrowDate r))%list
    /\ List.length (Index.saved w')
       = (List.length (Index.saved w)
          + List.length (notices nowDate nowTime tomorrowDate r))%nat.
Proof.
  intros Hnet Hdisk Hs.
  unfold flagsSet, notices, dayBeforeDue, sameDayDue, Index.visit.
  destruct (Index.cellIs (Index.enabled r) "TRUE").
  2: { cbn [negb andb app map List.length]. exists w. unfold Index.done.
       rewrite app_nil_r, Nat.add_0_r. auto. }
  cbn [negb andb].
  destruct (negb (Index.cellIs (Index.dayBeforeSent r) "TRUE")
            && Index.cellIs (Index.eventDate r) tomorrowDate
            && String.eqb nowTime "20:00").
  - unfold Index.andThen at 1.
    rewrite (notice_accepted net disk _ _ r done rest w Hnet Hdisk Hs).
    cbn [Index.setDayBeforeSent Index.hourBeforeSent Index.eventDate Index.eventTime].
    destruct (negb (Index.cellIs (Index.hourBeforeSent r) "TRUE")
              && Index.cellIs (Index.eventDate r) nowDate
              && Index.cellIs (Index.eventTime r) nowTime).
    + rewrite (notice_accepted net disk _ _ (Index.setDayBeforeSent r) done rest
                 (Index.mkOffice (done ++ Index.setDayBeforeSent r :: rest) _ _) Hnet Hdisk
                 eq_refl).
      eexists. split; [reflexivity |]. cbn [Index.sheet Index.sent Index.saved map app].
      rewrite !length_app, <- app_assoc. cbn [List.length app]. repeat split. lia.
    + eexists. split; [reflexivity |]. cbn [Index.sheet Index.sent Index.saved map app].
      rewrite !length_app. cbn [List.length app]. repeat split.
  - unfold Index.andThen at 1. unfold Index.done at 1.
    destruct (negb (Index.cellIs (Index.hourBeforeSent r) "TRUE")
              && Index.cellIs (Index.eventDate r) nowDate
              && Index.cellIs (Index.eventTime r) nowTime).
    + rewrite (notice_accepted net disk _ _ r done rest w Hnet Hdisk Hs).
      eexists. split; [reflexivity |]. cbn [Index.sheet Index.sent Index.saved map app].
      rewrite !length_app. cbn [List.length app]. repeat split.
    + exists w. unfold Index.done. cbn [map app List.length].
      rewrite app_nil_r, Nat.add_0_r. auto.
Qed.

Lemma visitAll_accepted (net disk : nat -> bool) (rows : list Index.row) :
  (forall n, net n = true) -> (forall n, disk n = true) ->
  forall (done : list Index.row) (w : Index.office),
    Index.sheet w = (done ++ rows)%list ->
    exists w',
      Index.visitAll channel net disk nowDate nowTime tomorrowDate (List.length done) rows w
      = (Index.Done tt, w')
      /\ Index.sheet w' = (done ++ map (flagsSet nowDate nowTime tomorrowDate) rows)%list
      /\ Index.sent w'
         = (Index.sent w
            ++ map (pair channel) (flat_map (notices nowDate nowTime tomorrowDate) rows))%list
      /\ List.length (Index.saved w')
         = (List.length (Index.saved w)
            + List.length (flat_map (notices nowDate nowTime tomorrowDate) rows))%nat.
Proof.
  intros Hnet Hdisk. induction rows as [| r rows IH]; intros done w Hs.
  - exists w. cbn [Index.visitAll map flat_map List.length]. unfold Index.done.
    rewrite !app_nil_r in *. rewrite Nat.add_0_r. auto.
  - destruct (visit_accepted net disk done r rows w Hnet Hdisk Hs)
      as (w1 & Hv & S1 & T1 & L1).
    set (r1 := flagsSet nowDate nowTime tomorrowDate r) in *.
    assert (Hs1 : Index.sheet w1 = ((done ++ [r1]) ++ rows)%list)
      by (rewrite S1, <- app_assoc; reflexivity).
    destruct (IH (done ++ [r1])%list w1 Hs1) as (w2 & Hv2 & S2 & T2 & L2).
    exists w2. cbn [Index.visitAll]. unfold Index.andThen. rewrite Hv.
    replace (S (List.length done)) with (List.length (done ++ [r1]))
      by (rewrite length_app; cbn; lia).
    rewrite Hv2. split; [reflexivity |].
    cbn [map flat_map]. rewrite S2, T2, T1, L2, L1, map_app, length_app, <- !app_assoc.
    repeat split. lia.
Qed.

Lemma due_after_flag (r : Index.row) :
  dayBeforeDue nowTime tomorrowDate (Index.setDayBeforeSent r) = false
  /\ dayBeforeDue nowTime tomorrowDate (Index.setHourBeforeSent r)
     = dayBeforeDue nowTime tomorrowDate r
  /\ sameDayDue nowDate nowTime (Index.setHourBeforeSent r) = false
  /\ sameDayDue nowDate nowTime (Index.setDayBeforeSent r) = sameDayDue nowDate nowTime r.
Proof.
  unfold dayBeforeDue, sameDayDue. destruct r as [en da ti f1 f2 na no zo].
  cbn [Index.setDayBeforeSent Index.setHourBeforeSent Index.enabled Index.dayBeforeSent
       Index.hourBeforeSent Index.eventDate Index.eventTime].
  change (Index.cellIs (Some "TRUE") "TRUE") with true. cbn [negb].
  rewrite !andb_false_r. repeat split.
Qed.

(** Once the flags are set nothing is due for the row any more. *)
Lemma marked_quiet (r : Index.row) :
  let r' := flagsSet nowDate nowTime tomorrowDate r in
  notices nowDate nowTime tomorrowDate r' = []
  /\ flagsSet nowDate nowTime tomorrowDate r' = r'.
Proof.
  cbv zeta. unfold notices, flagsSet.
  destruct (due_after_flag r) as (A1 & A2 & A3 & A4).
  destruct (due_after_flag (Index.setDayBeforeSent r)) as (B1 & B2 & B3 & B4).
  destruct (due_after_flag (Index.setHourBeforeSent r)) as (C1 & C2 & C3 & C4).
  destruct (dayBeforeDue nowTime tomorrowDate r) eqn:E1;
    destruct (sameDayDue nowDate nowTime r) eqn:E2;
    rewrite ?B2, ?B3, ?C2, ?C3, ?A1, ?A2, ?A3, ?A4, ?E1, ?E2; split; reflexivity.
Qed.

End JobRows.

Section JobRun.

Lemma run_unfold (z : Index.zone) (channel : option string) (net disk : nat -> bool)
    (clock : Z) (nowDate tomorrowDate : string) (w : Index.office) :
  isoDay (Index.getNowJst clock) = Returned nowDate ->
  Index.getTomorrowDateString z (Index.getNowJst clock) = Returned tomorrowDate ->
  Index.run z channel net disk clock w
  = Index.visitAll channel net disk nowDate
      (substring 0 5 (Index.toTimeString z (Index.getNowJst clock))) tomorrowDate
      0 (Index.sheet w) w.
Proof.
  unfold isoDay, Index.run. intros Hd Ht.
  destruct (Index.toISOString (Index.getNowJst clock)) as [iso | err]; [| discriminate].
  injection Hd as <-. rewrite Ht. reflexivity.
Qed.

(** X23.  A run in which every post and every save is accepted visits
    the rows in order and, for each row whose 配信有効 is TRUE, posts the
    day-before notice when 前日送信済み is not TRUE, 日付 is tomorrow's date
    and the time is 20:00, and then the notice of the day when 1時間前送信済み
    is not TRUE, 日付 is today's date and 開始時刻 is the time now (the minute
    of the start itself, not an hour before).  It sets the flag of each
    notice it posted, saves the row once per notice, and leaves every other
    row as it was. *)
Theorem run_posts_the_due_notices_and_sets_their_flags
    (z : Index.zone) (channel : option string) (net disk : nat -> bool) (clock : Z)
    (nowDate tomorrowDate : string) (w : Index.office) :
  (forall n, net n = true) -> (forall n, disk n = true) ->
  isoDay (Index.getNowJst clock) = Returned nowDate ->
  Index.getTomorrowDateString z (Index.getNowJst clock) = Returned tomorrowDate ->
  let nowTime := substring 0 5 (Index.toTimeString z (Index.getNowJst clock)) in
  exists w',
    Index.run z channel net disk clock w = (Index.Done tt, w')
    /\ Index.sheet w' = map (flagsSet nowDate nowTime tomorrowDate) (Index.sheet w)
    /\ Index.sent w'
       = (Index.sent w
          ++ map (pair channel)
                 (flat_map (notices nowDate nowTime tomorrowDate) (Index.sheet w)))%list
    /\ List.length (Index.saved w')
       = (List.length (Index.saved w)
          + List.length (flat_map (notices nowDate nowTime tomorrowDate) (Index.sheet w)))%nat.
Proof.
  intros Hnet Hdisk Hd Ht nowTime.
  rewrite (run_unfold z channel net disk clock nowDate tomorrowDate w Hd Ht). fold nowTime.
  exact (visitAll_accepted channel nowDate nowTime tomorrowDate net disk (Index.sheet w)
           Hnet Hdisk [] w eq_refl).
Qed.

Lemma run_posts_the_due_notices_and_sets_their_flags_witness :
  exists w',
    Index.run utcZone (Some "C0123456789") (fun _ => true) (fun _ => true) eveningBefore oneSheet
    = (Index.Done tt, w')
    /\ Index.sheet w' = map (flagsSet "2026-01-12" "20:00" "2026-01-13") (Index.sheet oneSheet)
    /\ Index.sent w'
       = (Index.sent oneSheet
          ++ map (pair (Some "C0123456789"))
                 (flat_map (notices "2026-01-12" "20:00" "2026-01-13")
                           (Index.sheet oneSheet)))%list
    /\ List.length (Index.saved w')
       = (List.length (Index.saved oneSheet)
          + List.length (flat_map (notices "2026-01-12" "20:00" "2026-01-13")
                                  (Index.sheet oneSheet)))%nat.
Proof.
  exact (run_posts_the_due_notices_and_sets_their_flags utcZone (Some "C0123456789")
           (fun _ => true) (fun _ => true) eveningBefore "2026-01-12" "2026-01-13" oneSheet
           (fun _ => eq_refl) (fun _ => eq_refl) eq_refl eq_refl).
Defined.

(** X24.  After a run in which every post and every save was accepted,
    a second run at the same time does nothing, whatever the client and the
    sheet answer then: the flags written to the sheet keep each notice from
    being posted twice. *)
Theorem run_again_at_the_same_time_does_nothing
    (z : Index.zone) (channel : option string) (net disk again again' : nat -> bool)
    (clock : Z) (w : Index.office) :
  (forall n, net n = true) -> (forall n, disk n = true) ->
  forall w', Index.run z channel net disk clock w = (Index.Done tt, w') ->
  Index.run z channel again again' clock w' = (Index.Done tt, w').
Proof.
  intros Hnet Hdisk w' Hrun.
  destruct (isoDay (Index.getNowJst clock)) as [nowDate | err] eqn:Hd.
  2: { unfold Index.run, isoDay in *.
       destruct (Index.toISOString (Index.getNowJst clock)); discriminate. }
  destruct (Index.getTomorrowDateString z (Index.getNowJst clock))
    as [tomorrowDate | err] eqn:Ht.
  2: { unfold Index.run in Hrun. rewrite Ht in Hrun.
       destruct (Index.toISOString (Index.getNowJst clock)); discriminate. }
  rewrite (run_unfold z channel net disk clock nowDate tomorrowDate w Hd Ht) in Hrun.
  destruct (visitAll_accepted channel nowDate
              (substring 0 5 (Index.toTimeString z (Index.getNowJst clock))) tomorrowDate
              net disk (Index.sheet w) Hnet Hdisk [] w eq_refl) as (w1 & Hrun1 & Hsheet & _).
  cbn [List.length] in Hrun1. rewrite Hrun in Hrun1. injection Hrun1 as <-.
  cbn [app] in Hsheet.
  rewrite (run_unfold z channel again again' clock nowDate tomorrowDate w' Hd Ht).
  apply visitAll_quiet. intros r Hr. rewrite Hsheet in Hr.
  apply in_map_iff in Hr. destruct Hr as (r0 & <- & _). apply marked_quiet.
Qed.

Lemma run_again_at_the_same_time_does_nothing_witness :
  let w' := Index.mkOffice [paused; Index.setDayBeforeSent meetup]
                           [(Some "C0123456789", Index.dayBeforeText meetup)]
                           [(1%nat, Index.setDayBeforeSent meetup)] in
  Index.run utcZone (Some "C0123456789") (fun _ => false) (fun _ => false) eveningBefore w'
  = (Index.Done tt, w').
Proof.
  apply (run_again_at_the_same_time_does_nothing utcZone (Some "C0123456789")
           (fun _ => true) (fun _ => true) (fun _ => false) (fun _ => false) eveningBefore
           oneSheet (fun _ => eq_refl) (fun _ => eq_refl)).
  vm_compute. reflexivity.
Defined.

(** X25.  The job has no [try] around its posts: when the post of a
    notice is rejected the run ends there.  The rows before were passed over
    or handled; the flag of the row is not set and the sheet is not written,
    so the notice is due again at the next run; the rows after it are not
    visited in this run, whatever is due for them. *)
Theorem run_ends_at_the_first_rejected_post
    (z : Index.zone) (channel : option string) (net disk : nat -> bool) (clock : Z)
    (nowDate tomorrowDate : string) (before after : list Index.row) (r : Index.row)
    (text : string) (more : list string) (w : Index.office) :
  isoDay (Index.getNowJst clock) = Returned nowDate ->
  Index.getTomorrowDateString z (Index.getNowJst clock) = Returned tomorrowDate ->
  let nowTime := substring 0 5 (Index.toTimeString z (Index.getNowJst clock)) in
  Index.sheet w = (before ++ r :: after)%list ->
  (forall q, In q before -> notices nowDate nowTime tomorrowDate q = []) ->
  notices nowDate nowTime tomorrowDate r = text :: more ->
  net (List.length (Index.sent w)) = false ->
  Index.run z channel net disk clock w
  = (Index.Failed Index.PostRejected,
     Index.mkOffice (Index.sheet w) (Index.sent w ++ [(channel, text)]) (Index.saved w)).
Proof.
  intros Hd Ht nowTime Hs Hquiet Hdue Hnet.
  rewrite (run_unfold z channel net disk clock nowDate tomorrowDate w Hd Ht). fold nowTime.
  rewrite Hs at 1.
  rewrite (visitAll_skip channel nowDate nowTime tomorrowDate net disk w before 0%nat
             (r :: after) Hquiet).
  cbn [Index.visitAll]. unfold Index.andThen.
  assert (Hv : Index.visit channel net disk nowDate nowTime tomorrowDate
                 (List.length before + 0) r w
               = (Index.Failed Index.PostRejected,
                  Index.mkOffice (Index.sheet w) (Index.sent w ++ [(channel, text)])
                                 (Index.saved w))).
  { unfold notices, dayBeforeDue, sameDayDue in Hdue. unfold Index.visit.
    destruct (Index.cellIs (Index.enabled r) "TRUE"); [| discriminate].
    cbn [negb andb] in *.
    unfold Index.andThen, Index.postMessage, Index.done.
    destruct (negb (Index.cellIs (Index.dayBeforeSent r) "TRUE")
              && Index.cellIs (Index.eventDate r) tomorrowDate
              && String.eqb nowTime "20:00").
    - injection Hdue as <- _. rewrite Hnet. reflexivity.
    - destruct (negb (Index.cellIs (Index.hourBeforeSent r) "TRUE")
                && Index.cellIs (Index.eventDate r) nowDate
                && Index.cellIs (Index.eventTime r) nowTime); [| discriminate].
      injection Hdue as <- _. rewrite Hnet. reflexivity. }
  rewrite Hv. reflexivity.
Qed.

Lemma run_ends_at_the_first_rejected_post_witness :
  Index.run utcZone (Some "C0123456789") (fun _ => false) (fun _ => true) eveningBefore
            (Index.mkOffice [paused; meetup; meetup] [] [])
  = (Index.Failed Index.PostRejected,
     Index.mkOffice [paused; meetup; meetup]
                    [(Some "C0123456789", Index.dayBeforeText meetup)] []).
Proof.
  apply (run_ends_at_the_first_rejected_post utcZone (Some "C0123456789") (fun _ => false)
           (fun _ => true) eveningBefore "2026-01-12" "2026-01-13" [paused] [meetup] meetup
           (Index.dayBeforeText meetup) [] (Index.mkOffice [paused; meetup; meetup] [] [])).
  - vm_compute. reflexivity.
  - vm_compute. reflexivity.
  - reflexivity.
  - intros q [<- | []]. vm_compute. reflexivity.
  - vm_compute. reflexivity.
  - reflexivity.
Defined.

(** X26.  When the post of a notice is accepted and the save of the
    row is then rejected, the run ends there: the message has gone out but the
    flag is not in the sheet.  A run at the same time that finds the client
    and the sheet working posts the same notice a second time. *)
Theorem run_that_cannot_save_posts_the_notice_again
    (z : Index.zone) (channel : option string) (net disk again again' : nat -> bool)
    (clock : Z) (nowDate tomorrowDate : string) (before after : list Index.row)
    (r : Index.row) (text : string) (more : list string) (w : Index.office) :
  isoDay (Index.getNowJst clock) = Returned nowDate ->
  Index.getTomorrowDateString z (Index.getNowJst clock) = Returned tomorrowDate ->
  let nowTime := substring 0 5 (Index.toTimeString z (Index.getNowJst clock)) in
  Index.sheet w = (before ++ r :: after)%list ->
  (forall q, In q before -> notices nowDate nowTime tomorrowDate q = []) ->
  notices nowDate nowTime tomorrowDate r = text :: more ->
  net (List.length (Index.sent w)) = true ->
  disk (List.length (Index.saved w)) = false ->
  (forall n, again n = true) -> (forall n, again' n = true) ->
  exists r' w1 w2 later,
    w1 = Index.mkOffice (Index.sheet w) (Index.sent w ++ [(channel, text)])
                        (Index.saved w ++ [(List.length before, r')])
    /\ Index.run z channel net disk clock w = (Index.Failed Index.SaveRejected, w1)
    /\ Index.run z channel again again' clock w1 = (Index.Done tt, w2)
    /\ Index.sent w2 = (Index.sent w ++ [(channel, text)] ++ (channel, text) :: later)%list.
Proof.
  intros Hd Ht nowTime Hs Hquiet Hdue Hnet Hdisk Hagain Hagain'.
  assert (Hv : exists r',
             Index.visit channel net disk nowDate nowTime tomorrowDate
               (List.length before + 0) r w
             = (Index.Failed Index.SaveRejected,
                Index.mkOffice (Index.sheet w) (Index.sent w ++ [(channel, text)])
                               (Index.saved w ++ [(List.length before, r')]))).
  { unfold notices, dayBeforeDue, sameDayDue in Hdue. unfold Index.visit.
    rewrite Nat.add_0_r.
    destruct (Index.cellIs (Index.enabled r) "TRUE"); [| discriminate].
    cbn [negb andb] in *.
    unfold Index.andThen, Index.postMessage, Index.save, Index.done.
    destruct (negb (Index.cellIs (Index.dayBeforeSent r) "TRUE")
              && Index.cellIs (Index.eventDate r) tomorrowDate
              && String.eqb nowTime "20:00").
    - injection Hdue as <- _. rewrite Hnet. cbn [Index.saved]. rewrite Hdisk.
      eexists. reflexivity.
    - destruct (negb (Index.cellIs (Index.hourBeforeSent r) "TRUE")
                && Index.cellIs (Index.eventDate r) nowDate
                && Index.cellIs (Index.eventTime r) nowTime); [| discriminate].
      injection Hdue as <- _. rewrite Hnet. cbn [Index.saved]. rewrite Hdisk.
      eexists. reflexivity. }
  destruct Hv as (r' & Hv).
  set (w1 := Index.mkOffice (Index.sheet w) (Index.sent w ++ [(channel, text)])
                            (Index.saved w ++ [(List.length before, r')])).
  destruct (visitAll_accepted channel nowDate nowTime tomorrowDate again again'
              (Index.sheet w) Hagain Hagain' [] w1 eq_refl) as (w2 & Hrun2 & _ & Hsent & _).
  exists r', w1, w2.
  exists (map (pair channel) (more ++ flat_map (notices nowDate nowTime tomorrowDate) after)).
  split; [reflexivity |]. split; [| split].
  - rewrite (run_unfold z channel net disk clock nowDate tomorrowDate w Hd Ht). fold nowTime.
    rewrite Hs at 1.
    rewrite (visitAll_skip channel nowDate nowTime tomorrowDate net disk w before 0%nat
               (r :: after) Hquiet).
    cbn [Index.visitAll]. unfold Index.andThen. rewrite Hv. reflexivity.
  - rewrite (run_unfold z channel again again' clock nowDate tomorrowDate w1 Hd Ht).
    exact Hrun2.
  - rewrite Hsent. unfold w1. cbn [Index.sent]. rewrite Hs, flat_map_app.
    assert (Hnone : flat_map (notices nowDate nowTime tomorrowDate) before = []).
    { clear - Hquiet. induction before as [| q l IH]; [reflexivity |].
      cbn [flat_map]. rewrite (Hquiet q (or_introl eq_refl)).
      apply IH. intros x Hx. apply Hquiet. right. exact Hx. }
    rewrite Hnone. cbn [app flat_map]. rewrite Hdue. cbn [app map].
    rewrite <- app_assoc. reflexivity.
Qed.

Lemma run_that_cannot_save_posts_the_notice_again_witness :
  exists r' w1 w2 later,
    w1 = Index.mkOffice (Index.sheet oneSheet)
                        (Index.sent oneSheet ++ [(Some "C0123456789", Index.dayBeforeText meetup)])
                        (Index.saved oneSheet ++ [(List.length [paused], r')])
    /\ Index.run utcZone (Some "C0123456789") (fun _ => true) (fun _ => false) eveningBefore
                 oneSheet
       = (Index.Failed Index.SaveRejected, w1)
    /\ Index.run utcZone (Some "C0123456789") (fun _ => true) (fun _ => true) eveningBefore w1
       = (Index.Done tt, w2)
    /\ Index.sent w2
       = (Index.sent oneSheet ++ [(Some "C0123456789", Index.dayBeforeText meetup)]
          ++ (Some "C0123456789", Index.dayBeforeText meetup) :: later)%list.
Proof.
  apply (run_that_cannot_save_posts_the_notice_again utcZone (Some "C0123456789")
           (fun _ => true) (fun _ => false) (fun _ => true) (fun _ => true) eveningBefore
           "2026-01-12" "2026-01-13" [paused] [] meetup (Index.dayBeforeText meetup) []
           oneSheet).
  - vm_compute. reflexivity.
  - vm_compute. reflexivity.
  - reflexivity.
  - intros q [<- | []]. vm_compute. reflexivity.
  - vm_compute. reflexivity.
  - reflexivity.
  - reflexivity.
  - reflexivity.
  - reflexivity.
Defined.

(** X27.  In one run a row gets at most one of its two notices: the
    day-before notice wants 日付 to be tomorrow's date and the notice of the
    day wants it to be today's, and the two dates the run computes are never
    the same text (zone without a change of offset between the two days,
    years 1000 to 9999). *)
Theorem run_posts_at_most_one_notice_for_a_row
    (z : Index.zone) (clock c : Z) (nowDate tomorrowDate nowTime : string) (r : Index.row) :
  Index.offsetAt z (clock + 9 * msPerHour) = c ->
  Index.offsetAtLocal z (clock + 9 * msPerHour + c + msPerDay) = c ->
  fourDigitYear (clock + 9 * msPerHour) = true ->
  fourDigitYear (clock + 9 * msPerHour + msPerDay) = true ->
  isoDay (Index.getNowJst clock) = Returned nowDate ->
  Index.getTomorrowDateString z (Index.getNowJst clock) = Returned tomorrowDate ->
  tomorrowDate <> nowDate
  /\ (List.length (notices nowDate nowTime tomorrowDate r) <= 1)%nat.
Proof.
  intros Hoff Hloc H1 H2 Hd Ht.
  assert (Hne : tomorrowDate <> nowDate).
  { unfold Index.getNowJst in *. change (9 * 60 * 60 * 1000) with (9 * msPerHour) in *.
    rewrite (TimeClip_four_digit_year _ H1) in *.
    assert (Hr : Z.abs (clock + 9 * msPerHour + msPerDay) <= Index.maxTime).
    { pose proof (TimeClip_four_digit_year _ H2) as Hc. unfold Index.TimeClip in Hc.
      destruct (Z.abs (clock + 9 * msPerHour + msPerDay) <=? Index.maxTime) eqn:E;
        [| discriminate].
      apply Z.leb_le. exact E. }
    rewrite (getTomorrowDateString_run z _ c Hoff Hloc Hr) in Ht.
    intros E. subst tomorrowDate.
    apply (tomorrow_is_not_today _ H1 H2). congruence. }
  split; [exact Hne |].
  unfold notices, dayBeforeDue, sameDayDue.
  destruct (Index.cellIs (Index.eventDate r) tomorrowDate) eqn:E1;
    destruct (Index.cellIs (Index.eventDate r) nowDate) eqn:E2.
  - exfalso. apply Hne. unfold Index.cellIs in *.
    destruct (Index.eventDate r) as [s |]; [| discriminate].
    apply String.eqb_eq in E1, E2. congruence.
  - rewrite !andb_false_r. cbn [andb]. destruct (_ && _ && _ && _); cbn; lia.
  - rewrite !andb_false_r. cbn [andb]. destruct (_ && _ && _ && _); cbn; lia.
  - rewrite !andb_false_r. cbn. lia.
Qed.

Lemma run_posts_at_most_one_notice_for_a_row_witness :
  "2026-01-13" <> "2026-01-12"
  /\ (List.length (notices "2026-01-12" "20:00" "2026-01-13" meetup) <= 1)%nat.
Proof.
  exact (run_posts_at_most_one_notice_for_a_row utcZone eveningBefore 0
           "2026-01-12" "2026-01-13" "20:00" meetup eq_refl eq_refl eq_refl eq_refl
           eq_refl eq_refl).
Defined.

End JobRun.
